(** * West sales-performance dashboard: normalisation and scoring

    A shallow embedding of the two Python sources of the repository,

    - [excel_converter] : class [SalesDataConverter]
      ([detect_column_format], [safe_convert_numeric],
      [process_standard_format], [process_custom_format], [validate_data],
      [convert_excel_file], [create_sample_excel]), and
    - [streamlit_app_complete] : [convert_excel_to_sales_data],
      [calculate_performance_score], the ranking and the quick stats of the
      page, and the category-leader loop,

    together with the properties the specification states about them and
    further properties read off the code.

    Conventions of the embedding.

    - A Python [float] is a binary64 primitive float; a Python [int] is a
      [Z].  Mixed arithmetic converts the integer with round-to-nearest-even,
      as CPython does.  CPython raises [OverflowError] when an integer of
      magnitude at least [2^1024 - 2^970] meets a float; no spreadsheet cell
      is that large, and the embedding rounds such an integer to an infinity.
    - [None] is the [None] of [option]; a spreadsheet cell is a [value]:
      missing, a number or text.  A pandas row is a finite map from column
      labels to cells and [row.get(key, default)] is a lookup with default.
    - Exceptions are the [Raise] outcomes of [result]; [print] appends to a
      log of diagnostics.
    - Text is 8-bit: [strip] and [lower] are the ASCII ones.
    - The builtins [float(str)], [int(str)] and [repr] of a finite float are
      not code of the repository: they are the fields of [builtins]. *)

From Stdlib Require Import ZArith Floats String Ascii List Lia Bool.
From Stdlib Require Import DecimalString Sorted.
From stdpp Require Import base option gmap strings list fin_maps.
Import ListNotations.

#[local] Set Warnings "-inexact-float".
#[local] Open Scope string_scope.
#[local] Open Scope Z_scope.

(* ================================================================= *)
(** ** The fragment of Python the sources use *)

Module Py.

(** *** Exceptions and outcomes *)

Inductive exn : Set :=
| TypeError
| ValueError
| OverflowError
| ZeroDivisionError
| KeyError.

Inductive result (A : Type) : Type :=
| Ok (a : A)
| Raise (e : exn).
Arguments Ok {A} a.
Arguments Raise {A} e.

(** [x <- m ;; k]: run [m], then [k] on its value; a [Raise] ends the run. *)
Definition bind {A B} (m : result A) (k : A -> result B) : result B :=
  match m with
  | Ok a => k a
  | Raise e => Raise e
  end.

Definition is_ok {A} (r : result A) : bool :=
  match r with Ok _ => true | Raise _ => false end.

(** *** Numbers *)

Inductive num : Set :=
| Int (z : Z)
| Flt (f : float).

(** [float(z)] for an integer: correctly rounded. *)
Definition Z2F (z : Z) : float := SF2Prim (binary_normalize prec emax z 0 false).

(** [float(n)]. *)
Definition to_float (n : num) : float :=
  match n with
  | Int z => Z2F z
  | Flt f => f
  end.

(** An integer as a (not normalised) specification float, for [int / int]. *)
Definition Z2SF_raw (z : Z) : spec_float :=
  match z with
  | Z0 => S754_zero false
  | Zpos p => S754_finite false p 0
  | Zneg p => S754_finite true p 0
  end.

(** [int(f)] for a float: truncation toward zero; [ValueError] on a NaN and
    [OverflowError] on an infinity. *)
Definition float_trunc (f : float) : result Z :=
  match Prim2SF f with
  | S754_nan => Raise ValueError
  | S754_infinity _ => Raise OverflowError
  | S754_zero _ => Ok 0
  | S754_finite s m e =>
      Ok (cond_Zopp s (if 0 <=? e then Zpos m * 2 ^ e else Zpos m / 2 ^ (- e)))
  end.

(** Python compares an [int] with a [float] exactly, not after rounding. *)
Definition Z_compare_SF (z : Z) (x : spec_float) : option comparison :=
  match x with
  | S754_nan => None
  | S754_infinity s => Some (if s then Gt else Lt)
  | S754_zero _ => Some (z ?= 0)
  | S754_finite s m e =>
      let v := cond_Zopp s (Zpos m) in
      Some (if 0 <=? e then z ?= v * 2 ^ e else z * 2 ^ (- e) ?= v)
  end.

Definition float_compare (f g : float) : option comparison :=
  match PrimFloat.compare f g with
  | FEq => Some Eq
  | FLt => Some Lt
  | FGt => Some Gt
  | FNotComparable => None
  end.

(** [None] when a NaN makes the two unordered: every comparison is then
    [False]. *)
Definition num_compare (a b : num) : option comparison :=
  match a, b with
  | Int x, Int y => Some (x ?= y)
  | Int x, Flt g => Z_compare_SF x (Prim2SF g)
  | Flt f, Int y => CompOpp <$> Z_compare_SF y (Prim2SF f)
  | Flt f, Flt g => float_compare f g
  end.

Definition num_ltb (a b : num) : bool :=
  match num_compare a b with Some Lt => true | _ => false end.
Definition num_leb (a b : num) : bool :=
  match num_compare a b with Some (Lt | Eq) => true | _ => false end.
Definition num_gtb (a b : num) : bool :=
  match num_compare a b with Some Gt => true | _ => false end.
Definition num_geb (a b : num) : bool :=
  match num_compare a b with Some (Gt | Eq) => true | _ => false end.
Definition num_eqb (a b : num) : bool :=
  match num_compare a b with Some Eq => true | _ => false end.

(** [a + b] and [a * b]: exact on two integers, binary64 otherwise. *)
Definition num_add (a b : num) : num :=
  match a, b with
  | Int x, Int y => Int (x + y)
  | _, _ => Flt (to_float a + to_float b)
  end.

Definition num_mul (a b : num) : num :=
  match a, b with
  | Int x, Int y => Int (x * y)
  | _, _ => Flt (to_float a * to_float b)
  end.

(** The quotient of [a / b] for a non-zero [b]: the correctly rounded
    quotient of two integers, the binary64 quotient otherwise. *)
Definition num_quot (a b : num) : float :=
  match a, b with
  | Int x, Int y => SF2Prim (SFdiv prec emax (Z2SF_raw x) (Z2SF_raw y))
  | _, _ => (to_float a / to_float b)%float
  end.

(** [a / b] (true division). *)
Definition py_truediv (a b : num) : result num :=
  if num_eqb b (Int 0) then Raise ZeroDivisionError else Ok (Flt (num_quot a b)).

(** [sum(xs)]: the running total starts from the integer [0]. *)
Definition py_sum (xs : list num) : num := fold_left num_add xs (Int 0).

(** [min(a, b)]: the first argument unless the second is smaller. *)
Definition py_min (a b : num) : num := if num_ltb b a then b else a.

(** Truth value of a number: zero is false, a NaN is true. *)
Definition truthy (n : num) : bool := negb (num_eqb n (Int 0)).

(** [x or 0] for [x] a number or [None]. *)
Definition or_zero (x : option num) : num :=
  match x with
  | Some n => if truthy n then n else Int 0
  | None => Int 0
  end.

(** Comparisons and products whose left operand may be [None]: [TypeError]. *)
Definition py_cmp (op : num -> num -> bool) (x : option num) (c : num) : result bool :=
  match x with
  | Some n => Ok (op n c)
  | None => Raise TypeError
  end.
Definition py_le := py_cmp num_leb.
Definition py_gt := py_cmp num_gtb.
Definition py_ge := py_cmp num_geb.

Definition py_mul (x : option num) (c : num) : result num :=
  match x with
  | Some n => Ok (num_mul n c)
  | None => Raise TypeError
  end.

(** *** Text *)

Definition is_space (c : ascii) : bool :=
  let n := N_of_ascii c in
  ((9 <=? n) && (n <=? 13) || (28 <=? n) && (n <=? 32))%N.

Definition lower_char (c : ascii) : ascii :=
  let n := N_of_ascii c in
  if ((65 <=? n) && (n <=? 90))%N then ascii_of_N (n + 32) else c.

Fixpoint lower (s : string) : string :=
  match s with
  | EmptyString => EmptyString
  | String c s' => String (lower_char c) (lower s')
  end.

Fixpoint lstrip (s : string) : string :=
  match s with
  | String c s' => if is_space c then lstrip s' else s
  | EmptyString => EmptyString
  end.

(** Drops trailing white space: a character is kept when something that is
    kept follows it, or when it is not white space itself. *)
Fixpoint rstrip (s : string) : string :=
  match s with
  | EmptyString => EmptyString
  | String c s' =>
      match rstrip s' with
      | EmptyString => if is_space c then EmptyString else String c EmptyString
      | r => String c r
      end
  end.

Definition strip (s : string) : string := rstrip (lstrip s).

(** [s.replace(c, '')] for a one-character [c]. *)
Fixpoint remove_char (c : ascii) (s : string) : string :=
  match s with
  | EmptyString => EmptyString
  | String d s' => if Ascii.eqb c d then remove_char c s' else String d (remove_char c s')
  end.

(** [sub in s]. *)
Fixpoint contains (sub s : string) : bool :=
  String.prefix sub s ||
  match s with
  | EmptyString => false
  | String _ s' => contains sub s'
  end.

(** [s.endswith(suffix)]. *)
Fixpoint endswith (suffix s : string) : bool :=
  String.eqb suffix s ||
  match s with
  | EmptyString => false
  | String _ s' => endswith suffix s'
  end.

(** [str(z)] for an integer. *)
Definition str_of_Z (z : Z) : string := NilZero.string_of_int (Z.to_int z).

(** *** Spreadsheet cells *)

Inductive value : Set :=
| VNone
| VNum (n : num)
| VStr (s : string).

(** The builtins that turn text into numbers and floats into text. *)
Record builtins : Type := {
  float_of_str : string -> option float;  (* float(s); None: ValueError *)
  int_of_str : string -> option Z;        (* int(s); None: ValueError *)
  repr_finite : float -> string           (* str(f) for a finite f *)
}.

(** [pd.isna(v)]. *)
Definition isna (v : value) : bool :=
  match v with
  | VNone => true
  | VNum (Flt f) => is_nan f
  | _ => false
  end.

(** [v == s] for a text literal [s]. *)
Definition eq_str (v : value) (s : string) : bool :=
  match v with
  | VStr t => String.eqb t s
  | _ => false
  end.

Definition str_of_float (py : builtins) (f : float) : string :=
  if is_nan f then "nan"
  else if is_infinity f then (if (f <? 0)%float then "-inf" else "inf")
  else repr_finite py f.

(** [str(v)]. *)
Definition py_str (py : builtins) (v : value) : string :=
  match v with
  | VNone => "None"
  | VNum (Int z) => str_of_Z z
  | VNum (Flt f) => str_of_float py f
  | VStr s => s
  end.

(** [float(v)]. *)
Definition py_float (py : builtins) (v : value) : result float :=
  match v with
  | VNone => Raise TypeError
  | VNum n => Ok (to_float n)
  | VStr s =>
      match float_of_str py s with
      | Some f => Ok f
      | None => Raise ValueError
      end
  end.

(** [int(v)]. *)
Definition py_int (py : builtins) (v : value) : result Z :=
  match v with
  | VNone => Raise TypeError
  | VNum (Int z) => Ok z
  | VNum (Flt f) => float_trunc f
  | VStr s =>
      match int_of_str py s with
      | Some z => Ok z
      | None => Raise ValueError
      end
  end.

(** A pandas row and a table: the rows in order, indexed from 0. *)
Abbreviation Series := (gmap string value).

Record DataFrame : Type := {
  columns : list string;
  rows : list Series
}.

(** [row.get(key, default)]. *)
Definition row_get (row : Series) (key : string) (dflt : value) : value :=
  default dflt (row !! key).

(** *** Splitting and sorting *)

(** [s.split(sep)] for a one-character [sep]: the pieces between the
    separators, in order; there is always at least one piece. *)
Fixpoint split_on (sep : ascii) (s : string) : list string :=
  match s with
  | EmptyString => [EmptyString]
  | String c s' =>
      if Ascii.eqb c sep then EmptyString :: split_on sep s'
      else match split_on sep s' with
           | piece :: pieces => String c piece :: pieces
           | [] => [String c EmptyString]
           end
  end.

(** The characters of [s] up to its first white space. *)
Fixpoint word (s : string) : string :=
  match s with
  | EmptyString => EmptyString
  | String c s' => if is_space c then EmptyString else String c (word s')
  end.

(** [s.split()[0]]: the first run of characters that are not white space;
    [None] stands for the [IndexError] raised when there is none. *)
Definition first_word (s : string) : option string :=
  match lstrip s with
  | EmptyString => None
  | s' => Some (word s')
  end.

Section Sorting.
Context {A : Type} (key : A -> num).

(** The place of [x] in front of an ascending run: after the items whose key
    is smaller, before the first one whose key is not. *)
Fixpoint insert_sorted (x : A) (ys : list A) : list A :=
  match ys with
  | [] => [x]
  | y :: ys' => if num_ltb (key y) (key x) then y :: insert_sorted x ys' else x :: ys
  end.

(** A stable ascending sort that compares keys with [<] only. *)
Fixpoint sort_stable (l : list A) : list A :=
  match l with
  | [] => []
  | x :: l' => insert_sorted x (sort_stable l')
  end.

(** [sorted(l, key=key, reverse=True)].  CPython reverses the list, sorts it
    stably in ascending order and reverses the result.  Where [<] orders the
    keys (no NaN among them) a stable sort has one possible result, which
    [sort_stable] computes; with a NaN key CPython's result depends on its
    merge strategy, and the properties below are stated without NaN keys. *)
Definition sorted_reverse (l : list A) : list A := rev (sort_stable (rev l)).

End Sorting.

End Py.

Import Py.

Declare Scope result_scope.
Delimit Scope result_scope with result.
Notation "x <- m ;; k" := (bind m (fun x => k))
  (at level 100, m at next level, right associativity) : result_scope.

(* ================================================================= *)
(** ** The record shape shared by both sources *)

(** A Python [dict] with text keys whose order matters: the association list
    of its items in insertion order. *)
Section Dict.
Context {V : Type}.

Fixpoint dict_lookup (d : list (string * V)) (k : string) : option V :=
    match d with
    | [] => None
    | (k', v) :: d' => if String.eqb k' k then Some v else dict_lookup d' k
    end.

  (** [d[k]]. *)
Definition dict_get (d : list (string * V)) (k : string) : result V :=
    match dict_lookup d k with
    | Some v => Ok v
    | None => Raise KeyError
    end.

  (** [d[k] = v]: an existing key keeps its place, a new one goes last. *)
Fixpoint dict_set (d : list (string * V)) (k : string) (v : V) : list (string * V) :=
    match d with
    | [] => [(k, v)]
    | (k', v') :: d' =>
        if String.eqb k' k then (k', v) :: d' else (k', v') :: dict_set d' k v
    end.

Definition dict_keys (d : list (string * V)) : list string := map fst d.
End Dict.

(** [{'appointments': .., 'closeRate': .., 'captureRate': ..}]; each entry a
    number or [None]. *)
Record BucketMetrics : Set := {
  appointments : option num;
  closeRate : option num;
  captureRate : option num
}.

(** [{'name': .., 'totalAppts': .., 'overallClose': .., 'overallCapture': ..,
    'categories': {..}}]. *)
Record RepRecord : Set := {
  name : string;
  totalAppts : option num;
  overallClose : option num;
  overallCapture : option num;
  categories : list (string * BucketMetrics)
}.

Definition unit_categories : list string := ["0-4"; "5-9"; "10-17"; "18-25"; "26+"].

Definition appts_col (cat : string) : string := "(" ++ cat ++ ") Issued Appts".
Definition close_col (cat : string) : string := "(" ++ cat ++ ") Overall Close %".
Definition capture_col (cat : string) : string := "(" ++ cat ++ ") Units Captured on Sold Jobs %".

(* ================================================================= *)
(** ** excel_converter: [SalesDataConverter] *)

Module Converter.

(** What the converter prints: its two warning lines. *)
Inductive diag : Set :=
| ConversionWarning (v : value) (dflt : num)
    (* Warning: Could not convert '{value}' to numeric. Using default: {default} *)
| RowWarning (idx : Z) (rep_name : string) (e : exn).
    (* Warning: Error processing row {idx} for {rep_name}: {e} *)

(** A computation that prints and then returns or raises. *)
Record io (A : Type) : Type := IO {
  outcome : result A;
  printed : list diag
}.
Arguments IO {A} outcome printed.
Arguments outcome {A} i.
Arguments printed {A} i.

Definition ret {A} (a : A) : io A := IO (Ok a) [].

(** What [m] printed comes before what [k] prints. *)
Definition io_bind {A B} (m : io A) (k : A -> io B) : io B :=
  match outcome m with
  | Ok a => IO (outcome (k a)) (printed m ++ printed (k a))
  | Raise e => IO (Raise e) (printed m)
  end.

Declare Scope io_scope.
Delimit Scope io_scope with io.
Notation "x <- m ;; k" := (io_bind m (fun x => k))
  (at level 100, m at next level, right associativity) : io_scope.
#[local] Open Scope io_scope.

Definition print (d : diag) : io unit := IO (Ok ()) [d].

Definition lift {A} (r : result A) : io A := IO r [].

(** [try: body / except <caught>: handler]. *)
Definition try_except {A} (body : io A) (caught : exn -> bool) (handler : exn -> io A) : io A :=
  match outcome body with
  | Ok _ => body
  | Raise e =>
      if caught e then IO (outcome (handler e)) (printed body ++ printed (handler e))
      else body
  end.

Definition ValueError_or_TypeError (e : exn) : bool :=
  match e with
  | ValueError | TypeError => true
  | _ => false
  end.

Definition any_Exception (e : exn) : bool := true.

(** [detect_column_format]: some label contains ["(<cat>) Issued Appts"]. *)
Definition detect_column_format (df : DataFrame) : string :=
  if existsb (fun col => existsb (fun cat => contains (appts_col cat) col) unit_categories)
             (columns df)
  then "standard" else "custom".

Section WithBuiltins.
Context (py : builtins).

  (** The value of a cell that holds no number: [None if is_percentage and
      default == 0 else default]. *)
Definition no_value (is_percentage : bool) (dflt : num) : option num :=
    if is_percentage && num_eqb dflt (Int 0) then None else Some dflt.

  (** The text clean-up of [safe_convert_numeric]:
      [value.replace('%', '').replace(',', '').strip()]. *)
Definition clean (s : string) : string :=
    strip (remove_char "," (remove_char "%" s)).

  (** The fraction-to-percent rule:
      [if is_percentage and numeric_val <= 1.0: numeric_val *= 100]. *)
Definition rescale (is_percentage : bool) (numeric_val : float) : float :=
    if is_percentage && (numeric_val <=? 1)%float then (numeric_val * 100)%float
    else numeric_val.

Definition safe_convert_numeric (v : value) (is_percentage : bool) (dflt : num)
    : io (option num) :=
    if isna v || eq_str v "-" || eq_str v "" || (match v with VNone => true | _ => false end)
    then ret (no_value is_percentage dflt)
    else
      (* inside the try, [value] is rebound to the cleaned text *)
      let v' := match v with VStr s => VStr (clean s) | _ => v end in
      try_except
        (match v' with
         | VStr s =>
             if String.eqb s "" || String.eqb s "-"
             then ret (no_value is_percentage dflt)
             else
               numeric_val <- lift (py_float py v') ;;
               ret (Some (Flt (rescale is_percentage numeric_val)))
         | _ =>
             numeric_val <- lift (py_float py v') ;;
             ret (Some (Flt (rescale is_percentage numeric_val)))
         end)
        ValueError_or_TypeError
        (fun _ => _ <- print (ConversionWarning v' dflt) ;; ret (no_value is_percentage dflt)).

  (** The loop [for cat in self.unit_categories] of
      [process_standard_format], filling [rep_data['categories']]. *)
Fixpoint standard_categories (row : Series) (cats : list string)
      (acc : list (string * BucketMetrics)) : io (list (string * BucketMetrics)) :=
    match cats with
    | [] => ret acc
    | cat :: cats' =>
        appts <- safe_convert_numeric (row_get row (appts_col cat) (VNum (Int 0))) false (Int 0) ;;
        close_rate <- safe_convert_numeric (row_get row (close_col cat) VNone) true (Int 0) ;;
        capture_rate <- safe_convert_numeric (row_get row (capture_col cat) VNone) true (Int 0) ;;
        standard_categories row cats'
          (dict_set acc cat
             {| appointments := appts; closeRate := close_rate; captureRate := capture_rate |})
    end.

  (** [rep_name] of the row at [idx]. *)
Definition rep_name_of (idx : Z) (row : Series) : string :=
    strip (py_str py (row_get row "Sales Rep" (VStr ("Rep_" ++ str_of_Z idx)))).

  (** [rep_name == '' or rep_name.lower() == 'nan']. *)
Definition skipped_name (rep_name : string) : bool :=
    String.eqb rep_name "" || String.eqb (lower rep_name) "nan".

  (** The body of the [try] of the row loop, after [rep_name] is bound:
      [Some rep_data] when the row is appended, [None] on [continue]. *)
Definition row_body (rep_name : string) (row : Series) : io (option RepRecord) :=
    if skipped_name rep_name then ret None
    else
      total <- safe_convert_numeric (row_get row "Issued Appts" (VNum (Int 0))) false (Int 0) ;;
      close <- safe_convert_numeric (row_get row "Overall Close %" (VNum (Int 0))) true (Int 0) ;;
      capture <- safe_convert_numeric
                   (row_get row "Units Captured on Sold Jobs %" (VNum (Int 0))) true (Int 0) ;;
      cats <- standard_categories row unit_categories [] ;;
      ret (Some {| name := rep_name; totalAppts := total; overallClose := close;
                   overallCapture := capture; categories := cats |}).

  (** [try: body / except Exception as e: print(..); continue]. *)
Definition guarded_row (idx : Z) (rep_name : string) (body : io (option RepRecord))
    : io (option RepRecord) :=
    try_except body any_Exception
      (fun e => _ <- print (RowWarning idx rep_name e) ;; ret None).

  (** One turn of the row loop of [process_standard_format].  The first
      statement of the [try], which binds [rep_name], cannot raise, so the
      handler always finds the name of the row at hand. *)
Definition standard_row (idx : Z) (row : Series) : io (option RepRecord) :=
    let rep_name := rep_name_of idx row in
    guarded_row idx rep_name (row_body rep_name row).

Fixpoint standard_loop (idx : Z) (rows : list Series) (sales_data : list RepRecord)
    : io (list RepRecord) :=
    match rows with
    | [] => ret sales_data
    | row :: rows' =>
        r <- standard_row idx row ;;
        standard_loop (idx + 1) rows'
          (match r with
           | Some rep_data => sales_data ++ [rep_data]
           | None => sales_data
           end)
    end.

Definition process_standard_format (df : DataFrame) : io (list RepRecord) :=
    standard_loop 0 (rows df) [].


  (** The first loop of [process_custom_format]: one label of
      [df.columns], tried against the four keyword tests in turn. *)
Definition map_column (column_mapping : gmap string string) (col : string)
    : gmap string string :=
    let col_lower := lower col in
    if contains "sales rep" col_lower || contains "rep name" col_lower
       || contains "name" col_lower
    then <["Sales Rep" := col]> column_mapping
    else if contains "total appt" col_lower || contains "issued appt" col_lower
            || contains "appointments" col_lower
    then <["Issued Appts" := col]> column_mapping
    else if contains "overall close" col_lower || contains "close rate" col_lower
            || contains "close %" col_lower
    then <["Overall Close %" := col]> column_mapping
    else if contains "capture" col_lower
            && (contains "overall" col_lower || contains "total" col_lower)
    then <["Units Captured on Sold Jobs %" := col]> column_mapping
    else column_mapping.

Definition column_mapping_of (cols : list string) : gmap string string :=
    fold_left map_column cols ∅.

  (** [column_mapping.get(key, key)]. *)
Definition mapped (column_mapping : gmap string string) (key : string) : string :=
    default key (column_mapping !! key).

  (** The body of [for col in columns], for the category [cat]. *)
Definition custom_category_column (row : Series) (cat : string)
      (rep_data : Series) (col : string) : Series :=
    let col_str := lower col in
    if contains (remove_char "-" cat) (remove_char " " (remove_char "-" col_str)) then
      if contains "appt" col_str then <[appts_col cat := row_get row col (VNum (Int 0))]> rep_data
      else if contains "close" col_str
      then <[close_col cat := row_get row col (VNum (Int 0))]> rep_data
      else if contains "capture" col_str
      then <[capture_col cat := row_get row col (VNum (Int 0))]> rep_data
      else rep_data
    else rep_data.

  (** One turn of the second loop of [process_custom_format]: the
      [rep_data] of the row at [idx].  Its [try] guards only [row.get] and
      [dict] stores, which cannot raise, so the turn is a plain function. *)
Definition custom_row (cols : list string) (column_mapping : gmap string string)
      (idx : Z) (row : Series) : Series :=
    let rep_data : Series :=
      <["Units Captured on Sold Jobs %" :=
          row_get row (mapped column_mapping "Units Captured on Sold Jobs %") (VNum (Int 0))]>
      (<["Overall Close %" :=
          row_get row (mapped column_mapping "Overall Close %") (VNum (Int 0))]>
      (<["Issued Appts" :=
          row_get row (mapped column_mapping "Issued Appts") (VNum (Int 0))]>
      (<["Sales Rep" :=
          row_get row (mapped column_mapping "Sales Rep") (VStr ("Rep_" ++ str_of_Z idx))]>
       ∅))) in
    fold_left
      (fun rep_data cat => fold_left (custom_category_column row cat) cols rep_data)
      unit_categories rep_data.

Fixpoint custom_loop (cols : list string) (column_mapping : gmap string string)
      (idx : Z) (rows : list Series) (standardized_data : list Series) : list Series :=
    match rows with
    | [] => standardized_data
    | row :: rows' =>
        custom_loop cols column_mapping (idx + 1) rows'
          (standardized_data ++ [custom_row cols column_mapping idx row])
    end.

  (** [pd.DataFrame(records)] for a list of dicts: the columns are the keys
      that occur, and a record that lacks one of them holds a NaN there.
      (pandas lists the columns in order of first occurrence; nothing below
      reads that order.) *)
Definition DataFrame_of_records (records : list Series) : DataFrame :=
    let keys : gset string := ⋃ (dom <$> records) in
    {| columns := elements keys;
       rows := (fun r => r ∪ gset_to_gmap (VNum (Flt nan)) keys) <$> records |}.

Definition process_custom_format (df : DataFrame) : io (list RepRecord) :=
    let column_mapping := column_mapping_of (columns df) in
    let standardized_data := custom_loop (columns df) column_mapping 0 (rows df) [] in
    process_standard_format (DataFrame_of_records standardized_data).

End WithBuiltins.

(** [{'total_reps': .., 'reps_with_appointments': .., 'avg_appointments': ..,
    'categories_with_data': {..}}]. *)
Record Stats : Set := {
  total_reps : Z;
  reps_with_appointments : Z;
  avg_appointments : num;
  categories_with_data : list (string * Z)
}.

#[local] Open Scope result_scope.

(** [[x for x in l if p(x)]] for a test that may raise. *)
Fixpoint filterM {A} (p : A -> result bool) (l : list A) : result (list A) :=
  match l with
  | [] => Ok []
  | x :: l' =>
      b <- p x ;;
      r <- filterM p l' ;;
      Ok (if b then x :: r else r)
  end.

(** [sum(..)] over entries that may be [None]: [0 + None] is a [TypeError].
    The total is accumulated from the left, one addition per entry (CPython
    3.12 and later compensate the rounding of a sum of floats; the two agree
    wherever the additions are exact, as on counts). *)
Fixpoint sum_from (acc : num) (xs : list (option num)) : result num :=
  match xs with
  | [] => Ok acc
  | None :: _ => Raise TypeError
  | Some x :: xs' => sum_from (num_add acc x) xs'
  end.

(** [rep['categories'][cat]['appointments'] > 0 and
    rep['categories'][cat]['closeRate'] is not None]. *)
Definition has_category_data (cat : string) (rep : RepRecord) : result bool :=
  cat_data <- dict_get (categories rep) cat ;;
  positive <- py_gt (appointments cat_data) (Int 0) ;;
  Ok (positive && bool_decide (closeRate cat_data ≠ None)).

Fixpoint categories_with_data_of (sales_data : list RepRecord) (cats : list string)
    (acc : list (string * Z)) : result (list (string * Z)) :=
  match cats with
  | [] => Ok acc
  | cat :: cats' =>
      reps_with_cat_data <- filterM (has_category_data cat) sales_data ;;
      categories_with_data_of sales_data cats'
        (dict_set acc cat (Z.of_nat (length reps_with_cat_data)))
  end.

(** [raise ValueError("No valid sales data found")] on an empty list. *)
Definition validate_data (sales_data : list RepRecord) : result Stats :=
  match sales_data with
  | [] => Raise ValueError
  | _ =>
      with_appts <- filterM (fun rep => py_gt (totalAppts rep) (Int 0)) sales_data ;;
      total <- sum_from (Int 0) (totalAppts <$> sales_data) ;;
      avg <- py_truediv total (Int (Z.of_nat (length sales_data))) ;;
      cats <- categories_with_data_of sales_data unit_categories [] ;;
      Ok {| total_reps := Z.of_nat (length sales_data);
              reps_with_appointments := Z.of_nat (length with_appts);
              avg_appointments := avg;
              categories_with_data := cats |}
  end.

(** *** The driver *)

(** What [convert_excel_file] and the methods it calls print, line by line. *)
Inductive line : Type :=
| Loaded (n_rows n_columns : nat)
    (* Loaded Excel file with {len(df)} rows and {len(df.columns)} columns *)
| Columns (labels : list string)            (* Columns: {list(df.columns)} *)
| DetectedFormat (format_type : string)     (* Detected format: {format_type} *)
| CustomFormat        (* Detected custom format. Attempting intelligent mapping... *)
| ColumnMapping (column_mapping : gmap string string)
    (* Column mapping: {column_mapping} *)
| Warning (d : diag)
| ConversionSuccessful (stats : Stats)      (* Conversion successful: {stats} *)
| ErrorConverting (e : exn).                (* Error converting Excel file: {e} *)

(** A run of the driver: what it returned or raised, and what was printed. *)
Record run (A : Type) : Type := Run {
  returned : result A;
  lines : list line
}.
Arguments Run {A} returned lines.
Arguments returned {A} r.
Arguments lines {A} r.

(** [convert_excel_file(file_path, output_format)], given the outcome
    [read_excel] of [pd.read_excel(file_path)] and the text [json_dumps]
    makes of the records.  The two opening lines of [process_custom_format]
    are printed here, where the custom path is taken.  Whatever is raised on
    the way is reported and raised again. *)
Definition convert_excel_file (py : builtins) (json_dumps : list RepRecord -> string)
    (read_excel : result DataFrame) (output_format : string)
    : run (string + list RepRecord) :=
  match read_excel with
  | Raise e => Run (Raise e) [ErrorConverting e]
  | Ok df =>
      let format_type := detect_column_format df in
      let opening :=
        [Loaded (length (rows df)) (length (columns df)); Columns (columns df);
         DetectedFormat format_type] in
      let processed :=
        if String.eqb format_type "standard"
        then (process_standard_format py df, [])
        else (process_custom_format py df,
              [CustomFormat; ColumnMapping (column_mapping_of (columns df))]) in
      let printed_so_far :=
        (opening ++ snd processed ++ map Warning (printed (fst processed)))%list in
      match outcome (fst processed) with
      | Raise e => Run (Raise e) (printed_so_far ++ [ErrorConverting e])
      | Ok sales_data =>
          match validate_data sales_data with
          | Raise e => Run (Raise e) (printed_so_far ++ [ErrorConverting e])
          | Ok stats =>
              Run (Ok (if String.eqb output_format "json"
                       then inl (json_dumps sales_data) else inr sales_data))
                  (printed_so_far ++ [ConversionSuccessful stats])
          end
      end
  end.

(** [pd.DataFrame(data)] for a dict of lists: one column per key, one row
    per position; lists of different lengths are a [ValueError] ("All arrays
    must be of the same length"). *)
Definition DataFrame_of_columns (data : list (string * list value)) : result DataFrame :=
  match data with
  | [] => Ok {| columns := []; rows := [] |}
  | (_, first) :: _ =>
      if forallb (fun column => Nat.eqb (length (snd column)) (length first)) data
      then Ok {| columns := dict_keys data;
                 rows := map (fun i => list_to_map
                                         (omap (fun column => pair (fst column) <$> snd column !! i)
                                               data))
                             (seq 0 (length first)) |}
      else Raise ValueError
  end.

Definition mix_col (cat : string) : string := "(" ++ cat ++ ") Mix %".

Definition texts (l : list string) : list value := map VStr l.
Definition ints (l : list Z) : list value := map (fun z => VNum (Int z)) l.
Definition floats (l : list float) : list value := map (fun f => VNum (Flt f)) l.

(** The label of a column whose header cell breaks the line after [s]. *)
Definition broken_label (s : string) : string :=
  s ++ String "010" "                    ".

(** [sample_data] of [create_sample_excel]: the dict display, then the four
    stores of each turn of [for cat in categories]. *)
Definition sample_data : list (string * list value) :=
  fold_left
    (fun sample_data cat =>
       dict_set
         (dict_set
            (dict_set
               (dict_set sample_data (appts_col cat) (ints [8; 6; 4; 4; 3]))
               (mix_col cat) (floats [0.32; 0.20; 0.16; 0.16; 0.12]%float))
            (close_col cat) (floats [0.38; 0.50; 0.25; 0.25; 0.33]%float))
         (capture_col cat) (floats [1.2; 0.9; 1.1; 0.8; 1.0]%float))
    ["0-4"; "5-9"; "10-17"; "18-25"; "26+"]
    [("Sales Rep", texts ["John Doe"; "Jane Smith"; "Bob Johnson"]);
     ("Issued Appts", ints [25; 30; 20]);
     (broken_label "RpA ", ints [15000; 18000; 12000]);
     (broken_label "RpU ", ints [1500; 1800; 1200]);
     ("Overall Close %", floats [0.35; 0.42; 0.28]%float);
     (broken_label "Avg Sale Price ", ints [42857; 42857; 42857]);
     ("Units Captured on Sold Jobs %", floats [1.05; 0.98; 1.12]%float)].

(** [create_sample_excel(filename)]: the frame written to [filename],
    paired with the name the method returns. *)
Definition create_sample_excel (filename : string) : result (DataFrame * string) :=
  df <- DataFrame_of_columns sample_data ;;
  Ok (df, filename).

End Converter.

(* ================================================================= *)
(** ** streamlit_app_complete: the dashboard *)

Module Dashboard.

#[local] Open Scope result_scope.

Section WithBuiltins.
Context (py : builtins).

  (** What [safe_get] returns for a cell that holds no number:
      [default if key.endswith('Appts') else None if 'Close' in key else default]. *)
Definition fallback (key : string) (dflt : num) : option num :=
    if endswith "Appts" key then Some dflt
    else if contains "Close" key then None
    else Some dflt.

  (** The local function [safe_get(key, default=0)] of the row loop; its bare
      [except] catches whatever the conversion raises. *)
Definition safe_get (row : Series) (key : string) (dflt : num) : option num :=
    let val := row_get row key (VNum dflt) in
    if isna val || eq_str val "-" || eq_str val "" then fallback key dflt
    else
      match
        (if contains "Close" key || contains "Capture" key
         then f <- py_float py val ;; Ok (Flt f)
         else z <- py_int py val ;; Ok (Int z))
      with
      | Ok n => Some n
      | Raise _ => fallback key dflt
      end.

  (** [x * 100 if x <= 1 else x], as written for the two overall rates: the
      test is made on whatever [safe_get] returned. *)
Definition overall_rate (x : option num) : result (option num) :=
    small <- py_le x (Int 1) ;;
    if small then (y <- py_mul x (Int 100) ;; Ok (Some y)) else Ok x.

  (** [if rate is not None and rate <= 1: rate *= 100], as written for the
      bucket rates. *)
Definition bucket_rate (x : option num) : option num :=
    match x with
    | Some n => if num_leb n (Int 1) then Some (num_mul n (Int 100)) else Some n
    | None => None
    end.

  (** The loop [for cat in categories] of [convert_excel_to_sales_data]. *)
Definition dashboard_category (row : Series)
      (acc : list (string * BucketMetrics)) (cat : string) : list (string * BucketMetrics) :=
    let appts := safe_get row (appts_col cat) (Int 0) in
    let close_rate := safe_get row (close_col cat) (Int 0) in
    let capture_rate := safe_get row (capture_col cat) (Int 0) in
    let close_rate := bucket_rate close_rate in
    let capture_rate := bucket_rate capture_rate in
    dict_set acc cat
      {| appointments := appts; closeRate := close_rate; captureRate := capture_rate |}.

  (** One turn of the row loop: the [rep_data] of the row.  Nothing catches
      what the dict display raises. *)
Definition dashboard_row (row : Series) : result RepRecord :=
    let rep_name := py_str py (row_get row "Sales Rep" (VStr "Unknown")) in
    let total := safe_get row "Issued Appts" (Int 0) in
    close <- overall_rate (safe_get row "Overall Close %" (Int 0)) ;;
    capture <- overall_rate (safe_get row "Units Captured on Sold Jobs %" (Int 0)) ;;
    Ok {| name := rep_name; totalAppts := total; overallClose := close;
          overallCapture := capture;
          categories := fold_left (dashboard_category row) unit_categories [] |}.

Fixpoint dashboard_loop (rows : list Series) (sales_data : list RepRecord)
    : result (list RepRecord) :=
    match rows with
    | [] => Ok sales_data
    | row :: rows' =>
        rep_data <- dashboard_row row ;;
        dashboard_loop rows' (sales_data ++ [rep_data])
    end.

Definition convert_excel_to_sales_data (df : DataFrame) : result (list RepRecord) :=
    dashboard_loop (rows df) [].

End WithBuiltins.

(** An entry of [valid_categories]: the three numbers of a bucket that
    passed the test, [captureRate or 0] in place of the capture rate. *)
Record ValidCategory : Set := {
  valid_appointments : num;
  valid_closeRate : num;
  valid_captureRate : num
}.

(** [cat_data['appointments'] >= 2 and cat_data['closeRate'] is not None and
    cat_data['closeRate'] > 0], and the entry appended when it holds. *)
Definition valid_category (cat_data : BucketMetrics) : result (option ValidCategory) :=
  enough <- py_ge (appointments cat_data) (Int 2) ;;
  if enough then
    match appointments cat_data, closeRate cat_data with
    | Some a, Some c =>
        if num_gtb c (Int 0)
        then Ok (Some {| valid_appointments := a; valid_closeRate := c;
                         valid_captureRate := or_zero (captureRate cat_data) |})
        else Ok None
    | _, _ => Ok None
    end
  else Ok None.

(** The first loop of [calculate_performance_score]. *)
Fixpoint valid_categories_of (rep : RepRecord) (cats : list string)
    (valid_categories : list ValidCategory) : result (list ValidCategory) :=
  match cats with
  | [] => Ok valid_categories
  | cat_key :: cats' =>
      cat_data <- dict_get (categories rep) cat_key ;;
      v <- valid_category cat_data ;;
      valid_categories_of rep cats'
        (match v with
         | Some entry => valid_categories ++ [entry]
         | None => valid_categories
         end)
  end.

(** The running totals [(total_weighted_close, total_weighted_capture,
    total_weight)] and one turn of the second loop. *)
Definition accumulate (totals : num * num * num) (cat : ValidCategory) : num * num * num :=
  let '(total_weighted_close, total_weighted_capture, total_weight) := totals in
  let weight := valid_appointments cat in
  (num_add total_weighted_close (num_mul (valid_closeRate cat) weight),
   num_add total_weighted_capture (num_mul (valid_captureRate cat) weight),
   num_add total_weight weight).

(** [total / total_weight if total_weight > 0 else 0]. *)
Definition weighted_average (total total_weight : num) : result num :=
  if num_gtb total_weight (Int 0) then py_truediv total total_weight else Ok (Int 0).

(** The dict [calculate_performance_score] returns. *)
Record ScoredRep : Set := {
  scored_name : string;
  score : num;
  scored_overallClose : option num;
  avgCategoryClose : num;
  avgCategoryCapture : num;
  scored_totalAppts : option num;
  validCategories : Z;
  rawData : RepRecord
}.

Definition calculate_performance_score (rep : RepRecord) : result ScoredRep :=
  valid_categories <- valid_categories_of rep unit_categories [] ;;
  let '(total_weighted_close, total_weighted_capture, total_weight) :=
    fold_left accumulate valid_categories (Int 0, Int 0, Int 0) in
  avg_category_close <- weighted_average total_weighted_close total_weight ;;
  avg_category_capture <- weighted_average total_weighted_capture total_weight ;;
  let normalized_capture := py_min avg_category_capture (Int 150) in
  weighted_close <- py_mul (overallClose rep) (Flt 0.50) ;;
  let score :=
    num_add (num_add weighted_close (num_mul avg_category_close (Flt 0.15)))
            (num_mul normalized_capture (Flt 0.35)) in
  Ok {| scored_name := name rep;
        score := score;
        scored_overallClose := overallClose rep;
        avgCategoryClose := avg_category_close;
        avgCategoryCapture := avg_category_capture;
        scored_totalAppts := totalAppts rep;
        validCategories := Z.of_nat (length valid_categories);
        rawData := rep |}.

(** [(closeRate * 0.6) + (min(captureRate or 0, 150) * 0.4)]. *)
Definition category_score (close_rate : num) (capture_rate : option num) : num :=
  num_add (num_mul close_rate (Flt 0.6))
          (num_mul (py_min (or_zero capture_rate) (Int 150)) (Flt 0.4)).

(** The test of the category-leader loop,
    [cat_data['appointments'] >= 3 and cat_data['closeRate'] is not None and
    cat_data['closeRate'] > 0], and the score computed when it holds. *)
Definition leader_score (cat_data : BucketMetrics) : result (option num) :=
  enough <- py_ge (appointments cat_data) (Int 3) ;;
  if enough then
    match closeRate cat_data with
    | Some c =>
        if num_gtb c (Int 0) then Ok (Some (category_score c (captureRate cat_data)))
        else Ok None
    | None => Ok None
    end
  else Ok None.

(** The loop [for rep in st.session_state.sales_data], filling
    [category_reps] with pairs [(rep, category_score)]. *)
Fixpoint category_reps_of (cat_key : string) (sales_data : list RepRecord)
    (category_reps : list (RepRecord * num)) : result (list (RepRecord * num)) :=
  match sales_data with
  | [] => Ok category_reps
  | rep :: sales_data' =>
      cat_data <- dict_get (categories rep) cat_key ;;
      s <- leader_score cat_data ;;
      category_reps_of cat_key sales_data'
        (match s with
         | Some category_score => category_reps ++ [(rep, category_score)]
         | None => category_reps
         end)
  end.

(** [max(items, key=lambda x: x[1])] on a non-empty list: a later item
    replaces the running maximum only when its key is strictly greater. *)
Definition max_by_score (first : RepRecord * num) (others : list (RepRecord * num))
  : RepRecord * num :=
  fold_left (fun best item => if num_gtb (snd item) (snd best) then item else best)
            others first.

(** The loop [for cat_key in unit_categories] that fills [category_leaders]. *)
Fixpoint category_leaders_from (sales_data : list RepRecord) (cats : list string)
    (category_leaders : gmap string RepRecord) : result (gmap string RepRecord) :=
  match cats with
  | [] => Ok category_leaders
  | cat_key :: cats' =>
      category_reps <- category_reps_of cat_key sales_data [] ;;
      category_leaders_from sales_data cats'
        (match category_reps with
         | first :: others => <[cat_key := fst (max_by_score first others)]> category_leaders
         | [] => category_leaders
         end)
  end.

Definition category_leaders (sales_data : list RepRecord) : result (gmap string RepRecord) :=
  category_leaders_from sales_data unit_categories ∅.

(** *** The page: rankings and quick stats *)

(** [sheet_url.split('/')[5]], the sheet id [connect_to_google_sheets]
    opens; [None] stands for the [IndexError] its handler reports. *)
Definition sheet_id (sheet_url : string) : option string :=
  split_on "/" sheet_url !! 5%nat.

(** [[calculate_performance_score(rep) for rep in sales_data]]. *)
Fixpoint scored_reps (sales_data : list RepRecord) : result (list ScoredRep) :=
  match sales_data with
  | [] => Ok []
  | rep :: sales_data' =>
      scored <- calculate_performance_score rep ;;
      rest <- scored_reps sales_data' ;;
      Ok (scored :: rest)
  end.

(** [ranked_reps = sorted([..], key=lambda x: x['score'], reverse=True)]. *)
Definition ranked_reps (sales_data : list RepRecord) : result (list ScoredRep) :=
  scored <- scored_reps sales_data ;;
  Ok (sorted_reverse score scored).

(** [sum(rep['overallClose'] for rep in sales_data) / len(sales_data)]. *)
Definition avg_close (sales_data : list RepRecord) : result num :=
  total <- Converter.sum_from (Int 0) (map overallClose sales_data) ;;
  py_truediv total (Int (Z.of_nat (length sales_data))).

(** [sum(min(rep['overallCapture'], 150) for rep in sales_data)
     / len(sales_data)]; [min(None, 150)] is a [TypeError], as adding [None]
    is. *)
Definition avg_capture (sales_data : list RepRecord) : result num :=
  total <- Converter.sum_from (Int 0)
             (map (fun rep => (fun capture => py_min capture (Int 150)) <$> overallCapture rep)
                  sales_data) ;;
  py_truediv total (Int (Z.of_nat (length sales_data))).

(** [top_performer = ranked_reps[0] if ranked_reps else {'name': 'N/A',
    'score': 0}], by its two entries. *)
Definition top_performer (ranked : list ScoredRep) : string * num :=
  match ranked with
  | top :: _ => (scored_name top, score top)
  | [] => ("N/A", Int 0)
  end.

(** [top_performer['name'].split()[0]], the value of the top-performer
    card. *)
Definition top_performer_card (ranked : list ScoredRep) : option string :=
  first_word (fst (top_performer ranked)).

(** [filtered_reps = [rep for rep in ranked_reps
                      if rep['totalAppts'] >= min_appointments]]. *)
Definition filtered_reps (ranked : list ScoredRep) (min_appointments : Z)
    : result (list ScoredRep) :=
  Converter.filterM (fun rep => py_ge (scored_totalAppts rep) (Int min_appointments)) ranked.

(** *** The page: leader cards, category tables and the matrix *)

(** A number an f-string shows with a float format ([:.1f], [:.0f]):
    formatting [None] that way is a [TypeError].  The text shown is
    represented by the number. *)
Definition shown (x : option num) : result num :=
  match x with
  | Some n => Ok n
  | None => Raise TypeError
  end.

(** The card of a bucket: nothing ("Building Data") without a leader, else
    the leader's name, the close and the capture rate shown, and the
    appointments. *)
Definition leader_card (category_leaders : gmap string RepRecord) (cat_key : string)
    : result (option (string * num * num * option num)) :=
  match category_leaders !! cat_key with
  | Some leader =>
      cat_data <- dict_get (categories leader) cat_key ;;
      close_rate <- shown (closeRate cat_data) ;;
      capture_rate <- shown (captureRate cat_data) ;;
      Ok (Some (name leader, close_rate, capture_rate, appointments cat_data))
  | None => Ok None
  end.

(** A row of a category ranking table:
    [{'Rank': .., 'Sales Rep': .., 'Close Rate': .., 'Capture Rate': ..,
      'Appointments': .., 'Score': ..}]. *)
Record TableRow : Set := {
  Rank : Z;
  Sales_Rep : string;
  Close_Rate : num;          (* shown as {closeRate:.1f}% *)
  Capture_Rate : num;        (* shown as {captureRate:.0f}% *)
  Appointments : num;
  Score : num
}.

(** The test of the table loop, [cat_data['appointments'] >= 2 and
    cat_data['closeRate'] is not None and cat_data['closeRate'] > 0], and the
    row appended when it holds. *)
Definition table_row (rep : RepRecord) (cat_data : BucketMetrics) (rank : Z)
    : result (option TableRow) :=
  enough <- py_ge (appointments cat_data) (Int 2) ;;
  if enough then
    match appointments cat_data, closeRate cat_data with
    | Some a, Some c =>
        if num_gtb c (Int 0) then
          let category_score := category_score c (captureRate cat_data) in
          capture_rate <- shown (captureRate cat_data) ;;
          Ok (Some {| Rank := rank; Sales_Rep := name rep; Close_Rate := c;
                      Capture_Rate := capture_rate; Appointments := a;
                      Score := category_score |})
        else Ok None
    | _, _ => Ok None
    end
  else Ok None.

(** The loop [for rep in st.session_state.sales_data] of a table. *)
Fixpoint table_rows (cat_key : string) (sales_data : list RepRecord)
    (category_reps : list TableRow) : result (list TableRow) :=
  match sales_data with
  | [] => Ok category_reps
  | rep :: sales_data' =>
      cat_data <- dict_get (categories rep) cat_key ;;
      row <- table_row rep cat_data (Z.of_nat (length category_reps) + 1) ;;
      table_rows cat_key sales_data'
        (match row with
         | Some r => category_reps ++ [r]
         | None => category_reps
         end)
  end.

(** [sorted(category_reps, key=lambda x: x['Score'], reverse=True)[:10]]. *)
Definition top_ten (category_reps : list TableRow) : list TableRow :=
  take 10 (sorted_reverse Score category_reps).

(** [df_cat['Rank'] = range(1, len(df_cat) + 1)]. *)
Definition renumbered (rows : list TableRow) : list TableRow :=
  imap (fun i r => {| Rank := Z.of_nat i + 1; Sales_Rep := Sales_Rep r;
                      Close_Rate := Close_Rate r; Capture_Rate := Capture_Rate r;
                      Appointments := Appointments r; Score := Score r |}) rows.

(** The rows of the ranking table of a bucket, their scores still with them
    (the page drops the column before it draws the table, and draws an info
    box in place of an empty table). *)
Definition category_table (cat_key : string) (sales_data : list RepRecord)
    : result (list TableRow) :=
  category_reps <- table_rows cat_key sales_data [] ;;
  Ok (renumbered (top_ten category_reps)).

(** A cell of the matrix: the close rate and the capture rate shown and the
    appointments, or nothing (a dash). *)
Definition matrix_cell (cat_data : BucketMetrics) : result (option (num * num * num)) :=
  enough <- py_ge (appointments cat_data) (Int 2) ;;
  if enough then
    match appointments cat_data, closeRate cat_data with
    | Some a, Some c =>
        capture_rate <- shown (captureRate cat_data) ;;
        Ok (Some (c, capture_rate, a))
    | _, _ => Ok None
    end
  else Ok None.

(** The five cells of the matrix row of a ranked rep. *)
Fixpoint matrix_cells (rep : ScoredRep) (cats : list string)
    : result (list (option (num * num * num))) :=
  match cats with
  | [] => Ok []
  | cat_key :: cats' =>
      cat_data <- dict_get (categories (rawData rep)) cat_key ;;
      cell <- matrix_cell cat_data ;;
      rest <- matrix_cells rep cats' ;;
      Ok (cell :: rest)
  end.

(** The matrix: for each ranked rep its name, its score and its cells. *)
Fixpoint matrix (ranked : list ScoredRep)
    : result (list (string * num * list (option (num * num * num)))) :=
  match ranked with
  | [] => Ok []
  | rep :: ranked' =>
      cells <- matrix_cells rep unit_categories ;;
      rest <- matrix ranked' ;;
      Ok ((scored_name rep, score rep, cells) :: rest)
  end.

End Dashboard.

(* ================================================================= *)
(** ** The specification's own notions *)

Module Spec.

(** The percentage rescale law: a magnitude of at most 1.0 is a fraction and
    is multiplied by 100, a larger one is already a percentage. *)
Definition percent_rule (m : float) : float :=
  if (m <=? 1)%float then (m * 100)%float else m.

(** The magnitude a raw cell parses to in [safe_convert_numeric], if any:
    the cell is not one of the "no value" markers, and its text, once
    cleaned, is read by [float]. *)
Definition parses (py : builtins) (v : value) (m : float) : Prop :=
  isna v = false /\ eq_str v "-" = false /\ eq_str v "" = false /\
  match v with
  | VNone => False
  | VNum n => m = to_float n
  | VStr s =>
      Converter.clean s <> "" /\ Converter.clean s <> "-" /\
      float_of_str py (Converter.clean s) = Some m
  end.

(** Text without white space: [strip] leaves it alone. *)
Fixpoint no_space (s : string) : bool :=
  match s with
  | EmptyString => true
  | String c s' => negb (is_space c) && no_space s'
  end.

(** The value [safe_convert_numeric] returns. *)
Definition coerce (py : builtins) (v : value) (is_percentage : bool) (dflt : num)
  : option num :=
  match Converter.outcome (Converter.safe_convert_numeric py v is_percentage dflt) with
  | Ok x => x
  | Raise _ => Converter.no_value is_percentage dflt
  end.

(** The bucket metrics and the record the standard normalizer derives from a
    row, by value coercion of the cells under the canonical labels. *)
Definition bucket_of (py : builtins) (row : Series) (cat : string) : BucketMetrics :=
  {| appointments := coerce py (row_get row (appts_col cat) (VNum (Int 0))) false (Int 0);
     closeRate := coerce py (row_get row (close_col cat) VNone) true (Int 0);
     captureRate := coerce py (row_get row (capture_col cat) VNone) true (Int 0) |}.

Definition record_of (py : builtins) (rep_name : string) (row : Series) : RepRecord :=
  {| name := rep_name;
     totalAppts := coerce py (row_get row "Issued Appts" (VNum (Int 0))) false (Int 0);
     overallClose := coerce py (row_get row "Overall Close %" (VNum (Int 0))) true (Int 0);
     overallCapture :=
       coerce py (row_get row "Units Captured on Sold Jobs %" (VNum (Int 0))) true (Int 0);
     categories := map (fun cat => (cat, bucket_of py row cat)) unit_categories |}.

(** The rows of a table that survive the name test, each with its index,
    in row order. *)
Fixpoint kept_rows (py : builtins) (idx : Z) (rows : list Series) : list (Z * Series) :=
  match rows with
  | [] => []
  | row :: rows' =>
      if Converter.skipped_name (Converter.rep_name_of py idx row)
      then kept_rows py (idx + 1) rows'
      else (idx, row) :: kept_rows py (idx + 1) rows'
  end.

(** The name test on an indexed row: its name is neither empty nor the
    missing-value sentinel. *)
Definition survives (py : builtins) (x : Z * Series) : bool :=
  negb (Converter.skipped_name (Converter.rep_name_of py (fst x) (snd x))).

(** The record of an indexed row. *)
Definition record_of_row (py : builtins) (x : Z * Series) : RepRecord :=
  record_of py (Converter.rep_name_of py (fst x) (snd x)) (snd x).

(** The rows of a table, each with its index. *)
Fixpoint indexed {A} (idx : Z) (l : list A) : list (Z * A) :=
  match l with
  | [] => []
  | x :: l' => (idx, x) :: indexed (idx + 1) l'
  end.

(** The keyword tests of the column mapper, on the lower-cased label. *)
Definition is_name_label (col : string) : bool :=
  let l := lower col in
  contains "sales rep" l || contains "rep name" l || contains "name" l.
Definition is_appts_label (col : string) : bool :=
  let l := lower col in
  contains "total appt" l || contains "issued appt" l || contains "appointments" l.
Definition is_close_label (col : string) : bool :=
  let l := lower col in
  contains "overall close" l || contains "close rate" l || contains "close %" l.
Definition is_capture_label (col : string) : bool :=
  let l := lower col in
  contains "capture" l && (contains "overall" l || contains "total" l).

(** The keyword test of a canonical slot. *)
Definition slot_test (slot : string) (col : string) : bool :=
  if String.eqb slot "Sales Rep" then is_name_label col
  else if String.eqb slot "Issued Appts" then is_appts_label col
  else if String.eqb slot "Overall Close %" then is_close_label col
  else if String.eqb slot "Units Captured on Sold Jobs %" then is_capture_label col
  else false.

Definition canonical_slots : list string :=
  ["Sales Rep"; "Issued Appts"; "Overall Close %"; "Units Captured on Sold Jobs %"].

(** The slot a label is filed under: that of the first test it passes, the
    tests being tried in the order name, appointments, close, capture. *)
Definition slot_of (col : string) : option string :=
  if is_name_label col then Some "Sales Rep"
  else if is_appts_label col then Some "Issued Appts"
  else if is_close_label col then Some "Overall Close %"
  else if is_capture_label col then Some "Units Captured on Sold Jobs %"
  else None.

(** The bucket metrics the dashboard derives from a row. *)
Definition dashboard_bucket (py : builtins) (row : Series) (cat : string) : BucketMetrics :=
  {| appointments := Dashboard.safe_get py row (appts_col cat) (Int 0);
     closeRate := Dashboard.bucket_rate (Dashboard.safe_get py row (close_col cat) (Int 0));
     captureRate :=
       Dashboard.bucket_rate (Dashboard.safe_get py row (capture_col cat) (Int 0)) |}.

(** The bucket invariant of a record: its [categories] hold exactly the five
    buckets, in order, so each of them can be indexed. *)
Definition five_buckets (r : RepRecord) : Prop :=
  dict_keys (categories r) = unit_categories /\
  forall cat, In cat unit_categories -> exists cat_data, dict_get (categories r) cat = Ok cat_data.

(** A bucket is valid for scoring iff [appointments >= 2], the close rate is
    present and [closeRate > 0]; a valid bucket enters the averages with its
    appointments, its close rate and [captureRate or 0]. *)
Definition valid_bucket (cat_data : BucketMetrics) : option Dashboard.ValidCategory :=
  match appointments cat_data, closeRate cat_data with
  | Some a, Some c =>
      if num_geb a (Int 2) && num_gtb c (Int 0)
      then Some {| Dashboard.valid_appointments := a;
                   Dashboard.valid_closeRate := c;
                   Dashboard.valid_captureRate := or_zero (captureRate cat_data) |}
      else None
  | _, _ => None
  end.

(** The valid buckets of a rep, in bucket order. *)
Definition valid_buckets (rep : RepRecord) : list Dashboard.ValidCategory :=
  omap (fun cat => dict_lookup (categories rep) cat ≫= valid_bucket) unit_categories.

(** [Σ appointments_i] and [Σ rate_i * appointments_i] over the valid
    buckets. *)
Definition weight_sum (valid : list Dashboard.ValidCategory) : num :=
  py_sum (map Dashboard.valid_appointments valid).

Definition weighted_sum (rate : Dashboard.ValidCategory -> num)
    (valid : list Dashboard.ValidCategory) : num :=
  py_sum (map (fun v => num_mul (rate v) (Dashboard.valid_appointments v)) valid).

(** The appointment-weighted average of a rate over the valid buckets; [0]
    when there is no weight. *)
Definition average (rate : Dashboard.ValidCategory -> num)
    (valid : list Dashboard.ValidCategory) : num :=
  if num_gtb (weight_sum valid) (Int 0)
  then Flt (num_quot (weighted_sum rate valid) (weight_sum valid))
  else Int 0.

(** [normalizedCapture = min(avgCategoryCaptureRate, 150)]. *)
Definition normalized_capture (avg_capture : num) : num := py_min avg_capture (Int 150).

(** [score = overallCloseRate * 0.50 + avgCategoryCloseRate * 0.15
            + normalizedCapture * 0.35]. *)
Definition score (overall avg_close avg_capture : num) : num :=
  num_add (num_add (num_mul overall (Flt 0.50)) (num_mul avg_close (Flt 0.15)))
          (num_mul (normalized_capture avg_capture) (Flt 0.35)).

(** The synthetic rep of the score weight identity: every bucket with the
    same three numbers, written as integers or as floats. *)
Definition uniform_rep (lit : Z -> num) (overall appts close capture : Z) (rep : RepRecord)
  : Prop :=
  overallClose rep = Some (lit overall) /\
  categories rep =
    map (fun cat => (cat, {| appointments := Some (lit appts);
                             closeRate := Some (lit close);
                             captureRate := Some (lit capture) |}))
        unit_categories.

(** [bucketScore = closeRate * 0.6 + min(captureRate or 0, 150) * 0.4]. *)
Definition bucket_score (close_rate : num) (capture_rate : option num) : num :=
  num_add (num_mul close_rate (Flt 0.6))
          (num_mul (py_min (or_zero capture_rate) (Int 150)) (Flt 0.4)).

(** The bucket score of a rep that qualifies for the leaderboard of a
    bucket: [appointments >= 3], the close rate present and [closeRate > 0]. *)
Definition leader_candidate (cat : string) (rep : RepRecord) : option num :=
  cat_data ← dict_lookup (categories rep) cat;
  match appointments cat_data, closeRate cat_data with
  | Some a, Some c =>
      if num_geb a (Int 3) && num_gtb c (Int 0)
      then Some (bucket_score c (captureRate cat_data))
      else None
  | _, _ => None
  end.

(** The qualifying reps of a bucket with their scores, in record order. *)
Definition candidates (cat : string) (reps : list RepRecord) : list (RepRecord * num) :=
  omap (fun rep => pair rep <$> leader_candidate cat rep) reps.

(** The leader a bucket's candidates elect, if there is any candidate: the
    arg-max of the score as Python's [max] takes it. *)
Definition elected (candidates : list (RepRecord * num)) : option RepRecord :=
  match candidates with
  | first :: others => Some (fst (Dashboard.max_by_score first others))
  | [] => None
  end.









(** A number is positive; [None] is not. *)
Definition positive (x : option num) : bool :=
  match x with
  | Some n => num_gtb n (Int 0)
  | None => false
  end.

(** A record as the data model types it: its total and, for each of the five
    buckets, its appointment count are numbers (rates may be absent). *)
Definition well_formed (r : RepRecord) : Prop :=
  (exists n, totalAppts r = Some n) /\
  forall cat, In cat unit_categories ->
    exists cat_data n, dict_lookup (categories r) cat = Some cat_data /\
                       appointments cat_data = Some n.

(** "Reliable bucket data" of a rep for a bucket: [appointments > 0] and the
    close rate is present. *)
Definition reliable (cat : string) (r : RepRecord) : bool :=
  match dict_lookup (categories r) cat with
  | Some cat_data => positive (appointments cat_data) && bool_decide (closeRate cat_data <> None)
  | None => false
  end.

(** The statistics of a non-empty record set: the number of reps, of reps
    with [totalAppointments > 0], the arithmetic mean of the totals and, per
    bucket, the number of reps with reliable data. *)
Definition stats (rs : list RepRecord) : Converter.Stats :=
  {| Converter.total_reps := Z.of_nat (length rs);
     Converter.reps_with_appointments :=
       Z.of_nat (length (List.filter (fun r => positive (totalAppts r)) rs));
     Converter.avg_appointments :=
       Flt (num_quot (py_sum (map (fun r => default (Int 0) (totalAppts r)) rs))
                     (Int (Z.of_nat (length rs))));
     Converter.categories_with_data :=
       map (fun cat => (cat, Z.of_nat (length (List.filter (reliable cat) rs))))
           unit_categories |}.

End Spec.

(* ================================================================= *)
(** ** Sample tables *)

Module Examples.

Definition NaN : value := VNum (Flt nan).

Definition bucket_cells (cat : string) (appts close capture : value)
  : list (string * value) :=
  [(appts_col cat, appts); (close_col cat, close); (capture_col cat, capture)].

(** A row in the standard layout: a name, the three overall cells, the three
    cells of bucket [0-4], and the same three numbers in each larger bucket. *)
Definition standard_row_of (rep : value) (appts close capture : value)
    (appts04 close04 capture04 : value) : Series :=
  list_to_map
    ([("Sales Rep", rep); ("Issued Appts", appts); ("Overall Close %", close);
      ("Units Captured on Sold Jobs %", capture)]
     ++ bucket_cells "0-4" appts04 close04 capture04
     ++ flat_map (fun cat => bucket_cells cat (VNum (Int 3)) (VNum (Flt 0.4)) (VNum (Flt 1.1)))
                 ["5-9"; "10-17"; "18-25"; "26+"]).

Definition standard_columns : list string :=
  ["Sales Rep"; "Issued Appts"; "Overall Close %"; "Units Captured on Sold Jobs %"]
  ++ flat_map (fun cat => [appts_col cat; close_col cat; capture_col cat]) unit_categories.

Definition ann : Series :=
  standard_row_of (VStr "Ann") (VNum (Int 25)) (VNum (Flt 0.35)) (VNum (Flt 1.05))
                  (VNum (Int 8)) (VNum (Flt 0.5)) (VNum (Flt 1.2)).

(** Bob's overall close rate is missing. *)
Definition bob : Series :=
  standard_row_of (VStr "Bob") (VNum (Int 30)) NaN (VNum (Flt 0.98))
                  (VNum (Int 6)) (VNum (Flt 0.5)) (VNum (Flt 0.9)).


Definition table (rows : list Series) : DataFrame :=
  {| columns := standard_columns; rows := rows |}.

(** Builtins that read no text as a number: enough where every numeric cell
    holds a number already. *)
Definition no_text_numbers : builtins :=
  {| float_of_str := fun _ => None;
     int_of_str := fun _ => None;
     repr_finite := fun _ => "" |}.

(** A record with the same metrics in every bucket. *)
Definition uniform (rep_name : string) (overall appts close capture : num) : RepRecord :=
  {| name := rep_name;
     totalAppts := Some (Int 50);
     overallClose := Some overall;
     overallCapture := Some (Int 100);
     categories :=
       map (fun cat => (cat, {| appointments := Some appts;
                                closeRate := Some close;
                                captureRate := Some capture |}))
           unit_categories |}.

(** The synthetic rep of the score weight identity, and three reps whose
    bucket scores are 70, 85 and 60. *)
Definition synthetic : RepRecord := uniform "Synthetic" (Int 40) (Int 10) (Int 40) (Int 100).
Definition rep70 : RepRecord := uniform "A" (Int 40) (Int 10) (Int 50) (Int 100).
Definition rep85 : RepRecord := uniform "B" (Int 40) (Int 10) (Int 75) (Int 100).
Definition rep60 : RepRecord := uniform "C" (Int 40) (Int 10) (Int 60) (Int 60).

(** What the dashboard makes of a table, when it returns. *)
Definition converted (df : DataFrame) : list RepRecord :=
  match Dashboard.convert_excel_to_sales_data no_text_numbers df with
  | Ok rs => rs
  | Raise _ => []
  end.


End Examples.

(* ================================================================= *)
(** ** Notions for the further properties *)

Module Behaviour.


(** Text that does not begin with white space. *)
Definition no_leading_space (s : string) : bool :=
  match s with
  | EmptyString => true
  | String c _ => negb (is_space c)
  end.

(** The number of occurrences of a character in a text. *)
Fixpoint count_char (c : ascii) (s : string) : nat :=
  match s with
  | EmptyString => 0
  | String d s' => (if Ascii.eqb d c then 1 else 0) + count_char c s'
  end.

(** The labels of the standard layout: the four headers and, for each
    bucket, its three metrics. *)
Definition canonical_label (k : string) : Prop :=
  In k Spec.canonical_slots
  \/ exists cat, In cat unit_categories
                 /\ (k = appts_col cat \/ k = close_col cat \/ k = capture_col cat).

(** The row the custom path makes of an indexed row of a table. *)
Definition relabelled (df : DataFrame) (x : Z * Series) : Series :=
  Converter.custom_row (columns df) (Converter.column_mapping_of (columns df)) (fst x) (snd x).

(** The number of reps the validator counts for a bucket. *)
Definition count_of (rs : list RepRecord) (cat : string) : Z :=
  match Converter.filterM (Converter.has_category_data cat) rs with
  | Ok l => Z.of_nat (length l)
  | Raise _ => 0
  end.

(** The conversion path [convert_excel_file] takes for a table. *)
Definition path_taken (py : builtins) (df : DataFrame) : Converter.io (list RepRecord) :=
  if String.eqb (Converter.detect_column_format df) "standard"
  then Converter.process_standard_format py df else Converter.process_custom_format py df.

(** A line that reports how the conversion ended. *)
Definition is_verdict (l : Converter.line) : Prop :=
  match l with
  | Converter.ConversionSuccessful _ | Converter.ErrorConverting _ => True
  | _ => False
  end.

(** A cell the dashboard's [safe_get] cannot read as a float: a
    missing-value marker, or text that [float] rejects. *)
Definition unreadable (py : builtins) (v : value) : bool :=
  isna v || eq_str v "-" || eq_str v "" || negb (is_ok (py_float py v)).

(** A field that holds an integer, a float or nothing, a number. *)
Definition is_integer (x : option num) : Prop := exists z, x = Some (Int z).
Definition is_float_or_None (x : option num) : Prop := x = None \/ exists f, x = Some (Flt f).
Definition is_number (x : option num) : Prop := exists n, x = Some n.

(** The shape of a record of the dashboard's own conversion. *)
Definition dashboard_shape (r : RepRecord) : Prop :=
  is_integer (totalAppts r)
  /\ (exists f, overallClose r = Some (Flt f))
  /\ is_number (overallCapture r)
  /\ forall cat, In cat unit_categories ->
       exists cat_data,
         dict_lookup (categories r) cat = Some cat_data
         /\ is_integer (appointments cat_data)
         /\ is_float_or_None (closeRate cat_data)
         /\ is_number (captureRate cat_data).

(** Every bucket of a record is there and has a number as its appointment
    count. *)
Definition counted_buckets (rep : RepRecord) : Prop :=
  forall cat, In cat unit_categories ->
    exists cat_data a, dict_lookup (categories rep) cat = Some cat_data
                       /\ appointments cat_data = Some a.

(** A number that is a NaN. *)
Definition is_NaN (n : num) : bool :=
  match n with
  | Flt f => is_nan f
  | Int _ => false
  end.

(** The place of a binary64 value on the number line, as an integer:
    bigger values have bigger codes, the two zeros share the code 0. *)
Definition code (x : spec_float) : Z :=
  match x with
  | S754_zero _ => 0
  | S754_infinity s => cond_Zopp s (2048 * 2 ^ 53)
  | S754_nan => 0
  | S754_finite s m e => cond_Zopp s ((e + 1075) * 2 ^ 53 + Zpos m)
  end.

Definition float_code (f : float) : Z := code (Prim2SF f).

(** An item whose sort key is a float that is not a NaN, and the code of
    its key. *)
Definition ordered {A} (key : A -> num) (a : A) : Prop :=
  exists f, key a = Flt f /\ is_nan f = false.

Definition key_code {A} (key : A -> num) (a : A) : Z :=
  match key a with
  | Flt f => float_code f
  | Int _ => 0
  end.

(** What the page computes from a data set, when it can. *)
Definition ranking (sales_data : list RepRecord) : list Dashboard.ScoredRep :=
  match Dashboard.ranked_reps sales_data with
  | Ok ranked => ranked
  | Raise _ => []
  end.

Definition scores (sales_data : list RepRecord) : list Dashboard.ScoredRep :=
  match Dashboard.scored_reps sales_data with
  | Ok scored => scored
  | Raise _ => []
  end.

(** [max(first :: others, key=key)]: the first of the items that no item
    exceeds. *)
Definition first_max {A} (key : A -> num) (first : A) (others : list A) : A :=
  fold_left (fun best item => if num_gtb (key item) (key best) then item else best)
            others first.

(** What a table row and a candidate say of a rep: the name and the score. *)
Definition row_says (r : Dashboard.TableRow) : string * num :=
  (Dashboard.Sales_Rep r, Dashboard.Score r).
Definition candidate_says (x : RepRecord * num) : string * num := (name (fst x), snd x).

(** A table row of a rep with at least 3 appointments in the bucket. *)
Definition leads (r : Dashboard.TableRow) : bool := num_geb (Dashboard.Appointments r) (Int 3).

(** Two rows that differ in their rank at most. *)
Definition same_but_rank (r r' : Dashboard.TableRow) : Prop :=
  Dashboard.Sales_Rep r = Dashboard.Sales_Rep r'
  /\ Dashboard.Close_Rate r = Dashboard.Close_Rate r'
  /\ Dashboard.Capture_Rate r = Dashboard.Capture_Rate r'
  /\ Dashboard.Appointments r = Dashboard.Appointments r'
  /\ Dashboard.Score r = Dashboard.Score r'.

(** A rep that enters the table of a bucket -- at least 2 appointments and a
    positive close rate -- but has no capture rate there. *)
Definition listed_without_capture (cat : string) (rep : RepRecord) : bool :=
  match dict_lookup (categories rep) cat with
  | Some cat_data =>
      match appointments cat_data, closeRate cat_data, captureRate cat_data with
      | Some a, Some c, None => num_geb a (Int 2) && num_gtb c (Int 0)
      | _, _, _ => false
      end
  | None => false
  end.

(** The rows built for the table of a bucket, when they can be built. *)
Definition table_of (cat : string) (sales_data : list RepRecord) : list Dashboard.TableRow :=
  match Dashboard.table_rows cat sales_data [] with
  | Ok category_reps => category_reps
  | Raise _ => []
  end.

(** A rep with a close rate and no capture rate in any bucket. *)
Definition without_capture : RepRecord :=
  {| name := "D";
     totalAppts := Some (Int 50);
     overallClose := Some (Int 40);
     overallCapture := Some (Int 100);
     categories :=
       map (fun cat => (cat, {| appointments := Some (Int 10);
                                closeRate := Some (Int 50);
                                captureRate := None |}))
           unit_categories |}.

End Behaviour.

(* ================================================================= *)
(** ** Facts about the Python fragment *)

Section FloatFacts.

Lemma digits2_pos_bounds (m : positive) :
    2 ^ (Zpos (digits2_pos m) - 1) <= Zpos m < 2 ^ Zpos (digits2_pos m).
Proof.
    induction m as [m IH | m IH |]; cbn [digits2_pos].
    - rewrite Pos2Z.inj_succ.
      replace (Z.succ (Zpos (digits2_pos m)) - 1)
        with (Z.succ (Zpos (digits2_pos m) - 1)) by lia.
      rewrite !Z.pow_succ_r by lia. lia.
    - rewrite Pos2Z.inj_succ.
      replace (Z.succ (Zpos (digits2_pos m)) - 1)
        with (Z.succ (Zpos (digits2_pos m) - 1)) by lia.
      rewrite !Z.pow_succ_r by lia. lia.
    - cbn. lia.
Qed.

  (** A binary64 mantissa has at most 53 bits, and exactly 53 above the
      smallest exponent. *)
Lemma valid_finite s m e :
    valid_binary (S754_finite s m e) = true ->
    Zpos (digits2_pos m) <= 53 /\ -1074 <= e <= 971 /\
    (-1074 < e -> Zpos (digits2_pos m) = 53).
Proof.
    cbn [SpecFloat.valid_binary].
    unfold bounded, canonical_mantissa, fexp, emin, prec, emax.
    intros H. apply andb_prop in H as [H1 H2].
    apply Z.eqb_eq in H1. apply Z.leb_le in H2. lia.
Qed.

  (** Comparing the integer 1 with a float exactly is comparing the float
      with 1.0. *)
Lemma Z_compare_one_SF f :
    Z_compare_SF 1 (Prim2SF f) = CompOpp <$> SFcompare (Prim2SF f) (Prim2SF 1).
Proof.
    change (Prim2SF 1) with (S754_finite false 4503599627370496 (-52)).
    pose proof (Prim2SF_valid f) as Hv.
    destruct (Prim2SF f) as [s | s | | s m e];
      try reflexivity; try (destruct s; reflexivity).
    apply valid_finite in Hv as (Hd & He & Hn).
    pose proof (digits2_pos_bounds m) as Hm.
    cbn [Z_compare_SF SFcompare fmap option_fmap option_map].
    destruct s; cbn [cond_Zopp].
    - f_equal. destruct (0 <=? e) eqn:E.
      + apply Z.compare_gt_iff. apply Z.leb_le in E.
        assert (0 < 2 ^ e) by (apply Z.pow_pos_nonneg; lia). nia.
      + apply Z.compare_gt_iff. apply Z.leb_gt in E.
        assert (0 < 2 ^ (- e)) by (apply Z.pow_pos_nonneg; lia). nia.
    - f_equal.
      destruct (Z.compare_spec e (-52)) as [E | E | E].
      + subst e. change (0 <=? (-52)) with false. cbn iota.
        change (1 * 2 ^ _) with (Zpos 4503599627370496).
        change ((-52) ?= (-52)) with Eq. cbn iota.
        rewrite Pos.compare_cont_spec, (Pos.compare_antisym 4503599627370496 m).
        change (Z.pos 4503599627370496 ?= Z.pos m) with (4503599627370496 ?= m)%positive.
        destruct (4503599627370496 ?= m)%positive; reflexivity.
      + assert ((0 <=? e) = false) as -> by (apply Z.leb_gt; lia).
        cbn [CompOpp]. apply Z.compare_gt_iff.
        assert (2 ^ Zpos (digits2_pos m) <= 2 ^ 53) by (apply Z.pow_le_mono_r; lia).
        assert (2 ^ 53 <= 2 ^ (- e)) by (apply Z.pow_le_mono_r; lia). lia.
      + cbn [CompOpp]. rewrite Hn in Hm by lia.
        change (2 ^ (53 - 1)) with 4503599627370496 in Hm.
        destruct (0 <=? e) eqn:E'.
        * apply Z.compare_lt_iff. apply Z.leb_le in E'.
          assert (1 <= 2 ^ e) by (apply (Z.pow_le_mono_r 2 0 e); lia). nia.
        * apply Z.compare_lt_iff. apply Z.leb_gt in E'.
          assert (2 ^ (- e) <= 2 ^ 51) as H by (apply Z.pow_le_mono_r; lia).
          change (2 ^ 51) with 2251799813685248 in H. lia.
Qed.

  (** [f <= 1] (an integer on the right) is [f <= 1.0]. *)
Lemma num_leb_Flt_one f : num_leb (Flt f) (Int 1) = (f <=? 1)%float.
Proof.
    rewrite FloatAxioms.leb_spec. unfold num_leb, num_compare, SFleb.
    rewrite Z_compare_one_SF.
    destruct (SFcompare (Prim2SF f) (Prim2SF 1)) as [[]|]; reflexivity.
Qed.

Lemma SFcompare_antisym x y c :
    SFcompare x y = Some c -> SFcompare y x = Some (CompOpp c).
Proof.
    destruct x as [sx | sx | | sx mx ex], y as [sy | sy | | sy my ey];
      cbn [SFcompare]; try discriminate;
      try (destruct sx); try (destruct sy);
      intros [= <-]; try reflexivity; f_equal;
      rewrite (Z.compare_antisym ex ey);
      change (Pos.compare_cont Eq) with Pos.compare;
      rewrite (Pos.compare_antisym mx my);
      destruct (ex ?= ey); cbn [CompOpp]; try reflexivity;
      destruct (mx ?= my)%positive; reflexivity.
Qed.

Lemma float_ltb_not_leb f g : (f <? g)%float = true -> (g <=? f)%float = false.
Proof.
    rewrite FloatAxioms.ltb_spec, FloatAxioms.leb_spec. unfold SFltb, SFleb.
    destruct (SFcompare (Prim2SF f) (Prim2SF g)) as [c|] eqn:E; [|discriminate].
    rewrite (SFcompare_antisym _ _ _ E). destruct c; cbn; congruence.
Qed.

Lemma SFcompare_gt_trans x y z :
    SFcompare x y = Some Gt -> SFcompare y z = Some Gt -> SFcompare x z = Some Gt.
Proof.
    destruct x as [sx | sx | | sx mx ex], y as [sy | sy | | sy my ey],
             z as [sz | sz | | sz mz ez];
      cbn [SFcompare]; try discriminate; try reflexivity;
      try (destruct sx; try discriminate; try reflexivity);
      try (destruct sy; try discriminate; try reflexivity);
      try (destruct sz; try discriminate; try reflexivity);
      change (Pos.compare_cont Eq) with Pos.compare;
      intros H1 H2; f_equal; injection H1 as H1; injection H2 as H2;
      destruct (Z.compare_spec ex ey), (Z.compare_spec ey ez), (Z.compare_spec ex ez);
      try discriminate; try reflexivity; try lia; subst;
      destruct (Pos.compare_spec mx my), (Pos.compare_spec my mz),
               (Pos.compare_spec mx mz);
      try discriminate; try reflexivity; try lia.
Qed.

Lemma SFcompare_gt_irrefl x : SFcompare x x <> Some Gt.
Proof.
    destruct x as [s | s | | s m e]; cbn [SFcompare]; try discriminate;
      destruct s; try discriminate; rewrite Z.compare_refl;
      change (Pos.compare_cont Eq) with Pos.compare;
      rewrite Pos.compare_refl; discriminate.
Qed.

Lemma float_compare_spec f g :
    float_compare f g = SFcompare (Prim2SF f) (Prim2SF g).
Proof.
    unfold float_compare. rewrite FloatAxioms.compare_spec.
    destruct (SFcompare (Prim2SF f) (Prim2SF g)) as [[]|]; reflexivity.
Qed.

  (** [>] between two floats is transitive and irreflexive, NaN included. *)
Lemma num_gtb_Flt_trans a b c :
    num_gtb (Flt a) (Flt b) = true -> num_gtb (Flt b) (Flt c) = true ->
    num_gtb (Flt a) (Flt c) = true.
Proof.
    unfold num_gtb, num_compare. rewrite !float_compare_spec.
    intros H1 H2.
    destruct (SFcompare (Prim2SF a) (Prim2SF b)) as [[]|] eqn:E1; try discriminate.
    destruct (SFcompare (Prim2SF b) (Prim2SF c)) as [[]|] eqn:E2; try discriminate.
    now rewrite (SFcompare_gt_trans _ _ _ E1 E2).
Qed.

Lemma num_gtb_Flt_irrefl a : num_gtb (Flt a) (Flt a) = false.
Proof.
    unfold num_gtb, num_compare. rewrite float_compare_spec.
    pose proof (SFcompare_gt_irrefl (Prim2SF a)).
    destruct (SFcompare (Prim2SF a) (Prim2SF a)) as [[]|]; congruence.
Qed.

Lemma Z2F_100 : Z2F 100 = 100%float.
Proof. vm_compute. reflexivity. Qed.

Lemma num_mul_Flt_100 f : num_mul (Flt f) (Int 100) = Flt (f * 100).
Proof. unfold num_mul, to_float. now rewrite Z2F_100. Qed.

  (** A number that is greater than 0 is not equal to 0. *)
Lemma num_gtb_not_eqb a b : num_gtb a b = true -> num_eqb a b = false.
Proof. unfold num_gtb, num_eqb. destruct (num_compare a b) as [[]|]; congruence. Qed.

End FloatFacts.

Section TextFacts.








End TextFacts.

Section DictFacts.
Context {V : Type}.

Lemma dict_lookup_map (f : string -> V) (keys : list string) (k : string) :
  In k keys -> dict_lookup (map (fun c => (c, f c)) keys) k = Some (f k).
Proof.
  induction keys as [|c keys IH]; [intros []|]. cbn [map dict_lookup].
  intros [-> | H].
  - now rewrite String.eqb_refl.
  - destruct (String.eqb_spec c k) as [-> | _]; [reflexivity | auto].
Qed.

Lemma dict_keys_map (f : string -> V) (keys : list string) :
  dict_keys (map (fun c => (c, f c)) keys) = keys.
Proof.
  unfold dict_keys. rewrite map_map. cbn. apply map_id.
Qed.

End DictFacts.

(* ================================================================= *)
(** ** Facts about the converter *)

Section ConverterFacts.
Import Converter.
Context (py : builtins).

Lemma io_bind_outcome {A B} (m : io A) (k : A -> io B) :
  outcome (io_bind m k) =
  match outcome m with
  | Ok a => outcome (k a)
  | Raise e => Raise e
  end.
Proof. unfold io_bind. now destruct (outcome m). Qed.


(** Value coercion returns: whatever [float] raises is caught. *)
Lemma safe_convert_numeric_returns v p d :
  exists x, outcome (safe_convert_numeric py v p d) = Ok x.
Proof.
  unfold safe_convert_numeric.
  destruct (isna v || eq_str v "-" || eq_str v "" || _); [now eexists|].
  unfold try_except.
  destruct v as [| n | s]; cbn [py_float lift io_bind outcome printed ret].
  - now eexists.
  - now eexists.
  - destruct (String.eqb (clean s) "" || String.eqb (clean s) "-"); [now eexists|].
    cbn [py_float lift io_bind outcome printed ret].
    destruct (float_of_str py (clean s)); cbn; now eexists.
Qed.

Lemma safe_convert_numeric_outcome v p d :
  outcome (safe_convert_numeric py v p d) = Ok (Spec.coerce py v p d).
Proof.
  unfold Spec.coerce.
  destruct (safe_convert_numeric_returns v p d) as [x ->]. reflexivity.
Qed.

(** A count is never [None]: without [is_percentage] a cell that holds no
    number yields the default. *)
Lemma coerce_count v d : exists n, Spec.coerce py v false d = Some n.
Proof.
  unfold Spec.coerce, safe_convert_numeric.
  destruct (isna v || eq_str v "-" || eq_str v "" || _); [now eexists|].
  unfold try_except.
  destruct v as [| n | s]; cbn [py_float lift io_bind outcome printed ret].
  - now eexists.
  - now eexists.
  - destruct (String.eqb (clean s) "" || String.eqb (clean s) "-"); [now eexists|].
    cbn [py_float lift io_bind outcome printed ret].
    destruct (float_of_str py (clean s)); cbn; now eexists.
Qed.

Lemma standard_categories_outcome row cats acc :
  outcome (standard_categories py row cats acc) =
  Ok (fold_left (fun acc cat => dict_set acc cat (Spec.bucket_of py row cat)) cats acc).
Proof.
  revert acc. induction cats as [|cat cats IH]; intros acc; [reflexivity|].
  cbn [standard_categories fold_left].
  rewrite !io_bind_outcome, !safe_convert_numeric_outcome.
  rewrite !io_bind_outcome, !safe_convert_numeric_outcome.
  rewrite !io_bind_outcome, !safe_convert_numeric_outcome.
  apply IH.
Qed.

Lemma row_body_outcome rep_name row :
  outcome (row_body py rep_name row) =
  Ok (if skipped_name rep_name then None else Some (Spec.record_of py rep_name row)).
Proof.
  unfold row_body. destruct (skipped_name rep_name); [reflexivity|].
  rewrite !io_bind_outcome, !safe_convert_numeric_outcome.
  rewrite !io_bind_outcome, !safe_convert_numeric_outcome.
  rewrite !io_bind_outcome, !safe_convert_numeric_outcome.
  rewrite !io_bind_outcome, standard_categories_outcome.
  reflexivity.
Qed.

(** The handler of the row loop is never reached by a row of cells. *)
Lemma standard_row_body idx row :
  standard_row py idx row = row_body py (rep_name_of py idx row) row.
Proof.
  unfold standard_row, guarded_row, try_except. now rewrite row_body_outcome.
Qed.

Lemma standard_row_outcome idx row :
  outcome (standard_row py idx row) =
  Ok (if skipped_name (rep_name_of py idx row) then None
      else Some (Spec.record_of py (rep_name_of py idx row) row)).
Proof. rewrite standard_row_body. apply row_body_outcome. Qed.

Lemma standard_loop_outcome idx rows acc :
  outcome (standard_loop py idx rows acc) =
  Ok (acc ++ map (Spec.record_of_row py) (Spec.kept_rows py idx rows))%list.
Proof.
  revert idx acc. induction rows as [|row rows IH]; intros idx acc.
  - cbn. now rewrite app_nil_r.
  - cbn [standard_loop Spec.kept_rows].
    rewrite io_bind_outcome, standard_row_outcome, IH.
    destruct (skipped_name (rep_name_of py idx row)); [reflexivity|].
    cbn [map]. now rewrite <- app_assoc.
Qed.

Lemma process_standard_format_outcome df :
  outcome (process_standard_format py df) =
  Ok (map (Spec.record_of_row py) (Spec.kept_rows py 0 (rows df))).
Proof. unfold process_standard_format. now rewrite standard_loop_outcome. Qed.

End ConverterFacts.

Section RowSkip.
Import Converter.
Context (py : builtins).

Lemma kept_rows_filter idx rows :
  Spec.kept_rows py idx rows = List.filter (Spec.survives py) (Spec.indexed idx rows).
Proof.
  revert idx. induction rows as [|row rows IH]; intros idx; [reflexivity|].
  cbn [Spec.kept_rows Spec.indexed List.filter]. rewrite IH.
  change (Spec.survives py (idx, row))
    with (negb (skipped_name (rep_name_of py idx row))).
  destruct (skipped_name (rep_name_of py idx row)); reflexivity.
Qed.

Lemma indexed_length {A} idx (l : list A) : length (Spec.indexed idx l) = length l.
Proof. revert idx. induction l; intros idx; cbn; [reflexivity | now rewrite IHl]. Qed.


End RowSkip.

(* ================================================================= *)
(** ** The validator *)

Section ValidatorFacts.
Import Converter.

Lemma filterM_filter {A} (p : A -> result bool) (q : A -> bool) (l : list A) :
  (forall x, In x l -> p x = Ok (q x)) -> filterM p l = Ok (List.filter q l).
Proof.
  induction l as [|x l IH]; intros H; [reflexivity|].
  cbn [filterM List.filter]. rewrite (H x (or_introl eq_refl)). cbn [bind].
  rewrite IH by (intros y Hy; apply H; now right). cbn [bind].
  now destruct (q x).
Qed.

Lemma sum_from_numbers acc (xs : list (option num)) :
  Forall (fun x => exists n, x = Some n) xs ->
  sum_from acc xs = Ok (fold_left num_add (map (default (Int 0)) xs) acc).
Proof.
  intros H. revert acc. induction H as [|x xs [n ->] _ IH]; intros acc; [reflexivity|].
  cbn [sum_from map fold_left default]. apply IH.
Qed.

Lemma has_category_data_reliable cat r :
  In cat unit_categories -> Spec.well_formed r ->
  has_category_data cat r = Ok (Spec.reliable cat r).
Proof.
  intros Hc [_ Hr]. destruct (Hr cat Hc) as (cat_data & n & Hl & Ha).
  unfold has_category_data, Spec.reliable, dict_get. rewrite Hl. cbn [bind].
  rewrite Ha. reflexivity.
Qed.

Lemma categories_with_data_of_counts rs cats acc :
  Forall Spec.well_formed rs -> (forall cat, In cat cats -> In cat unit_categories) ->
  categories_with_data_of rs cats acc =
  Ok (fold_left
        (fun acc cat => dict_set acc cat (Z.of_nat (length (List.filter (Spec.reliable cat) rs))))
        cats acc).
Proof.
  intros Hw. revert acc. induction cats as [|cat cats IH]; intros acc Hc; [reflexivity|].
  cbn [categories_with_data_of fold_left].
  rewrite (filterM_filter _ (Spec.reliable cat)).
  - cbn [bind]. apply IH. intros c Hin. apply Hc. now right.
  - intros r Hr. apply has_category_data_reliable; [apply Hc; now left|].
    rewrite List.Forall_forall in Hw. now apply Hw.
Qed.

Lemma validate_data_nonempty rs :
  rs <> [] ->
  validate_data rs =
  (with_appts <- filterM (fun rep => py_gt (totalAppts rep) (Int 0)) rs ;;
   total <- sum_from (Int 0) (totalAppts <$> rs) ;;
   avg <- py_truediv total (Int (Z.of_nat (length rs))) ;;
   cats <- categories_with_data_of rs unit_categories [] ;;
   Ok {| total_reps := Z.of_nat (length rs);
         reps_with_appointments := Z.of_nat (length with_appts);
         avg_appointments := avg;
         categories_with_data := cats |})%result.
Proof. destruct rs; [congruence | reflexivity]. Qed.

(** The validator returns the statistics of any non-empty set of
    well-formed records. *)
Lemma validate_data_stats rs :
  rs <> [] -> Forall Spec.well_formed rs -> validate_data rs = Ok (Spec.stats rs).
Proof.
  intros Hne Hw. rewrite (validate_data_nonempty rs Hne).
  rewrite (filterM_filter _ (fun r => Spec.positive (totalAppts r))).
  2:{ intros x Hx. rewrite List.Forall_forall in Hw. destruct (Hw x Hx) as [[n Hn] _].
      rewrite Hn. reflexivity. }
  cbn [bind]. rewrite sum_from_numbers.
  2:{ apply List.Forall_forall. intros x Hx. apply in_map_iff in Hx as (y & <- & Hy).
      rewrite List.Forall_forall in Hw. now destruct (Hw y Hy) as [H _]. }
  cbn [bind]. unfold py_truediv.
  assert (num_eqb (Int (Z.of_nat (length rs))) (Int 0) = false) as ->.
  { destruct rs; [congruence | reflexivity]. }
  cbn [bind]. rewrite categories_with_data_of_counts by auto.
  cbn [bind]. unfold Spec.stats, py_sum. rewrite map_map. reflexivity.
Qed.

End ValidatorFacts.

(* ================================================================= *)
(** ** Rows without a name *)

Section SyntheticNames.
Import Converter.
Context (py : builtins).

Lemma record_of_well_formed rep_name row :
  Spec.well_formed (Spec.record_of py rep_name row).
Proof.
  split.
  - cbn [totalAppts Spec.record_of]. apply coerce_count.
  - intros cat Hc. exists (Spec.bucket_of py row cat).
    destruct (coerce_count py (row_get row (appts_col cat) (VNum (Int 0))) (Int 0)) as [n Hn].
    exists n. split; [|exact Hn].
    cbn [categories Spec.record_of]. now apply dict_lookup_map.
Qed.








(** *** The column mapper *)

Lemma map_column_slot (m : gmap string string) col :
  map_column m col =
  match Spec.slot_of col with
  | Some slot => <[slot := col]> m
  | None => m
  end.
Proof.
  unfold map_column, Spec.slot_of, Spec.is_name_label, Spec.is_appts_label,
    Spec.is_close_label, Spec.is_capture_label. cbv zeta.
  repeat match goal with |- context [if ?b then _ else _] => destruct b end;
    reflexivity.
Qed.

Lemma column_mapping_of_snoc cols col :
  column_mapping_of (cols ++ [col]) = map_column (column_mapping_of cols) col.
Proof. unfold column_mapping_of. now rewrite fold_left_app. Qed.



End SyntheticNames.

Section CustomPath.
Import Converter.
Context (py : builtins).

Lemma custom_category_column_name row cat (rep_data : Series) col :
  custom_category_column row cat rep_data col !! "Sales Rep" = rep_data !! "Sales Rep".
Proof.
  unfold custom_category_column. cbv zeta.
  repeat match goal with |- context [if ?b then _ else _] => destruct b end;
    try reflexivity; apply lookup_insert_ne; discriminate.
Qed.

Lemma custom_columns_name row cat cols (rep_data : Series) :
  fold_left (custom_category_column row cat) cols rep_data !! "Sales Rep"
  = rep_data !! "Sales Rep".
Proof.
  revert rep_data. induction cols as [|col cols IH]; intros rep_data; [reflexivity|].
  cbn [fold_left]. now rewrite IH, custom_category_column_name.
Qed.

Lemma custom_categories_name row cols cats (rep_data : Series) :
  fold_left (fun rep_data cat => fold_left (custom_category_column row cat) cols rep_data)
            cats rep_data !! "Sales Rep"
  = rep_data !! "Sales Rep".
Proof.
  revert rep_data. induction cats as [|cat cats IH]; intros rep_data; [reflexivity|].
  cbn [fold_left]. now rewrite IH, custom_columns_name.
Qed.

(** The name cell of a standardized row. *)
Lemma custom_row_name cols (m : gmap string string) idx row :
  custom_row cols m idx row !! "Sales Rep"
  = Some (row_get row (mapped m "Sales Rep") (VStr ("Rep_" ++ str_of_Z idx))).
Proof.
  unfold custom_row. cbv zeta. rewrite custom_categories_name.
  rewrite !lookup_insert_ne by discriminate. apply lookup_insert_eq.
Qed.

Lemma custom_loop_rows cols (m : gmap string string) idx rows acc :
  custom_loop cols m idx rows acc =
  (acc ++ map (fun x => custom_row cols m (fst x) (snd x)) (Spec.indexed idx rows))%list.
Proof.
  revert idx acc. induction rows as [|row rows IH]; intros idx acc.
  - cbn. now rewrite app_nil_r.
  - cbn [custom_loop Spec.indexed map fst snd]. rewrite IH. now rewrite <- app_assoc.
Qed.


End CustomPath.

(* ================================================================= *)
(** ** Facts about the dashboard *)

Section DashboardFacts.
Import Dashboard.
Context (py : builtins).


(** What a turn of the dashboard's row loop returns, when it returns. *)
Lemma dashboard_row_returns row r :
  dashboard_row py row = Ok r ->
  name r = py_str py (row_get row "Sales Rep" (VStr "Unknown"))
  /\ totalAppts r = safe_get py row "Issued Appts" (Int 0)
  /\ overall_rate (safe_get py row "Overall Close %" (Int 0)) = Ok (overallClose r)
  /\ overall_rate (safe_get py row "Units Captured on Sold Jobs %" (Int 0))
     = Ok (overallCapture r)
  /\ categories r = map (fun cat => (cat, Spec.dashboard_bucket py row cat)) unit_categories.
Proof.
  unfold dashboard_row. cbv zeta.
  destruct (overall_rate (safe_get py row "Overall Close %" (Int 0))) as [c|e];
    cbn [bind]; [|discriminate].
  destruct (overall_rate (safe_get py row "Units Captured on Sold Jobs %" (Int 0)))
    as [p|e]; cbn [bind]; [|discriminate].
  intros [= <-]. cbn [name totalAppts overallClose overallCapture categories].
  repeat split; reflexivity.
Qed.

Lemma dashboard_loop_returns rows acc rs :
  dashboard_loop py rows acc = Ok rs ->
  exists rs', rs = (acc ++ rs')%list
              /\ Forall2 (fun row r => dashboard_row py row = Ok r) rows rs'.
Proof.
  revert acc. induction rows as [|row rows IH]; intros acc; cbn [dashboard_loop].
  - intros [= <-]. exists []. split; [now rewrite app_nil_r | constructor].
  - destruct (dashboard_row py row) as [r|e] eqn:E; cbn [bind]; [|discriminate].
    intros H. apply IH in H as (rs' & -> & HF).
    exists (r :: rs'). split; [now rewrite <- app_assoc | now constructor].
Qed.

Lemma dashboard_loop_raises rows acc row e :
  In row rows -> dashboard_row py row = Raise e ->
  exists e', dashboard_loop py rows acc = Raise e'.
Proof.
  revert acc. induction rows as [|row' rows IH]; intros acc; [intros []|].
  cbn [dashboard_loop]. intros [-> | Hin] He.
  - rewrite He. now eexists.
  - destruct (dashboard_row py row'); cbn [bind]; [eauto | now eexists].
Qed.

End DashboardFacts.

Section ScoringFacts.
Import Dashboard.

Lemma dict_lookup_keys {V} (d : list (string * V)) k :
  In k (dict_keys d) -> exists v, dict_lookup d k = Some v.
Proof.
  induction d as [|[k' v] d IH]; [intros []|]. cbn [dict_keys map fst In dict_lookup].
  destruct (String.eqb_spec k' k) as [-> | Hne]; [eauto|].
  intros [E | H]; [congruence | auto].
Qed.

Lemma five_buckets_of_keys r :
  dict_keys (categories r) = unit_categories -> Spec.five_buckets r.
Proof.
  intros H. split; [exact H|]. intros cat Hc. rewrite <- H in Hc.
  destruct (dict_lookup_keys _ _ Hc) as [v Hv]. exists v. unfold dict_get. now rewrite Hv.
Qed.

Lemma valid_category_raises cat_data e : valid_category cat_data = Raise e -> e = TypeError.
Proof.
  unfold valid_category, py_ge, py_cmp.
  destruct (appointments cat_data) as [a|]; cbn [bind]; [|congruence].
  destruct (num_geb a (Int 2)); [|discriminate].
  destruct (closeRate cat_data) as [c|]; [|discriminate].
  destruct (num_gtb c (Int 0)); discriminate.
Qed.

Lemma valid_categories_of_raises rep cats acc e :
  (forall cat, In cat cats -> exists cat_data, dict_get (categories rep) cat = Ok cat_data) ->
  valid_categories_of rep cats acc = Raise e -> e = TypeError.
Proof.
  revert acc. induction cats as [|cat cats IH]; intros acc H; [discriminate|].
  cbn [valid_categories_of]. destruct (H cat (or_introl eq_refl)) as [cat_data ->].
  cbn [bind]. destruct (valid_category cat_data) as [v|e'] eqn:E; cbn [bind].
  - apply IH. intros c Hc. apply H. now right.
  - intros [= <-]. eapply valid_category_raises, E.
Qed.

(** The weighted average never divides by zero. *)
Lemma weighted_average_returns total total_weight :
  weighted_average total total_weight =
  Ok (if num_gtb total_weight (Int 0) then Flt (num_quot total total_weight) else Int 0).
Proof.
  unfold weighted_average, py_truediv.
  destruct (num_gtb total_weight (Int 0)) eqn:E; [|reflexivity].
  now rewrite (num_gtb_not_eqb _ _ E).
Qed.

(** Given the five buckets, the scoring engine raises nothing but the
    [TypeError] of arithmetic on [None]. *)
Lemma calculate_performance_score_raises rep e :
  Spec.five_buckets rep -> calculate_performance_score rep = Raise e -> e = TypeError.
Proof.
  intros [_ Hb]. unfold calculate_performance_score.
  destruct (valid_categories_of rep unit_categories []) as [valid|e'] eqn:E; cbn [bind].
  - destruct (fold_left accumulate valid (Int 0, Int 0, Int 0)) as [[c p] w].
    rewrite !weighted_average_returns. cbn [bind].
    unfold py_mul. destruct (overallClose rep); cbn [bind]; congruence.
  - intros [= <-]. eapply valid_categories_of_raises; eauto.
Qed.

End ScoringFacts.

Section BucketInvariant.
Import Converter Dashboard.
Context (py : builtins).

Lemma filterM_raises {A} (p : A -> result bool) (l : list A) e :
  filterM p l = Raise e -> exists x, In x l /\ p x = Raise e.
Proof.
  induction l as [|x l IH]; [discriminate|]. cbn [filterM].
  destruct (p x) as [b|e'] eqn:E; cbn [bind].
  - destruct (filterM p l) as [r|e'']; cbn [bind]; [discriminate|].
    intros [= <-]. destruct IH as (y & Hy & Hp); [reflexivity|]. exists y. split; [now right | exact Hp].
  - intros [= <-]. exists x. split; [now left | exact E].
Qed.

Lemma py_gt_raises x c e : py_gt x c = Raise e -> e = TypeError.
Proof. unfold py_gt, py_cmp. destruct x; congruence. Qed.

Lemma sum_from_raises acc xs e : sum_from acc xs = Raise e -> e = TypeError.
Proof.
  revert acc. induction xs as [|[x|] xs IH]; intros acc; cbn [sum_from];
    [discriminate | apply IH | congruence].
Qed.

Lemma has_category_data_raises cat r e :
  In cat unit_categories -> Spec.five_buckets r ->
  has_category_data cat r = Raise e -> e = TypeError.
Proof.
  intros Hc [_ Hb]. destruct (Hb cat Hc) as [cat_data Hd].
  unfold has_category_data. rewrite Hd. cbn [bind].
  destruct (py_gt (appointments cat_data) (Int 0)) eqn:E; cbn [bind]; [discriminate|].
  intros [= <-]. eapply py_gt_raises, E.
Qed.

Lemma categories_with_data_of_raises rs cats acc e :
  Forall Spec.five_buckets rs -> (forall cat, In cat cats -> In cat unit_categories) ->
  categories_with_data_of rs cats acc = Raise e -> e = TypeError.
Proof.
  intros Hb. revert acc. induction cats as [|cat cats IH]; intros acc Hc; [discriminate|].
  cbn [categories_with_data_of].
  destruct (filterM (has_category_data cat) rs) as [l|e'] eqn:E; cbn [bind].
  - apply IH. intros c Hin. apply Hc. now right.
  - intros [= <-]. apply filterM_raises in E as (r & Hr & E).
    eapply has_category_data_raises; [apply Hc; now left | | exact E].
    rewrite List.Forall_forall in Hb. now apply Hb.
Qed.

(** The validator raises nothing but its emptiness error and the
    [TypeError] of arithmetic on [None]. *)
Lemma validate_data_raises rs e :
  Forall Spec.five_buckets rs -> validate_data rs = Raise e ->
  e = ValueError \/ e = TypeError.
Proof.
  intros Hb. destruct rs as [|r rs].
  - cbn. intros [= <-]. now left.
  - rewrite validate_data_nonempty by discriminate. intros H. right.
    destruct (filterM _ (r :: rs)) as [l|e'] eqn:E1 in H; cbn [bind] in H.
    2:{ injection H as <-. apply filterM_raises in E1 as (x & _ & E1).
        eapply py_gt_raises, E1. }
    destruct (sum_from _ _) as [t|e'] eqn:E2 in H; cbn [bind] in H.
    2:{ injection H as <-. eapply sum_from_raises, E2. }
    unfold py_truediv in H.
    change (num_eqb (Int (Z.of_nat (length (r :: rs)))) (Int 0)) with false in H.
    cbn [bind] in H.
    destruct (categories_with_data_of _ _ _) as [c|e'] eqn:E3 in H; cbn [bind] in H;
      [discriminate|].
    injection H as <-. eapply categories_with_data_of_raises; eauto.
Qed.

Lemma record_of_five_buckets rep_name row : Spec.five_buckets (Spec.record_of py rep_name row).
Proof. apply five_buckets_of_keys. reflexivity. Qed.

Lemma converter_five_buckets df rs :
  outcome (process_standard_format py df) = Ok rs -> Forall Spec.five_buckets rs.
Proof.
  rewrite process_standard_format_outcome. intros [= <-].
  apply List.Forall_forall. intros r Hr. apply in_map_iff in Hr as (x & <- & _).
  apply record_of_five_buckets.
Qed.

Lemma dashboard_five_buckets df rs :
  convert_excel_to_sales_data py df = Ok rs -> Forall Spec.five_buckets rs.
Proof.
  unfold convert_excel_to_sales_data. intros H.
  apply dashboard_loop_returns in H as (rs' & -> & HF). cbn [app].
  induction HF as [|row r rows rs' Hr _ IH]; constructor; [|exact IH].
  apply dashboard_row_returns in Hr as (_ & _ & _ & _ & Hc).
  apply five_buckets_of_keys. rewrite Hc. reflexivity.
Qed.

(** C9 (bucket invariant).  Every record produced by the converter's
    standard path, by its custom path, or by the dashboard's conversion has
    exactly the five buckets [0-4], [5-9], [10-17], [18-25], [26+] as the
    keys of its [categories], in that order; each of them can be indexed, and
    neither the scoring engine on such a record nor the validator on such a
    record set fails with a missing key. *)
Theorem bucket_invariant (df : DataFrame) (rs : list RepRecord) :
  outcome (process_standard_format py df) = Ok rs
  \/ outcome (process_custom_format py df) = Ok rs
  \/ convert_excel_to_sales_data py df = Ok rs ->
  Forall (fun r =>
            dict_keys (categories r) = unit_categories
            /\ (forall cat, In cat unit_categories ->
                  exists cat_data, dict_get (categories r) cat = Ok cat_data)
            /\ calculate_performance_score r <> Raise KeyError) rs
  /\ validate_data rs <> Raise KeyError.
Proof.
  intros H.
  assert (Hb : Forall Spec.five_buckets rs).
  { destruct H as [H | [H | H]].
    - eapply converter_five_buckets, H.
    - eapply converter_five_buckets, H.
    - eapply dashboard_five_buckets, H. }
  split.
  - apply List.Forall_forall. intros r Hr. rewrite List.Forall_forall in Hb.
    destruct (Hb r Hr) as [Hk Hl]. repeat split; try assumption.
    intros E. apply calculate_performance_score_raises in E; [discriminate|].
    now apply Hb.
  - intros E. apply validate_data_raises in E as [E | E]; [discriminate.. | exact Hb].
Qed.

End BucketInvariant.

Section Validator.
Import Converter Dashboard.

Lemma safe_get_count_number py (row : Series) key dflt :
  endswith "Appts" key = true -> exists n, safe_get py row key dflt = Some n.
Proof.
  intros H. unfold safe_get, fallback. cbv zeta. rewrite H.
  destruct (isna (row_get row key (VNum dflt)) || eq_str (row_get row key (VNum dflt)) "-"
            || eq_str (row_get row key (VNum dflt)) ""); [now eexists|].
  destruct (contains "Close" key || contains "Capture" key).
  - destruct (py_float py (row_get row key (VNum dflt))); now eexists.
  - destruct (py_int py (row_get row key (VNum dflt))); now eexists.
Qed.

Lemma appts_col_endswith cat : In cat unit_categories -> endswith "Appts" (appts_col cat) = true.
Proof. intros H. repeat destruct H as [<- | H]; try contradiction; reflexivity. Qed.

Lemma dashboard_row_well_formed py row r :
  dashboard_row py row = Ok r -> Spec.well_formed r.
Proof.
  intros H. apply dashboard_row_returns in H as (_ & Ht & _ & _ & Hc). split.
  - rewrite Ht. now apply safe_get_count_number.
  - intros cat Hcat. exists (Spec.dashboard_bucket py row cat).
    destruct (safe_get_count_number py row (appts_col cat) (Int 0)
                (appts_col_endswith cat Hcat)) as [n Hn].
    exists n. split; [rewrite Hc; now apply dict_lookup_map | exact Hn].
Qed.

Lemma converter_records_well_formed py df rs :
  outcome (process_standard_format py df) = Ok rs -> Forall Spec.well_formed rs.
Proof.
  rewrite process_standard_format_outcome. intros [= <-].
  apply List.Forall_forall. intros r Hr. apply in_map_iff in Hr as (x & <- & _).
  apply record_of_well_formed.
Qed.

Lemma dashboard_records_well_formed py df rs :
  convert_excel_to_sales_data py df = Ok rs -> Forall Spec.well_formed rs.
Proof.
  unfold convert_excel_to_sales_data. intros H.
  apply dashboard_loop_returns in H as (rs' & -> & HF). cbn [app].
  induction HF as [|row r rows rs' Hr _ IH]; constructor; [|exact IH].
  eapply dashboard_row_well_formed, Hr.
Qed.

(** Every record either conversion produces is well formed. *)
Lemma produced_records_well_formed py df rs :
  outcome (process_standard_format py df) = Ok rs
  \/ outcome (process_custom_format py df) = Ok rs
  \/ convert_excel_to_sales_data py df = Ok rs ->
  Forall Spec.well_formed rs.
Proof.
  intros [H | [H | H]].
  - eapply converter_records_well_formed, H.
  - eapply converter_records_well_formed, H.
  - eapply dashboard_records_well_formed, H.
Qed.

(** C6 (validator emptiness).  [validate_data] raises its emptiness error --
    [ValueError("No valid sales data found")], the specification's
    [EmptyDatasetError] -- on the empty list, and on every non-empty list of
    records whose totals and bucket appointment counts are numbers it returns
    the statistics: the number of reps, the number of reps with
    [totalAppts > 0], the mean [sum / len] of the totals and, for each of the
    five buckets, the number of reps with [appointments > 0] and a present
    close rate.  The records of the converter and of the dashboard are all of
    that kind. *)
Theorem validator_emptiness :
  validate_data [] = Raise ValueError
  /\ (forall rs, rs <> [] -> Forall Spec.well_formed rs ->
        validate_data rs = Ok (Spec.stats rs))
  /\ (forall py df rs,
        outcome (process_standard_format py df) = Ok rs
        \/ outcome (process_custom_format py df) = Ok rs
        \/ convert_excel_to_sales_data py df = Ok rs ->
        Forall Spec.well_formed rs).
Proof.
  split; [reflexivity|]. split; [apply validate_data_stats|].
  apply produced_records_well_formed.
Qed.

End Validator.

(* ================================================================= *)
(** ** The scoring engine *)

Section Scoring.
Import Dashboard.

Lemma valid_category_spec cat_data a :
  appointments cat_data = Some a ->
  valid_category cat_data = Ok (Spec.valid_bucket cat_data).
Proof.
  intros Ha. unfold valid_category, Spec.valid_bucket, py_ge, py_cmp. rewrite Ha.
  cbn [bind]. destruct (num_geb a (Int 2)); [|now destruct (closeRate cat_data)].
  destruct (closeRate cat_data) as [c|]; [|reflexivity].
  now destruct (num_gtb c (Int 0)).
Qed.

Lemma valid_categories_of_spec rep cats acc :
  (forall cat, In cat cats ->
     exists cat_data a, dict_lookup (categories rep) cat = Some cat_data /\
                        appointments cat_data = Some a) ->
  valid_categories_of rep cats acc =
  Ok (acc ++ omap (fun cat => dict_lookup (categories rep) cat ≫= Spec.valid_bucket) cats)%list.
Proof.
  revert acc. induction cats as [|cat cats IH]; intros acc H.
  - cbn. now rewrite app_nil_r.
  - destruct (H cat (or_introl eq_refl)) as (cat_data & a & Hl & Ha).
    cbn [valid_categories_of omap list_omap]. unfold dict_get. rewrite Hl. cbn [bind].
    rewrite (valid_category_spec _ _ Ha). cbn [bind mbind option_bind].
    rewrite IH by (intros c Hc; apply H; now right).
    destruct (Spec.valid_bucket cat_data); [now rewrite <- app_assoc | reflexivity].
Qed.

(** The three running totals of the second loop are the three sums. *)
Lemma fold_accumulate valid c p w :
  fold_left accumulate valid (c, p, w) =
  (fold_left num_add (map (fun v => num_mul (valid_closeRate v) (valid_appointments v)) valid) c,
   fold_left num_add (map (fun v => num_mul (valid_captureRate v) (valid_appointments v)) valid) p,
   fold_left num_add (map valid_appointments valid) w).
Proof.
  revert c p w. induction valid as [|v valid IH]; intros c p w; [reflexivity|].
  cbn [fold_left map accumulate]. apply IH.
Qed.

(** The scoring engine on a well-formed record with a numeric overall close
    rate. *)
Lemma calculate_performance_score_spec rep overall :
  Spec.well_formed rep -> overallClose rep = Some overall ->
  calculate_performance_score rep =
  Ok {| scored_name := name rep;
        score := Spec.score overall
                   (Spec.average valid_closeRate (Spec.valid_buckets rep))
                   (Spec.average valid_captureRate (Spec.valid_buckets rep));
        scored_overallClose := overallClose rep;
        avgCategoryClose := Spec.average valid_closeRate (Spec.valid_buckets rep);
        avgCategoryCapture := Spec.average valid_captureRate (Spec.valid_buckets rep);
        scored_totalAppts := totalAppts rep;
        validCategories := Z.of_nat (length (Spec.valid_buckets rep));
        rawData := rep |}.
Proof.
  intros [_ Hb] Ho. unfold calculate_performance_score.
  rewrite (valid_categories_of_spec rep unit_categories [] Hb). cbn [bind app].
  fold (Spec.valid_buckets rep). rewrite fold_accumulate.
  rewrite !weighted_average_returns. cbn [bind]. rewrite Ho. cbn [py_mul bind].
  reflexivity.
Qed.

Lemma valid_bucket_weight cat_data v :
  Spec.valid_bucket cat_data = Some v -> num_geb (valid_appointments v) (Int 2) = true.
Proof.
  unfold Spec.valid_bucket.
  destruct (appointments cat_data) as [a|]; [|discriminate].
  destruct (closeRate cat_data) as [c|]; [|discriminate].
  destruct (num_geb a (Int 2)) eqn:E; [|discriminate].
  destruct (num_gtb c (Int 0)); [|discriminate].
  now intros [= <-].
Qed.

Lemma valid_buckets_weight rep v :
  In v (Spec.valid_buckets rep) -> num_geb (valid_appointments v) (Int 2) = true.
Proof.
  unfold Spec.valid_buckets. generalize unit_categories.
  intros cats. induction cats as [|cat cats IH]; [intros []|].
  cbn [omap list_omap].
  destruct (dict_lookup (categories rep) cat ≫= Spec.valid_bucket) as [v'|] eqn:E;
    [|exact IH].
  intros [<- | H]; [|now apply IH].
  destruct (dict_lookup (categories rep) cat) as [cat_data|]; [|discriminate].
  eapply valid_bucket_weight, E.
Qed.

(** A sum of integer weights, each at least 2, is an integer that grows by
    at least 2 with every term. *)
Lemma sum_integer_weights (l : list num) (w0 : Z) :
  (forall n, In n l -> (exists z, n = Int z) /\ num_geb n (Int 2) = true) ->
  exists z, fold_left num_add l (Int w0) = Int z /\ w0 + 2 * Z.of_nat (length l) <= z.
Proof.
  revert w0. induction l as [|n l IH]; intros w0 H.
  - exists w0. split; [reflexivity | cbn; lia].
  - destruct (H n (or_introl eq_refl)) as [[z ->] Hz].
    unfold num_geb, num_compare in Hz.
    assert (2 <= z) by (destruct (Z.compare_spec z 2); try discriminate; lia).
    cbn [fold_left num_add].
    destruct (IH (w0 + z) (fun m Hm => H m (or_intror Hm))) as (z' & -> & Hz').
    exists z'. split; [reflexivity|]. cbn [length]. lia.
Qed.

(** With integer appointment counts, some valid bucket means some weight. *)
Lemma integer_weights_positive rep :
  (forall v, In v (Spec.valid_buckets rep) -> exists z, valid_appointments v = Int z) ->
  Spec.valid_buckets rep <> [] ->
  num_gtb (Spec.weight_sum (Spec.valid_buckets rep)) (Int 0) = true.
Proof.
  intros Hint Hne. unfold Spec.weight_sum, py_sum.
  destruct (sum_integer_weights (map valid_appointments (Spec.valid_buckets rep)) 0)
    as (z & -> & Hz).
  - intros n Hn. apply in_map_iff in Hn as (v & <- & Hv).
    split; [now apply Hint | now apply (valid_buckets_weight rep)].
  - rewrite length_map in Hz.
    assert (0 < Z.of_nat (length (Spec.valid_buckets rep))).
    { destruct (Spec.valid_buckets rep); [congruence | cbn; lia]. }
    unfold num_gtb, num_compare.
    destruct (Z.compare_spec z 0); try reflexivity; lia.
Qed.

(** C1 (score formula and weight identity).  For every record whose counts
    are numbers and whose overall close rate is the number [overall], the
    scoring engine returns
    [score = overall * 0.50 + avgCategoryClose * 0.15
             + min(avgCategoryCapture, 150) * 0.35],
    where the two averages are [Σ rate_i * appointments_i / Σ appointments_i]
    over exactly the buckets with [appointments >= 2] and a present
    [closeRate > 0], a bucket's capture rate counting as [captureRate or 0];
    the quotient is taken when the total weight is positive, as it is
    whenever a bucket qualifies and the counts are integers, and both
    averages are [0] when no bucket qualifies.  In particular the synthetic
    rep with overall close 40 and five buckets of 10 appointments, close rate
    40 and capture rate 100 -- written as integers or as floats -- gets the
    averages 40 and 100, the normalized capture 100 and the score 61.0. *)
Theorem score_formula :
  (forall rep overall,
     Spec.well_formed rep -> overallClose rep = Some overall ->
     let valid := Spec.valid_buckets rep in
     let avg_close := Spec.average valid_closeRate valid in
     let avg_capture := Spec.average valid_captureRate valid in
     calculate_performance_score rep =
       Ok {| scored_name := name rep;
             score := Spec.score overall avg_close avg_capture;
             scored_overallClose := overallClose rep;
             avgCategoryClose := avg_close;
             avgCategoryCapture := avg_capture;
             scored_totalAppts := totalAppts rep;
             validCategories := Z.of_nat (length valid);
             rawData := rep |}
     /\ (valid = [] -> avg_close = Int 0 /\ avg_capture = Int 0)
     /\ ((forall v, In v valid -> exists z, valid_appointments v = Int z) ->
         valid <> [] ->
         avg_close =
           Flt (num_quot (Spec.weighted_sum valid_closeRate valid) (Spec.weight_sum valid))
         /\ avg_capture =
           Flt (num_quot (Spec.weighted_sum valid_captureRate valid) (Spec.weight_sum valid))))
  /\ (forall rep lit,
        lit = Int \/ lit = (fun z => Flt (Z2F z)) ->
        Spec.uniform_rep lit 40 10 40 100 rep ->
        exists scored,
          calculate_performance_score rep = Ok scored
          /\ avgCategoryClose scored = Flt 40
          /\ avgCategoryCapture scored = Flt 100
          /\ Spec.normalized_capture (avgCategoryCapture scored) = Flt 100
          /\ score scored = Flt 61).
Proof.
  split.
  - intros rep overall Hw Ho. cbv zeta. split; [|split].
    + now apply calculate_performance_score_spec.
    + intros ->. split; reflexivity.
    + intros Hint Hne. unfold Spec.average.
      rewrite (integer_weights_positive rep Hint Hne). split; reflexivity.
  - intros [n t o c cats] lit Hlit [Ho Hc]. cbn in Ho, Hc. subst o cats.
    destruct Hlit as [-> | ->]; eexists; (split; [vm_compute; reflexivity|]);
      repeat split; vm_compute; reflexivity.
Qed.

End Scoring.

(* ================================================================= *)
(** ** Category leaders *)

Section Leaders.
Import Dashboard.

Lemma leader_score_spec cat rep cat_data a :
  dict_lookup (categories rep) cat = Some cat_data -> appointments cat_data = Some a ->
  leader_score cat_data = Ok (Spec.leader_candidate cat rep).
Proof.
  intros Hl Ha. unfold leader_score, Spec.leader_candidate, py_ge, py_cmp.
  rewrite Hl. cbn [mbind option_bind]. rewrite Ha. cbn [bind].
  destruct (num_geb a (Int 3)); [|now destruct (closeRate cat_data)].
  destruct (closeRate cat_data) as [c|]; [|reflexivity].
  now destruct (num_gtb c (Int 0)).
Qed.

Lemma category_reps_of_spec cat reps acc :
  In cat unit_categories -> Forall Spec.well_formed reps ->
  category_reps_of cat reps acc = Ok (acc ++ Spec.candidates cat reps)%list.
Proof.
  intros Hc Hw. revert acc. induction Hw as [|rep reps [_ Hb] _ IH]; intros acc.
  - cbn. now rewrite app_nil_r.
  - destruct (Hb cat Hc) as (cat_data & a & Hl & Ha).
    cbn [category_reps_of]. unfold dict_get. rewrite Hl. cbn [bind].
    rewrite (leader_score_spec cat rep cat_data a Hl Ha). cbn [bind].
    rewrite IH. unfold Spec.candidates at 2. cbn [omap list_omap].
    destruct (Spec.leader_candidate cat rep); cbn [fmap option_fmap option_map];
      [now rewrite <- app_assoc | reflexivity].
Qed.

(** A bucket score is a float. *)
Lemma bucket_score_float c p : exists f, Spec.bucket_score c p = Flt f.
Proof. unfold Spec.bucket_score, num_add, num_mul. destruct c; now eexists. Qed.

Lemma candidates_float cat reps x :
  In x (Spec.candidates cat reps) -> exists f, snd x = Flt f.
Proof.
  unfold Spec.candidates. induction reps as [|rep reps IH]; [intros []|].
  cbn [omap list_omap].
  destruct (Spec.leader_candidate cat rep) as [s|] eqn:E;
    cbn [fmap option_fmap option_map]; [|exact IH].
  intros [<- | H]; [|now apply IH]. cbn [snd].
  unfold Spec.leader_candidate in E.
  destruct (dict_lookup (categories rep) cat) as [cat_data|];
    cbn [mbind option_bind] in E; [|discriminate].
  destruct (appointments cat_data), (closeRate cat_data); try discriminate.
  destruct (_ && _); [|discriminate]. injection E as <-. apply bucket_score_float.
Qed.

(** [max] returns an item that no item exceeds. *)
Lemma max_by_score_invariant others best seen :
  (forall x, In x (seen ++ others) -> exists f, snd x = Flt f) ->
  In best seen -> (forall x, In x seen -> num_gtb (snd x) (snd best) = false) ->
  In (max_by_score best others) (seen ++ others)
  /\ forall x, In x (seen ++ others) ->
       num_gtb (snd x) (snd (max_by_score best others)) = false.
Proof.
  unfold max_by_score. revert best seen.
  induction others as [|item others IH]; intros best seen Hf Hin Hmax.
  - rewrite app_nil_r. auto.
  - cbn [fold_left].
    replace (seen ++ item :: others)%list with ((seen ++ [item]) ++ others)%list in *
      by now rewrite <- app_assoc.
    destruct (Hf item) as [fi Hfi]; [apply in_or_app; left; apply in_or_app; right; now left|].
    destruct (Hf best) as [fb Hfb]; [apply in_or_app; left; apply in_or_app; now left|].
    destruct (num_gtb (snd item) (snd best)) eqn:E; apply IH; try assumption.
    + apply in_or_app. right. now left.
    + intros x Hx. apply in_app_or in Hx as [Hx | [<- | []]].
      * destruct (Hf x) as [fx Hfx];
          [apply in_or_app; left; apply in_or_app; now left|].
        specialize (Hmax x Hx). rewrite Hfx, Hfi, Hfb in *.
        destruct (num_gtb (Flt fx) (Flt fi)) eqn:E'; [|reflexivity].
        now rewrite (num_gtb_Flt_trans _ _ _ E' E) in Hmax.
      * rewrite Hfi. apply num_gtb_Flt_irrefl.
    + apply in_or_app. now left.
    + intros x Hx. apply in_app_or in Hx as [Hx | [<- | []]]; auto.
Qed.

Lemma max_by_score_spec first others :
  (forall x, In x (first :: others) -> exists f, snd x = Flt f) ->
  In (max_by_score first others) (first :: others)
  /\ forall x, In x (first :: others) ->
       num_gtb (snd x) (snd (max_by_score first others)) = false.
Proof.
  intros Hf. apply (max_by_score_invariant others first [first]).
  - exact Hf.
  - now left.
  - intros x [<- | []]. destruct (Hf first) as [f ->]; [now left|].
    apply num_gtb_Flt_irrefl.
Qed.

Lemma category_leaders_from_spec reps cats (leaders : gmap string RepRecord) :
  Forall Spec.well_formed reps -> (forall cat, In cat cats -> In cat unit_categories) ->
  category_leaders_from reps cats leaders =
  Ok (fold_left
        (fun (leaders : gmap string RepRecord) cat =>
           match Spec.elected (Spec.candidates cat reps) with
           | Some leader => <[cat := leader]> leaders
           | None => leaders
           end) cats leaders).
Proof.
  intros Hw. revert leaders. induction cats as [|cat cats IH]; intros leaders Hc;
    [reflexivity|].
  cbn [category_leaders_from fold_left].
  rewrite (category_reps_of_spec cat reps []) by (auto; apply Hc; now left).
  cbn [bind app]. rewrite IH by (intros c Hin; apply Hc; now right).
  unfold Spec.elected. now destruct (Spec.candidates cat reps).
Qed.

Lemma fold_leaders_other (f : string -> option RepRecord) cats
    (leaders : gmap string RepRecord) cat :
  ~ In cat cats ->
  fold_left (fun (leaders : gmap string RepRecord) c =>
               match f c with Some l => <[c := l]> leaders | None => leaders end)
            cats leaders !! cat
  = leaders !! cat.
Proof.
  revert leaders. induction cats as [|c cats IH]; intros leaders Hn; [reflexivity|].
  cbn [fold_left]. rewrite IH by (intros H; apply Hn; now right).
  destruct (f c); [|reflexivity]. apply lookup_insert_ne. intros ->. apply Hn. now left.
Qed.

Lemma fold_leaders_lookup (f : string -> option RepRecord) cats
    (leaders : gmap string RepRecord) cat :
  List.NoDup cats -> In cat cats -> leaders !! cat = None ->
  fold_left (fun (leaders : gmap string RepRecord) c =>
               match f c with Some l => <[c := l]> leaders | None => leaders end)
            cats leaders !! cat
  = f cat.
Proof.
  intros Hnd. revert leaders. induction Hnd as [|c cats Hc Hnd IH]; intros leaders;
    [intros []|].
  cbn [fold_left]. intros [-> | Hin] Hl.
  - rewrite fold_leaders_other by exact Hc.
    destruct (f cat); [apply lookup_insert_eq | exact Hl].
  - apply IH; [exact Hin|]. destruct (f c); [|exact Hl].
    rewrite lookup_insert_ne; [exact Hl|]. intros ->. contradiction.
Qed.

Lemma unit_categories_NoDup : List.NoDup unit_categories.
Proof.
  unfold unit_categories. repeat constructor; cbn; intuition discriminate.
Qed.

(** The leaders of a set of well-formed records, bucket by bucket. *)
Lemma category_leaders_lookup reps :
  Forall Spec.well_formed reps ->
  exists leaders,
    category_leaders reps = Ok leaders
    /\ forall cat, In cat unit_categories ->
         leaders !! cat = Spec.elected (Spec.candidates cat reps).
Proof.
  intros Hw. eexists. split.
  - unfold category_leaders. apply category_leaders_from_spec; auto.
  - intros cat Hc.
    apply (fold_leaders_lookup (fun c => Spec.elected (Spec.candidates c reps)));
      [apply unit_categories_NoDup | exact Hc | apply lookup_empty].
Qed.

(** C8 (category leaders).  For every set of well-formed records and every
    bucket, the leader the dashboard records for the bucket is a rep that
    qualifies -- [appointments >= 3] and a present [closeRate > 0] -- and
    whose [bucketScore = closeRate * 0.6 + min(captureRate or 0, 150) * 0.4]
    no qualifying rep exceeds; the bucket has a leader exactly when some rep
    qualifies.  In particular, of three reps who qualify for bucket [0-4]
    with the scores 70, 85 and 60, the one scoring 85 is the leader. *)
Theorem category_leader_argmax :
  (forall reps, Forall Spec.well_formed reps ->
     exists leaders,
       category_leaders reps = Ok leaders
       /\ forall cat, In cat unit_categories ->
            match leaders !! cat with
            | Some leader =>
                exists s, In (leader, s) (Spec.candidates cat reps)
                          /\ forall x, In x (Spec.candidates cat reps) ->
                               num_gtb (snd x) s = false
            | None => Spec.candidates cat reps = []
            end)
  /\ (forall a b c, Forall Spec.well_formed [a; b; c] ->
        Spec.leader_candidate "0-4" a = Some (Flt 70) ->
        Spec.leader_candidate "0-4" b = Some (Flt 85) ->
        Spec.leader_candidate "0-4" c = Some (Flt 60) ->
        exists leaders,
          category_leaders [a; b; c] = Ok leaders /\ leaders !! "0-4" = Some b).
Proof.
  split.
  - intros reps Hw. destruct (category_leaders_lookup reps Hw) as (leaders & Hl & Hk).
    exists leaders. split; [exact Hl|]. intros cat Hc. rewrite (Hk cat Hc).
    unfold Spec.elected.
    destruct (Spec.candidates cat reps) as [|first others] eqn:E; [reflexivity|].
    destruct (max_by_score_spec first others) as [Hin Hmax].
    { intros x Hx. apply (candidates_float cat reps). now rewrite E. }
    exists (snd (max_by_score first others)). split; [|exact Hmax].
    now destruct (max_by_score first others).
  - intros a b c Hw Ha Hb Hc.
    destruct (category_leaders_lookup [a; b; c] Hw) as (leaders & Hl & Hk).
    exists leaders. split; [exact Hl|]. rewrite Hk by (now left).
    unfold Spec.candidates. cbn [omap list_omap]. rewrite Ha, Hb, Hc.
    cbn [fmap option_fmap option_map Spec.elected]. unfold max_by_score.
    cbn [fold_left snd fst].
    change (num_gtb (Flt 85) (Flt 70)) with true. cbv iota. cbn [snd].
    change (num_gtb (Flt 60) (Flt 85)) with false. reflexivity.
Qed.

End Leaders.

(* ================================================================= *)
(** ** The percentage rescale law *)

Section Rescale.
Import Converter Dashboard.
Context (py : builtins).

Lemma percent_rule_fraction m : (m <=? 1)%float = true -> Spec.percent_rule m = (m * 100)%float.
Proof. unfold Spec.percent_rule. now intros ->. Qed.

Lemma percent_rule_percentage m : (1 <? m)%float = true -> Spec.percent_rule m = m.
Proof. unfold Spec.percent_rule. intros H. now rewrite (float_ltb_not_leb _ _ H). Qed.

Lemma safe_convert_numeric_parses v m dflt :
  Spec.parses py v m ->
  safe_convert_numeric py v true dflt = IO (Ok (Some (Flt (Spec.percent_rule m)))) [].
Proof.
  intros (Hna & Hd & He & Hp). unfold safe_convert_numeric.
  rewrite Hna, Hd, He. cbn [orb].
  destruct v as [| n | s]; [contradiction | |].
  - subst m. reflexivity.
  - destruct Hp as (H1 & H2 & H3).
    apply String.eqb_neq in H1, H2. unfold try_except.
    rewrite H1, H2. cbn [orb py_float]. rewrite H3. reflexivity.
Qed.

Lemma overall_rate_float m :
  overall_rate (Some (Flt m)) = Ok (Some (Flt (Spec.percent_rule m))).
Proof.
  unfold overall_rate, py_le, py_cmp, py_mul, Spec.percent_rule. cbn [bind].
  rewrite num_leb_Flt_one. destruct (m <=? 1)%float; cbn [bind]; [|reflexivity].
  now rewrite num_mul_Flt_100.
Qed.

Lemma bucket_rate_float m :
  bucket_rate (Some (Flt m)) = Some (Flt (Spec.percent_rule m)).
Proof.
  unfold bucket_rate, Spec.percent_rule. rewrite num_leb_Flt_one.
  destruct (m <=? 1)%float; [|reflexivity]. now rewrite num_mul_Flt_100.
Qed.

(** C2 (percentage rescale law).  The rule multiplies a magnitude of at
    most 1.0 by 100 and leaves a larger one alone: 0.35 becomes 35 and 1.05
    stays 1.05.  The converter's coercion of a percentage cell that parses to
    the magnitude [m] returns the rule's value at [m]; and in every record
    the dashboard builds, each of the two overall rates and of the ten bucket
    rates whose cell parses to the float [m] is the rule's value at [m]. *)
Theorem percentage_rescale_law :
  (forall m, (m <=? 1)%float = true -> Spec.percent_rule m = (m * 100)%float)
  /\ (forall m, (1 <? m)%float = true -> Spec.percent_rule m = m)
  /\ Spec.percent_rule 0.35 = 35%float
  /\ Spec.percent_rule 1.05 = 1.05%float
  /\ (forall v m dflt,
        Spec.parses py v m ->
        outcome (safe_convert_numeric py v true dflt) = Ok (Some (Flt (Spec.percent_rule m))))
  /\ (forall row r,
        dashboard_row py row = Ok r ->
        (forall m, safe_get py row "Overall Close %" (Int 0) = Some (Flt m) ->
           overallClose r = Some (Flt (Spec.percent_rule m)))
        /\ (forall m, safe_get py row "Units Captured on Sold Jobs %" (Int 0) = Some (Flt m) ->
              overallCapture r = Some (Flt (Spec.percent_rule m)))
        /\ (forall cat, In cat unit_categories ->
              exists cat_data,
                dict_lookup (categories r) cat = Some cat_data
                /\ (forall m, safe_get py row (close_col cat) (Int 0) = Some (Flt m) ->
                      closeRate cat_data = Some (Flt (Spec.percent_rule m)))
                /\ (forall m, safe_get py row (capture_col cat) (Int 0) = Some (Flt m) ->
                      captureRate cat_data = Some (Flt (Spec.percent_rule m))))).
Proof.
  split; [exact percent_rule_fraction|].
  split; [exact percent_rule_percentage|].
  split; [vm_compute; reflexivity|].
  split; [vm_compute; reflexivity|].
  split.
  - intros v m dflt H. now rewrite (safe_convert_numeric_parses v m dflt H).
  - intros row r Hr.
    apply dashboard_row_returns in Hr as (_ & _ & Hc & Hp & Hcats).
    split; [|split].
    + intros m Hm. rewrite Hm, overall_rate_float in Hc. congruence.
    + intros m Hm. rewrite Hm, overall_rate_float in Hp. congruence.
    + intros cat Hcat. exists (Spec.dashboard_bucket py row cat).
      split; [rewrite Hcats; now apply dict_lookup_map|].
      split; intros m Hm; cbn [closeRate captureRate Spec.dashboard_bucket];
        rewrite Hm; apply bucket_rate_float.
Qed.

End Rescale.

(* ================================================================= *)
(** ** The column mapper *)

Section ColumnMapper.
Import Converter.

(** C5, as the code has it.  For every sequence of labels and every slot,
    the label the mapper assigns to the slot is the LAST label of the
    sequence that is filed under the slot -- a label being filed under the
    first slot whose keyword test its lower-cased text passes, the tests
    tried in the order rep name, total appointments, overall close, overall
    capture; a later such label replaces the earlier assignment, and the
    slot stays empty when there is none. *)
Theorem last_label_wins (cols : list string) (slot : string) :
  column_mapping_of cols !! slot =
  List.find (fun col => bool_decide (Spec.slot_of col = Some slot)) (rev cols).
Proof.
  induction cols as [|col cols IH] using rev_ind; [reflexivity|].
  rewrite column_mapping_of_snoc, map_column_slot, rev_app_distr.
  cbn [rev app List.find].
  destruct (Spec.slot_of col) as [k|] eqn:E.
  - destruct (decide (k = slot)) as [-> | Hne].
    + rewrite bool_decide_eq_true_2 by reflexivity. apply lookup_insert_eq.
    + rewrite bool_decide_eq_false_2 by congruence.
      rewrite lookup_insert_ne by exact Hne. exact IH.
  - rewrite bool_decide_eq_false_2 by discriminate. exact IH.
Qed.

(** C5, as stated, fails: of the labels ["Rep Name"] and ["Customer Name"],
    both of which pass the rep-name test, the first is ["Rep Name"], and the
    mapper assigns ["Customer Name"]. *)
Lemma first_label_does_not_win :
  List.find (Spec.slot_test "Sales Rep") ["Rep Name"; "Customer Name"] = Some "Rep Name"
  /\ column_mapping_of ["Rep Name"; "Customer Name"] !! "Sales Rep" = Some "Customer Name".
Proof. split; vm_compute; reflexivity. Qed.

End ColumnMapper.

(* ================================================================= *)
(** ** Errors and rows *)

Section RowErrors.
Import Converter Dashboard.






End RowErrors.

(* ================================================================= *)
(** ** The two conversions side by side *)

Section TwoConversions.
Import Converter Dashboard.
Context (py : builtins).


Lemma rescale_percent f : rescale true f = Spec.percent_rule f.
Proof. reflexivity. Qed.








End TwoConversions.

Section TwoConversionsDiffer.
Import Converter Dashboard.


End TwoConversionsDiffer.

(* ================================================================= *)
(** ** The theorems at sample inputs *)

Section Witnesses.
Import Converter Dashboard.

Lemma uniform_well_formed rep_name overall appts close capture :
  Spec.well_formed (Examples.uniform rep_name overall appts close capture).
Proof.
  split; [now eexists|]. intros cat Hc.
  exists {| appointments := Some appts; closeRate := Some close; captureRate := Some capture |},
         appts.
  split; [|reflexivity].
  apply (dict_lookup_map
           (fun _ => {| appointments := Some appts; closeRate := Some close;
                        captureRate := Some capture |}) unit_categories cat Hc).
Qed.

(** The score weight identity, from the general formula. *)
Lemma score_formula_witness :
  Spec.well_formed Examples.synthetic
  /\ overallClose Examples.synthetic = Some (Int 40)
  /\ exists scored,
       calculate_performance_score Examples.synthetic = Ok scored
       /\ score scored = Flt 61.
Proof.
  split; [apply uniform_well_formed|]. split; [reflexivity|].
  destruct (proj1 score_formula Examples.synthetic (Int 40)
              (uniform_well_formed _ _ _ _ _) eq_refl) as (H & _).
  eexists. split; [exact H|]. vm_compute. reflexivity.
Defined.

(** The fraction 0.35 read from a cell becomes 35. *)
Lemma percentage_rescale_law_witness :
  Spec.parses Examples.no_text_numbers (VNum (Flt 0.35)) 0.35
  /\ outcome (safe_convert_numeric Examples.no_text_numbers (VNum (Flt 0.35)) true (Int 0))
     = Ok (Some (Flt (Spec.percent_rule 0.35))).
Proof.
  assert (H : Spec.parses Examples.no_text_numbers (VNum (Flt 0.35)) 0.35)
    by (repeat split; reflexivity).
  split; [exact H|].
  exact (proj1 (proj2 (proj2 (proj2 (proj2
           (percentage_rescale_law Examples.no_text_numbers)))))
           (VNum (Flt 0.35)) 0.35%float (Int 0) H).
Defined.




(** The statistics of a one-rep set. *)
Lemma validator_emptiness_witness :
  [Examples.synthetic] <> []
  /\ Forall Spec.well_formed [Examples.synthetic]
  /\ validate_data [Examples.synthetic] = Ok (Spec.stats [Examples.synthetic]).
Proof.
  assert (H1 : [Examples.synthetic] <> []) by discriminate.
  assert (H2 : Forall Spec.well_formed [Examples.synthetic])
    by (constructor; [apply uniform_well_formed | constructor]).
  split; [exact H1|]. split; [exact H2|].
  exact (proj1 (proj2 validator_emptiness) [Examples.synthetic] H1 H2).
Defined.


(** Of the reps scoring 70, 85 and 60, the second leads bucket 0-4. *)
Lemma category_leader_witness :
  Forall Spec.well_formed [Examples.rep70; Examples.rep85; Examples.rep60]
  /\ Spec.leader_candidate "0-4" Examples.rep70 = Some (Flt 70)
  /\ Spec.leader_candidate "0-4" Examples.rep85 = Some (Flt 85)
  /\ Spec.leader_candidate "0-4" Examples.rep60 = Some (Flt 60)
  /\ exists leaders,
       category_leaders [Examples.rep70; Examples.rep85; Examples.rep60] = Ok leaders
       /\ leaders !! "0-4" = Some Examples.rep85.
Proof.
  assert (Hw : Forall Spec.well_formed [Examples.rep70; Examples.rep85; Examples.rep60])
    by (repeat constructor; apply uniform_well_formed).
  assert (H70 : Spec.leader_candidate "0-4" Examples.rep70 = Some (Flt 70))
    by (vm_compute; reflexivity).
  assert (H85 : Spec.leader_candidate "0-4" Examples.rep85 = Some (Flt 85))
    by (vm_compute; reflexivity).
  assert (H60 : Spec.leader_candidate "0-4" Examples.rep60 = Some (Flt 60))
    by (vm_compute; reflexivity).
  repeat (split; [assumption|]).
  exact (proj2 category_leader_argmax Examples.rep70 Examples.rep85 Examples.rep60
           Hw H70 H85 H60).
Defined.

(** The records of Ann's one-row table have the five buckets. *)
Lemma bucket_invariant_witness :
  convert_excel_to_sales_data Examples.no_text_numbers (Examples.table [Examples.ann])
  = Ok (Examples.converted (Examples.table [Examples.ann]))
  /\ (Forall (fun r =>
                dict_keys (categories r) = unit_categories
                /\ (forall cat, In cat unit_categories ->
                      exists cat_data, dict_get (categories r) cat = Ok cat_data)
                /\ calculate_performance_score r <> Raise KeyError)
             (Examples.converted (Examples.table [Examples.ann]))
      /\ validate_data (Examples.converted (Examples.table [Examples.ann]))
         <> Raise KeyError).
Proof.
  assert (H : convert_excel_to_sales_data Examples.no_text_numbers
                (Examples.table [Examples.ann])
              = Ok (Examples.converted (Examples.table [Examples.ann])))
    by (vm_compute; reflexivity).
  split; [exact H|].
  exact (bucket_invariant Examples.no_text_numbers (Examples.table [Examples.ann])
           (Examples.converted (Examples.table [Examples.ann]))
           (or_intror (or_intror H))).
Defined.


End Witnesses.

(* ================================================================= *)
(** * Further properties of the code *)

(* ================================================================= *)
(** ** The converter: detection and coercion *)

Section Detection.
Import Converter Behaviour.

Lemma prefix_app sub s : String.prefix sub s = true <-> exists post, s = sub ++ post.
Proof.
  revert s. induction sub as [|c sub IH]; intros s.
  - split; [intros _; now exists s | destruct s; reflexivity].
  - destruct s as [|d s]; cbn [String.prefix].
    + split; [discriminate | intros [post H]; discriminate].
    + destruct (Ascii.ascii_dec c d) as [<- | Hne].
      * rewrite IH. split; intros [post H]; exists post.
        -- cbn. now rewrite H.
        -- cbn in H. now injection H.
      * split; [discriminate | intros [post H]; injection H as H1 H2; congruence].
Qed.

(** [sub in s] holds exactly when [s] is some text, [sub], some text. *)
Lemma contains_app sub s :
  contains sub s = true <-> exists pre post, s = pre ++ sub ++ post.
Proof.
  induction s as [|c s IH].
  - cbn [contains]. rewrite orb_false_r, prefix_app. split.
    + intros [post H]. now exists "", post.
    + intros (pre & post & H). destruct pre; [now exists post|discriminate].
  - cbn [contains]. rewrite orb_true_iff, prefix_app, IH. split.
    + intros [[post H] | (pre & post & H)].
      * now exists "", post.
      * exists (String c pre), post. cbn. now rewrite H.
    + intros (pre & post & H). destruct pre as [|d pre].
      * left. now exists post.
      * right. exists pre, post. cbn in H. now injection H.
Qed.

(** X1 (format detection).  A table is in the standard format exactly when one
    of its column labels has the text [(<cat>) Issued Appts] of one of the
    five buckets somewhere inside it; every other table is custom. *)
Theorem standard_format_detection (df : DataFrame) :
  (detect_column_format df = "standard" <->
   exists col cat pre post,
     In col (columns df) /\ In cat unit_categories /\ col = pre ++ appts_col cat ++ post)
  /\ (detect_column_format df = "standard" \/ detect_column_format df = "custom").
Proof.
  unfold detect_column_format.
  destruct (existsb _ (columns df)) eqn:E.
  - split; [|now left]. split; [intros _|reflexivity].
    apply existsb_exists in E as (col & Hcol & E).
    apply existsb_exists in E as (cat & Hcat & E).
    apply contains_app in E as (pre & post & E). now exists col, cat, pre, post.
  - split; [|now right]. split; [discriminate|].
    intros (col & cat & pre & post & Hcol & Hcat & Heq).
    assert (existsb (fun col => existsb (fun cat => contains (appts_col cat) col) unit_categories)
                    (columns df) = true) as H; [|congruence].
    apply existsb_exists. exists col. split; [exact Hcol|].
    apply existsb_exists. exists cat. split; [exact Hcat|].
    apply contains_app. now exists pre, post.
Qed.

End Detection.

Section Coercion.
Import Converter Behaviour.
Context (py : builtins).




End Coercion.

(* ================================================================= *)
(** ** The converter: the two paths *)

Section StandardPath.
Import Converter Behaviour.
Context (py : builtins).







End StandardPath.

Section Names.
Import Converter Behaviour.
Context (py : builtins).

Lemma lstrip_no_leading_space s : no_leading_space (lstrip s) = true.
Proof.
  induction s as [|c s IH]; [reflexivity|]. cbn [lstrip].
  destruct (is_space c) eqn:E; [exact IH|]. cbn. now rewrite E.
Qed.

Lemma lstrip_fixed s : no_leading_space s = true -> lstrip s = s.
Proof.
  destruct s as [|c s]; [reflexivity|]. cbn. intros H.
  now destruct (is_space c).
Qed.

Lemma rstrip_no_leading_space s :
  no_leading_space s = true -> no_leading_space (rstrip s) = true.
Proof.
  destruct s as [|c s]; [reflexivity|]. cbn [no_leading_space rstrip]. intros H.
  destruct (rstrip s); [|exact H]. apply negb_true_iff in H. rewrite H. cbn. now rewrite H.
Qed.

Lemma rstrip_cons c s :
  rstrip (String c s) =
  match rstrip s with
  | EmptyString => if is_space c then EmptyString else String c EmptyString
  | r => String c r
  end.
Proof. reflexivity. Qed.

Lemma rstrip_idempotent s : rstrip (rstrip s) = rstrip s.
Proof.
  induction s as [|c s IH]; [reflexivity|]. rewrite rstrip_cons.
  destruct (rstrip s) as [|d r] eqn:E.
  - destruct (is_space c) eqn:Ec; [reflexivity|]. cbn [rstrip]. now rewrite Ec.
  - rewrite rstrip_cons, IH. reflexivity.
Qed.

(** [strip] is idempotent: stripped text has nothing left to strip. *)
Lemma strip_idempotent s : strip (strip s) = strip s.
Proof.
  unfold strip.
  rewrite (lstrip_fixed (rstrip (lstrip s)))
    by apply rstrip_no_leading_space, lstrip_no_leading_space.
  apply rstrip_idempotent.
Qed.

(** X5 (names of the records).  Whatever the table, every record the standard
    path returns has a name that is not empty, has no white space left to
    strip, and is not ["nan"] in any letter case; and there are at most as
    many records as rows. *)
Theorem record_names_are_clean (df : DataFrame) :
  exists rs,
    outcome (process_standard_format py df) = Ok rs
    /\ (length rs <= length (rows df))%nat
    /\ Forall (fun r => name r <> "" /\ strip (name r) = name r /\ lower (name r) <> "nan") rs.
Proof.
  eexists. split; [apply process_standard_format_outcome|].
  rewrite length_map, kept_rows_filter. split.
  - etransitivity; [apply List.filter_length_le|]. now rewrite indexed_length.
  - apply List.Forall_forall. intros r Hr.
    apply in_map_iff in Hr as ([idx row] & <- & Hin).
    apply List.filter_In in Hin as [_ Hs].
    unfold Spec.survives, skipped_name in Hs. cbn [fst snd] in Hs.
    apply negb_true_iff, orb_false_iff in Hs as [H1 H2].
    unfold Spec.record_of_row. cbn [fst snd Spec.record_of name].
    split; [now apply String.eqb_neq|].
    split; [apply strip_idempotent | now apply String.eqb_neq].
Qed.

End Names.

Section CustomRows.
Import Converter Behaviour.
Context (py : builtins).

Lemma custom_category_column_dom row row' cat (rep_data rep_data' : Series) col :
  dom rep_data = dom rep_data' ->
  dom (custom_category_column row cat rep_data col)
  = dom (custom_category_column row' cat rep_data' col).
Proof.
  intros H. unfold custom_category_column. cbv zeta.
  repeat match goal with |- context [if ?b then _ else _] => destruct b end;
    rewrite ?dom_insert_L, ?H; reflexivity.
Qed.

Lemma custom_columns_dom row row' cat cols (rep_data rep_data' : Series) :
  dom rep_data = dom rep_data' ->
  dom (fold_left (custom_category_column row cat) cols rep_data)
  = dom (fold_left (custom_category_column row' cat) cols rep_data').
Proof.
  revert rep_data rep_data'. induction cols as [|col cols IH]; intros rep_data rep_data' H;
    [exact H|].
  cbn [fold_left]. apply IH. now apply custom_category_column_dom.
Qed.

Lemma custom_categories_dom row row' cols cats (rep_data rep_data' : Series) :
  dom rep_data = dom rep_data' ->
  dom (fold_left (fun rep_data cat => fold_left (custom_category_column row cat) cols rep_data)
                 cats rep_data)
  = dom (fold_left (fun rep_data cat => fold_left (custom_category_column row' cat) cols rep_data)
                   cats rep_data').
Proof.
  revert rep_data rep_data'. induction cats as [|cat cats IH]; intros rep_data rep_data' H;
    [exact H|].
  cbn [fold_left]. apply IH. now apply custom_columns_dom.
Qed.

(** Every standardized row has the same labels. *)
Lemma custom_row_dom cols (m : gmap string string) idx idx' row row' :
  dom (custom_row cols m idx row) = dom (custom_row cols m idx' row').
Proof.
  unfold custom_row. cbv zeta. apply custom_categories_dom.
  rewrite !dom_insert_L. reflexivity.
Qed.

Lemma union_dom_constant (D : gset string) (l : list Series) :
  Forall (fun r => dom r = D) l -> l <> [] -> ⋃ (dom <$> l) = D.
Proof.
  intros HD. induction HD as [|r l Hr Hl IH]; [congruence|]. intros _.
  cbn [fmap list_fmap union_list foldr]. rewrite Hr.
  destruct l as [|r' l].
  - cbn [fmap list_fmap union_list foldr]. apply (right_id_L ∅ (∪)).
  - rewrite IH by discriminate. apply (idemp_L (∪)).
Qed.

Lemma fill_no_hole (r : Series) (v : value) : r ∪ gset_to_gmap v (dom r) = r.
Proof.
  apply map_eq. intros k. destruct (r !! k) as [x|] eqn:E.
  - now apply lookup_union_Some_l.
  - apply lookup_union_None. split; [exact E|].
    apply lookup_gset_to_gmap_None. now apply not_elem_of_dom.
Qed.

(** X6 (the custom path, end to end).  It is the row loop of the standard path
    run over the relabelled rows, each under its own index: turning the
    relabelled rows into a frame adds no empty cell, because every one of them
    carries the same labels. *)
Theorem custom_path_runs_the_standard_loop (df : DataFrame) :
  process_custom_format py df
  = standard_loop py 0 (map (relabelled df) (Spec.indexed 0 (rows df))) []
  /\ forall x y, dom (relabelled df x) = dom (relabelled df y).
Proof.
  split; [|intros x y; apply custom_row_dom].
  unfold process_custom_format, process_standard_format. cbv zeta.
  cbn [rows DataFrame_of_records]. rewrite custom_loop_rows. cbn [app].
  fold (relabelled df). f_equal.
  destruct (Spec.indexed 0 (rows df)) as [|x l] eqn:E; [reflexivity|].
  rewrite (union_dom_constant (dom (relabelled df x))).
  - change (?f <$> ?l) with (map f l). rewrite <- (map_id (map (relabelled df) (x :: l))) at 2.
    apply map_ext_in. intros r Hr. apply in_map_iff in Hr as (y & <- & _).
    replace (dom (relabelled df x)) with (dom (relabelled df y)) by apply custom_row_dom.
    apply fill_no_hole.
  - apply List.Forall_forall. intros r Hr. apply in_map_iff in Hr as (y & <- & _).
    apply custom_row_dom.
  - discriminate.
Qed.

End CustomRows.

Section CustomCells.
Import Converter Behaviour.
Context (py : builtins).

Lemma bucket_label_not_slot cat slot :
  In slot Spec.canonical_slots ->
  appts_col cat <> slot /\ close_col cat <> slot /\ capture_col cat <> slot.
Proof.
  intros H. cbn in H.
  destruct H as [<- | [<- | [<- | [<- | []]]]]; repeat split; discriminate.
Qed.

Lemma custom_category_column_slot row cat (rep_data : Series) col slot :
  In slot Spec.canonical_slots ->
  custom_category_column row cat rep_data col !! slot = rep_data !! slot.
Proof.
  intros H. destruct (bucket_label_not_slot cat slot H) as (H1 & H2 & H3).
  unfold custom_category_column. cbv zeta.
  repeat match goal with |- context [if ?b then _ else _] => destruct b end;
    try reflexivity; now apply lookup_insert_ne.
Qed.

Lemma custom_categories_slot row cols cats (rep_data : Series) slot :
  In slot Spec.canonical_slots ->
  fold_left (fun rep_data cat => fold_left (custom_category_column row cat) cols rep_data)
            cats rep_data !! slot
  = rep_data !! slot.
Proof.
  intros H. revert rep_data. induction cats as [|cat cats IH]; intros rep_data; [reflexivity|].
  cbn [fold_left]. rewrite IH. clear IH.
  revert rep_data. induction cols as [|col cols IH]; intros rep_data; [reflexivity|].
  cbn [fold_left]. rewrite IH. now apply custom_category_column_slot.
Qed.

Lemma custom_category_column_labels row cat (rep_data : Series) col :
  In cat unit_categories ->
  (forall k, is_Some (rep_data !! k) -> canonical_label k) ->
  forall k, is_Some (custom_category_column row cat rep_data col !! k) -> canonical_label k.
Proof.
  intros Hcat H k. unfold custom_category_column. cbv zeta.
  repeat match goal with |- context [if ?b then _ else _] => destruct b end;
    try apply H;
    (destruct (decide (k = appts_col cat)) as [-> | Hne1];
       [intros _; right; exists cat; auto|]);
    (destruct (decide (k = close_col cat)) as [-> | Hne2];
       [intros _; right; exists cat; auto|]);
    (destruct (decide (k = capture_col cat)) as [-> | Hne3];
       [intros _; right; exists cat; auto|]);
    rewrite lookup_insert_ne by congruence; apply H.
Qed.

Lemma custom_categories_labels row cols cats (rep_data : Series) :
  (forall cat, In cat cats -> In cat unit_categories) ->
  (forall k, is_Some (rep_data !! k) -> canonical_label k) ->
  forall k,
    is_Some (fold_left (fun rep_data cat =>
                          fold_left (custom_category_column row cat) cols rep_data)
                       cats rep_data !! k) ->
    canonical_label k.
Proof.
  revert rep_data. induction cats as [|cat cats IH]; intros rep_data Hcats H; [exact H|].
  cbn [fold_left]. apply IH; [intros c Hc; apply Hcats; now right|].
  assert (Hcat : In cat unit_categories) by (apply Hcats; now left).
  clear IH Hcats. revert rep_data H.
  induction cols as [|col cols IH]; intros rep_data H; [exact H|].
  cbn [fold_left]. apply IH. now apply custom_category_column_labels.
Qed.

(** X7 (the cells of a relabelled row).  Under each of the four canonical
    headers it holds the cell the row has under the column mapped to that
    header (under the header itself when nothing is mapped to it), or the
    default when the row has no such cell: the name [Rep_<idx>], the number
    [0].  It has no label besides the four headers and the bucket labels. *)
Theorem relabelled_row_cells (df : DataFrame) (x : Z * Series) :
  let column_mapping := column_mapping_of (columns df) in
  relabelled df x !! "Sales Rep"
  = Some (row_get (snd x) (mapped column_mapping "Sales Rep")
                  (VStr ("Rep_" ++ str_of_Z (fst x))))
  /\ (forall slot,
        In slot ["Issued Appts"; "Overall Close %"; "Units Captured on Sold Jobs %"] ->
        relabelled df x !! slot
        = Some (row_get (snd x) (mapped column_mapping slot) (VNum (Int 0))))
  /\ (forall k, is_Some (relabelled df x !! k) -> canonical_label k).
Proof.
  cbv zeta. unfold relabelled. split; [apply custom_row_name|]. split.
  - intros slot Hslot. unfold custom_row. cbv zeta.
    rewrite custom_categories_slot by (cbn in *; tauto).
    cbn in Hslot. destruct Hslot as [<- | [<- | [<- | []]]].
    + rewrite !lookup_insert_ne by discriminate. apply lookup_insert_eq.
    + rewrite !lookup_insert_ne by discriminate. apply lookup_insert_eq.
    + apply lookup_insert_eq.
  - unfold custom_row. cbv zeta. apply custom_categories_labels; [auto|].
    intros k. rewrite !lookup_insert_is_Some, lookup_empty, is_Some_alt.
    intros H. left. cbn. intuition.
Qed.

End CustomCells.

(* ================================================================= *)
(** ** The converter: validation and the driver *)

Section Statistics.
Import Converter Behaviour.

Lemma filterM_returns {A} (p : A -> result bool) (l r : list A) :
  filterM p l = Ok r ->
  (length r <= length l)%nat /\ forall x, In x l -> exists b, p x = Ok b.
Proof.
  revert r. induction l as [|x l IH]; intros r.
  - cbn. intros [= <-]. split; [reflexivity | intros x []].
  - cbn [filterM]. destruct (p x) as [b|e] eqn:E; cbn [bind]; [|discriminate].
    destruct (filterM p l) as [r'|e]; cbn [bind]; [|discriminate].
    intros [= <-]. destruct (IH r' eq_refl) as [Hlen Hall]. split.
    + destruct b; cbn [length]; lia.
    + intros y [<- | Hy]; [now exists b | now apply Hall].
Qed.

Lemma sum_from_returns acc xs total :
  sum_from acc xs = Ok total -> Forall (fun x => exists n, x = Some n) xs.
Proof.
  revert acc. induction xs as [|[x|] xs IH]; intros acc; cbn [sum_from].
  - constructor.
  - intros H. constructor; [now exists x | eapply IH, H].
  - discriminate.
Qed.

Lemma has_category_data_returns cat r b :
  has_category_data cat r = Ok b ->
  exists cat_data n, dict_lookup (categories r) cat = Some cat_data
                     /\ appointments cat_data = Some n.
Proof.
  unfold has_category_data, dict_get.
  destruct (dict_lookup (categories r) cat) as [cat_data|]; cbn [bind]; [|discriminate].
  destruct (appointments cat_data) as [n|] eqn:E; cbn [py_gt py_cmp bind]; [|discriminate].
  intros _. now exists cat_data, n.
Qed.

Lemma count_of_bounds rs cat : 0 <= count_of rs cat <= Z.of_nat (length rs).
Proof.
  unfold count_of. destruct (filterM (has_category_data cat) rs) as [l|e] eqn:E; [|lia].
  apply filterM_returns in E as [Hlen _]. lia.
Qed.

(** What the per-bucket loop of the validator returns, when it returns. *)
Lemma categories_with_data_of_returns rs cats acc res :
  categories_with_data_of rs cats acc = Ok res ->
  res = fold_left (fun acc cat => dict_set acc cat (count_of rs cat)) cats acc
  /\ forall cat r, In cat cats -> In r rs -> exists b, has_category_data cat r = Ok b.
Proof.
  revert acc. induction cats as [|cat cats IH]; intros acc.
  - cbn. intros [= <-]. split; [reflexivity | intros ? ? []].
  - cbn [categories_with_data_of fold_left].
    destruct (filterM (has_category_data cat) rs) as [l|e] eqn:E; cbn [bind]; [|discriminate].
    intros H. apply IH in H as [-> Hall]. split.
    + replace (count_of rs cat) with (Z.of_nat (length l)); [reflexivity|].
      unfold count_of. now rewrite E.
    + apply filterM_returns in E as [_ Hok].
      intros c r [<- | Hc] Hr; [now apply Hok | now apply Hall].
Qed.

Lemma dict_lookup_In {V} (d : list (string * V)) k v :
  dict_lookup d k = Some v -> In (k, v) d.
Proof.
  induction d as [|[k' v'] d IH]; [discriminate|]. cbn [dict_lookup].
  destruct (String.eqb_spec k' k) as [-> | Hne].
  - intros [= <-]. now left.
  - intros H. right. now apply IH.
Qed.

(** X8 (the statistics).  Whenever the validator returns, [total_reps] is the
    number of records and is at least 1; [reps_with_appointments] and each
    of the per-bucket counts lie between 0 and [total_reps];
    [categories_with_data] has exactly the five buckets as keys, in order;
    and [avg_appointments] is a float. *)
Theorem statistics_are_bounded (rs : list RepRecord) (st : Stats) :
  validate_data rs = Ok st ->
  total_reps st = Z.of_nat (length rs)
  /\ 1 <= total_reps st
  /\ 0 <= reps_with_appointments st <= total_reps st
  /\ dict_keys (categories_with_data st) = unit_categories
  /\ (forall cat n, dict_lookup (categories_with_data st) cat = Some n ->
        0 <= n <= total_reps st)
  /\ exists f, avg_appointments st = Flt f.
Proof.
  destruct rs as [|r rs]; [discriminate|].
  rewrite validate_data_nonempty by discriminate.
  destruct (filterM _ (r :: rs)) as [l|e] eqn:E1; cbn [bind]; [|discriminate].
  destruct (sum_from _ _) as [t|e] eqn:E2; cbn [bind]; [|discriminate].
  unfold py_truediv.
  change (num_eqb (Int (Z.of_nat (length (r :: rs)))) (Int 0)) with false. cbn [bind].
  destruct (categories_with_data_of _ _ _) as [c|e] eqn:E3; cbn [bind]; [|discriminate].
  intros [= <-]. cbn [total_reps reps_with_appointments categories_with_data avg_appointments].
  apply filterM_returns in E1 as [Hlen _].
  apply categories_with_data_of_returns in E3 as [-> _].
  split; [reflexivity|]. split; [cbn [length]; lia|].
  split; [cbn [length] in *; lia|].
  split; [reflexivity|]. split; [|now eexists].
  intros cat n Hl. apply dict_lookup_In in Hl. cbn in Hl.
  pose proof (count_of_bounds (r :: rs)) as Hb.
  repeat (destruct Hl as [[= _ <-] | Hl]; [apply Hb|]). contradiction.
Qed.

(** X9 (the validator's precondition).  [validate_data] returns statistics
    exactly for the non-empty lists in which every record has a number as its
    total and, in each of the five buckets, a number as its appointment
    count; on any other list it raises. *)
Theorem validator_accepts_exactly_well_formed_sets (rs : list RepRecord) :
  (exists st, validate_data rs = Ok st) <-> rs <> [] /\ Forall Spec.well_formed rs.
Proof.
  split.
  - intros [st H]. destruct rs as [|r rs]; [discriminate|]. split; [discriminate|].
    rewrite validate_data_nonempty in H by discriminate.
    destruct (filterM _ (r :: rs)) as [l|e] eqn:E1 in H; cbn [bind] in H; [|discriminate].
    destruct (sum_from _ _) as [t|e] eqn:E2 in H; cbn [bind] in H; [|discriminate].
    unfold py_truediv in H.
    change (num_eqb (Int (Z.of_nat (length (r :: rs)))) (Int 0)) with false in H.
    cbn [bind] in H.
    destruct (categories_with_data_of _ _ _) as [c|e] eqn:E3 in H; cbn [bind] in H;
      [|discriminate].
    apply sum_from_returns in E2. apply categories_with_data_of_returns in E3 as [_ Hc].
    apply List.Forall_forall. intros x Hx. split.
    + rewrite List.Forall_forall in E2. apply E2.
      change (totalAppts <$> r :: rs) with (map totalAppts (r :: rs)). now apply in_map.
    + intros cat Hcat. destruct (Hc cat x Hcat Hx) as [b Hb].
      eapply has_category_data_returns, Hb.
  - intros [Hne Hw]. eexists. now apply validate_data_stats.
Qed.

End Statistics.

Section Driver.
Import Converter Behaviour.
Context (py : builtins) (json_dumps : list RepRecord -> string).

Lemma path_taken_returns df :
  exists records, outcome (path_taken py df) = Ok records /\ Forall Spec.well_formed records.
Proof.
  unfold path_taken, process_custom_format. cbv zeta.
  destruct (String.eqb _ _); eexists;
    (split; [apply process_standard_format_outcome|]);
    eapply converter_records_well_formed, process_standard_format_outcome.
Qed.

Lemma convert_excel_file_lines df output_format :
  exists before verdict,
    lines (convert_excel_file py json_dumps (Ok df) output_format) = (before ++ [verdict])%list
    /\ Forall (fun l => ~ is_verdict l) before
    /\ verdict =
       match returned (convert_excel_file py json_dumps (Ok df) output_format),
             outcome (path_taken py df) with
       | Raise e, _ => ErrorConverting e
       | Ok _, Ok records => ConversionSuccessful (Spec.stats records)
       | Ok _, Raise e => ErrorConverting e
       end.
Proof.
  destruct (path_taken_returns df) as (records & Hp & Hw).
  unfold convert_excel_file, path_taken in *. cbv zeta.
  set (processed := if String.eqb (detect_column_format df) "standard" then _ else _).
  assert (Hfst : fst processed = if String.eqb (detect_column_format df) "standard"
                                 then process_standard_format py df
                                 else process_custom_format py df).
  { unfold processed. now destruct (String.eqb _ _). }
  assert (Hsnd : Forall (fun l => ~ is_verdict l) (snd processed)).
  { unfold processed. destruct (String.eqb _ _); cbn [snd]; repeat constructor; auto. }
  rewrite Hfst, Hp.
  assert (Hbefore : forall ws : list diag,
            Forall (fun l => ~ is_verdict l)
              ([Loaded (length (rows df)) (length (columns df)); Columns (columns df);
                DetectedFormat (detect_column_format df)] ++ snd processed ++ map Warning ws)).
  { intros ws. apply Forall_app. split; [repeat constructor; auto|].
    apply Forall_app. split; [exact Hsnd|].
    apply List.Forall_forall. intros l Hl. apply in_map_iff in Hl as (d & <- & _). auto. }
  destruct records as [|r records].
  - cbn [validate_data lines returned]. eexists _, _. split; [reflexivity|]. split; [apply Hbefore|].
    reflexivity.
  - rewrite (validate_data_stats (r :: records)) by (auto; discriminate).
    cbn [lines returned]. eexists _, _. split; [reflexivity|]. split; [apply Hbefore|].
    reflexivity.
Qed.

(** X10 (the driver, once the file is read).  [convert_excel_file] raises
    [ValueError] when the path it takes -- the standard one for a table
    detected as standard, the custom one otherwise -- keeps no row, and
    otherwise returns that path's records, as JSON text for the output format
    ["json"] and as they are for any other; it raises nothing else.  It
    prints exactly one verdict line, the last one: "Conversion successful"
    with the statistics of the records when it returns, "Error converting"
    when it raises. *)
Theorem driver_fails_only_on_an_empty_result (df : DataFrame) (output_format : string) :
  let r := convert_excel_file py json_dumps (Ok df) output_format in
  exists records before,
    outcome (path_taken py df) = Ok records
    /\ Forall (fun l => ~ is_verdict l) before
    /\ match records with
       | [] =>
           returned r = Raise ValueError
           /\ lines r = (before ++ [ErrorConverting ValueError])%list
       | _ :: _ =>
           returned r = Ok (if String.eqb output_format "json"
                            then inl (json_dumps records) else inr records)
           /\ lines r = (before ++ [ConversionSuccessful (Spec.stats records)])%list
       end.
Proof.
  cbv zeta.
  destruct (path_taken_returns df) as (records & Hp & Hw).
  destruct (convert_excel_file_lines df output_format) as (before & verdict & Hl & Hb & Hv).
  exists records, before. split; [exact Hp|]. split; [exact Hb|].
  rewrite Hl, Hv, Hp. clear Hl Hv.
  unfold convert_excel_file, path_taken in *. cbv zeta.
  assert (Hfst : forall (a b : list line),
            fst (if String.eqb (detect_column_format df) "standard"
                 then (process_standard_format py df, a)
                 else (process_custom_format py df, b))
            = if String.eqb (detect_column_format df) "standard"
              then process_standard_format py df else process_custom_format py df).
  { intros a b. now destruct (String.eqb _ _). }
  rewrite Hfst, Hp.
  destruct records as [|r records].
  - cbn [validate_data returned]. split; reflexivity.
  - rewrite (validate_data_stats (r :: records)) by (auto; discriminate).
    cbn [returned]. split; reflexivity.
Qed.

End Driver.

(* ================================================================= *)
(** ** The dashboard: conversion and scoring *)

Section DashboardConversion.
Import Converter Dashboard Behaviour.
Context (py : builtins).

Lemma safe_get_integer (row : Series) key :
  contains "Close" key || contains "Capture" key = false ->
  is_integer (safe_get py row key (Int 0)).
Proof.
  intros H. unfold safe_get, fallback. cbv zeta. rewrite H.
  apply orb_false_iff in H as [H1 H2]. rewrite H1.
  assert (is_integer (if endswith "Appts" key then Some (Int 0) else Some (Int 0))) as H0
    by (destruct (endswith _ _); now exists 0).
  destruct (_ || _); [exact H0|].
  destruct (py_int py (row_get row key (VNum (Int 0)))) as [z|]; cbn [bind]; [now exists z|exact H0].
Qed.

Lemma safe_get_close (row : Series) key :
  contains "Close" key = true -> endswith "Appts" key = false ->
  safe_get py row key (Int 0) =
  if unreadable py (row_get row key (VNum (Int 0))) then None
  else Some (Flt (match py_float py (row_get row key (VNum (Int 0))) with
                  | Ok f => f
                  | Raise _ => 0%float
                  end)).
Proof.
  intros H1 H2. unfold safe_get, fallback, unreadable. cbv zeta. rewrite H1, H2. cbn [orb].
  destruct (isna _ || eq_str _ "-" || eq_str _ ""); [reflexivity|]. cbn [orb].
  destruct (py_float py (row_get row key (VNum (Int 0)))); reflexivity.
Qed.

Lemma safe_get_capture (row : Series) key :
  contains "Close" key = false -> contains "Capture" key = true ->
  is_number (safe_get py row key (Int 0)).
Proof.
  intros H1 H2. unfold safe_get, fallback. cbv zeta. rewrite H1, H2. cbn [orb].
  assert (is_number (if endswith "Appts" key then Some (Int 0) else Some (Int 0))) as H0
    by (destruct (endswith _ _); now eexists).
  destruct (_ || _); [exact H0|].
  destruct (py_float py (row_get row key (VNum (Int 0)))); cbn [bind]; [now eexists | exact H0].
Qed.

Lemma bucket_rate_number x : is_number x -> is_number (bucket_rate x).
Proof. intros [n ->]. cbn. destruct (num_leb n (Int 1)); now eexists. Qed.

Lemma bucket_rate_float_or_None x : is_float_or_None x -> is_float_or_None (bucket_rate x).
Proof.
  intros [-> | [f ->]]; [now left|]. right. cbn.
  destruct (num_leb (Flt f) (Int 1)); now eexists.
Qed.

Lemma overall_rate_number x : is_number x -> exists n, overall_rate x = Ok (Some n).
Proof.
  intros [n ->]. unfold overall_rate. cbn.
  destruct (num_leb n (Int 1)); cbn; now eexists.
Qed.

Lemma overall_rate_None : overall_rate None = Raise TypeError.
Proof. reflexivity. Qed.

Lemma bucket_keys_shape cat :
  In cat unit_categories ->
  contains "Close" (appts_col cat) || contains "Capture" (appts_col cat) = false
  /\ contains "Close" (close_col cat) = true /\ endswith "Appts" (close_col cat) = false
  /\ contains "Close" (capture_col cat) = false /\ contains "Capture" (capture_col cat) = true.
Proof. intros H. repeat destruct H as [<- | H]; try contradiction; repeat split; reflexivity. Qed.

(** One turn of the dashboard's row loop: it raises exactly when the cell
    under [Overall Close %] is unreadable, and then a [TypeError]. *)
Lemma dashboard_row_outcome row :
  match dashboard_row py row with
  | Ok r => unreadable py (row_get row "Overall Close %" (VNum (Int 0))) = false
            /\ dashboard_shape r
  | Raise e => unreadable py (row_get row "Overall Close %" (VNum (Int 0))) = true
               /\ e = TypeError
  end.
Proof.
  destruct (dashboard_row py row) as [r|e] eqn:E.
  - apply dashboard_row_returns in E as (_ & Ht & Hc & Hp & Hcats).
    rewrite safe_get_close in Hc by reflexivity.
    destruct (unreadable py _); [discriminate|]. split; [reflexivity|].
    split; [rewrite Ht; now apply safe_get_integer|].
    split.
    { unfold overall_rate in Hc. cbn [py_le py_cmp bind py_mul] in Hc.
      destruct (num_leb _ _) in Hc; cbn [bind] in Hc; injection Hc as <-; now eexists. }
    split.
    { destruct (overall_rate_number (safe_get py row "Units Captured on Sold Jobs %" (Int 0)))
        as [n Hn]; [now apply safe_get_capture|].
      rewrite Hn in Hp. injection Hp as <-. now exists n. }
    intros cat Hcat. exists (Spec.dashboard_bucket py row cat).
    destruct (bucket_keys_shape cat Hcat) as (K1 & K2 & K3 & K4 & K5).
    split; [rewrite Hcats; now apply dict_lookup_map|].
    cbn [Spec.dashboard_bucket appointments closeRate captureRate].
    split; [now apply safe_get_integer|].
    split.
    + apply bucket_rate_float_or_None. rewrite safe_get_close by assumption.
      destruct (unreadable py _); [now left | right; now eexists].
    + apply bucket_rate_number. now apply safe_get_capture.
  - unfold dashboard_row in E. cbv zeta in E.
    rewrite safe_get_close in E by reflexivity.
    destruct (unreadable py _).
    + rewrite overall_rate_None in E. cbn [bind] in E. now injection E as <-.
    + exfalso. unfold overall_rate at 1 in E. cbn [py_le py_cmp bind py_mul] in E.
      destruct (num_leb _ _) in E; cbn [bind] in E;
        (destruct (overall_rate_number
                     (safe_get py row "Units Captured on Sold Jobs %" (Int 0)))
           as [n Hn]; [now apply safe_get_capture|]);
        rewrite Hn in E; cbn [bind] in E; discriminate.
Qed.

(** X11 (when the dashboard's conversion returns).
    [convert_excel_to_sales_data] returns, with one record per row, exactly
    when no row has an unreadable cell under [Overall Close %] -- a row
    without that label reads as 0; as soon as one row has one, the whole
    conversion raises [TypeError]. *)
Theorem dashboard_conversion_needs_every_overall_close (df : DataFrame) :
  let readable row := negb (unreadable py (row_get row "Overall Close %" (VNum (Int 0)))) in
  (forallb readable (rows df) = true ->
   exists rs, convert_excel_to_sales_data py df = Ok rs /\ length rs = length (rows df))
  /\ (forallb readable (rows df) = false ->
      convert_excel_to_sales_data py df = Raise TypeError)
  /\ forall row, row !! "Overall Close %" = None -> readable row = true.
Proof.
  cbv zeta. unfold convert_excel_to_sales_data.
  assert (H : forall l acc,
    dashboard_loop py l acc =
    if forallb (fun row => negb (unreadable py (row_get row "Overall Close %" (VNum (Int 0))))) l
    then dashboard_loop py l acc else Raise TypeError).
  { intros l. induction l as [|row l IH]; intros acc; [reflexivity|].
    cbn [forallb dashboard_loop].
    pose proof (dashboard_row_outcome row) as Ho.
    destruct (dashboard_row py row) as [r|e] eqn:E.
    - destruct Ho as [-> _]. cbn [negb andb bind]. apply IH.
    - destruct Ho as [-> ->]. reflexivity. }
  split; [|split].
  - intros Hall. clear H.
    assert (forall l acc,
      forallb (fun row => negb (unreadable py (row_get row "Overall Close %" (VNum (Int 0))))) l
      = true ->
      exists rs, dashboard_loop py l acc = Ok (acc ++ rs)%list /\ length rs = length l) as H.
    { intros l. induction l as [|row l IH]; intros acc Hr.
      - exists []. now rewrite app_nil_r.
      - cbn [forallb] in Hr. apply andb_prop in Hr as [Hr1 Hr2].
        cbn [dashboard_loop]. pose proof (dashboard_row_outcome row) as Ho.
        destruct (dashboard_row py row) as [r|e].
        + cbn [bind]. destruct (IH (acc ++ [r])%list Hr2) as (rs & Hrs & Hlen).
          exists (r :: rs). rewrite Hrs, <- app_assoc. cbn [length]. split; [reflexivity|lia].
        + destruct Ho as [Ho _]. rewrite Ho in Hr1. discriminate. }
    destruct (H (rows df) [] Hall) as (rs & -> & Hlen). now exists rs.
  - intros Hbad. rewrite H, Hbad. reflexivity.
  - intros row Hrow. unfold row_get. rewrite Hrow. cbn [default unreadable].
    reflexivity.
Qed.

Lemma convert_excel_to_sales_data_returns (df : DataFrame) (rs : list RepRecord) :
  convert_excel_to_sales_data py df = Ok rs ->
  length rs = length (rows df) /\ Forall dashboard_shape rs.
Proof.
  unfold convert_excel_to_sales_data. intros H.
  apply dashboard_loop_returns in H as (rs' & -> & HF). cbn [app].
  split; [symmetry; eapply Forall2_length, HF|].
  induction HF as [|row r l rs' Hr _ IH]; constructor; [|exact IH].
  pose proof (dashboard_row_outcome row) as Ho. rewrite Hr in Ho. apply Ho.
Qed.

(** X12 (what the dashboard's conversion returns).  In every record it returns,
    the total and the five bucket appointment counts are integers, the overall
    close rate is a float, and the overall and bucket capture rates are
    numbers; only a bucket's close rate can be [None]. *)
Theorem dashboard_records_have_a_shape (df : DataFrame) (rs : list RepRecord) :
  convert_excel_to_sales_data py df = Ok rs -> Forall dashboard_shape rs.
Proof.
  unfold convert_excel_to_sales_data. intros H.
  apply dashboard_loop_returns in H as (rs' & -> & HF). cbn [app].
  apply List.Forall_forall. intros r Hr.
  assert (exists row, dashboard_row py row = Ok r) as [row Hrow].
  { clear -HF Hr. induction HF as [|row r' l rs' Hrow _ IH]; [destruct Hr|].
    destruct Hr as [-> | Hr]; [now exists row | now apply IH]. }
  pose proof (dashboard_row_outcome row) as Ho. rewrite Hrow in Ho. apply Ho.
Qed.

End DashboardConversion.

Section ScoringOutcome.
Import Converter Dashboard Behaviour.

Lemma valid_category_returns cat_data v :
  valid_category cat_data = Ok v -> exists a, appointments cat_data = Some a.
Proof.
  unfold valid_category, py_ge, py_cmp.
  destruct (appointments cat_data) as [a|]; cbn [bind]; [now exists a | discriminate].
Qed.

Lemma valid_categories_of_returns rep cats acc valid :
  valid_categories_of rep cats acc = Ok valid ->
  (forall cat, In cat cats ->
     exists cat_data a, dict_lookup (categories rep) cat = Some cat_data
                        /\ appointments cat_data = Some a)
  /\ (length acc <= length valid <= length acc + length cats)%nat.
Proof.
  revert acc. induction cats as [|cat cats IH]; intros acc.
  - cbn. intros [= <-]. split; [intros ? []|lia].
  - cbn [valid_categories_of]. unfold dict_get.
    destruct (dict_lookup (categories rep) cat) as [cat_data|] eqn:El; cbn [bind]; [|discriminate].
    destruct (valid_category cat_data) as [v|e] eqn:Ev; cbn [bind]; [|discriminate].
    intros H. apply IH in H as [Hall Hlen]. split.
    + intros c [<- | Hc]; [|now apply Hall].
      apply valid_category_returns in Ev as [a Ha]. now exists cat_data, a.
    + destruct v; [rewrite length_app in Hlen|]; cbn [length] in *; lia.
Qed.

Lemma num_add_Flt_r a f : exists g, num_add a (Flt f) = Flt g.
Proof. destruct a; now eexists. Qed.

Lemma num_mul_Flt_r a f : exists g, num_mul a (Flt f) = Flt g.
Proof. destruct a; now eexists. Qed.

Lemma calculate_performance_score_returns_if rep :
  counted_buckets rep -> overallClose rep <> None ->
  exists scored, calculate_performance_score rep = Ok scored.
Proof.
  intros Hb Ho. unfold calculate_performance_score.
  rewrite (valid_categories_of_spec rep unit_categories [] Hb). cbn [bind app].
  destruct (fold_left accumulate _ (Int 0, Int 0, Int 0)) as [[c p] w].
  rewrite !weighted_average_returns. cbn [bind].
  destruct (overallClose rep) as [o|]; [|congruence]. cbn [py_mul bind]. now eexists.
Qed.

Lemma calculate_performance_score_returns rep scored :
  calculate_performance_score rep = Ok scored ->
  (exists f, score scored = Flt f)
  /\ 0 <= validCategories scored <= 5
  /\ scored_name scored = name rep
  /\ scored_totalAppts scored = totalAppts rep
  /\ rawData scored = rep.
Proof.
  unfold calculate_performance_score.
  destruct (valid_categories_of rep unit_categories []) as [valid|e] eqn:E;
    cbn [bind]; [|discriminate].
  apply valid_categories_of_returns in E as [_ Hlen].
  change (length unit_categories) with 5%nat in Hlen. cbn [length] in Hlen.
  destruct (fold_left accumulate valid (Int 0, Int 0, Int 0)) as [[c p] w].
  rewrite !weighted_average_returns. cbn [bind].
  destruct (overallClose rep) as [o|]; cbn [py_mul bind]; [|discriminate].
  intros [= <-]. cbn [score validCategories scored_name scored_totalAppts rawData].
  split; [|split; [lia | repeat split; reflexivity]].
  destruct (num_mul_Flt_r (py_min (if num_gtb w (Int 0) then Flt (num_quot p w) else Int 0)
                                  (Int 150)) 0.35) as [g ->].
  apply num_add_Flt_r.
Qed.

(** X13 (when a rep can be scored).  [calculate_performance_score] returns
    exactly for the records that have all five buckets, a number as the
    appointment count of each, and an overall close rate that is not [None];
    on any other record it raises.  In what it returns, the score is a float,
    the number of valid categories lies between 0 and 5, and the name, the
    total and the raw data are those of the record. *)
Theorem scoring_precondition (rep : RepRecord) :
  ((exists scored, calculate_performance_score rep = Ok scored)
   <-> counted_buckets rep /\ overallClose rep <> None)
  /\ forall scored,
       calculate_performance_score rep = Ok scored ->
       (exists f, score scored = Flt f)
       /\ 0 <= validCategories scored <= 5
       /\ scored_name scored = name rep
       /\ scored_totalAppts scored = totalAppts rep
       /\ rawData scored = rep.
Proof.
  split; [split|].
  - intros [scored H]. unfold calculate_performance_score in H.
    destruct (valid_categories_of rep unit_categories []) as [valid|e] eqn:E;
      cbn [bind] in H; [|discriminate].
    apply valid_categories_of_returns in E as [Hb _]. split; [exact Hb|].
    destruct (fold_left accumulate valid (Int 0, Int 0, Int 0)) as [[c p] w].
    rewrite !weighted_average_returns in H. cbn [bind] in H.
    destruct (overallClose rep); [discriminate | discriminate H].
  - intros [Hb Ho]. now apply calculate_performance_score_returns_if.
  - intros scored. apply calculate_performance_score_returns.
Qed.

Lemma dashboard_shape_scored r :
  dashboard_shape r -> exists scored, calculate_performance_score r = Ok scored.
Proof.
  intros (_ & [f Hf] & _ & Hb). apply calculate_performance_score_returns_if.
  - intros cat Hcat. destruct (Hb cat Hcat) as (cat_data & Hl & [z Hz] & _).
    now exists cat_data, (Int z).
  - rewrite Hf. discriminate.
Qed.

Lemma scored_reps_returns (sales_data : list RepRecord) :
  Forall (fun r => exists scored, calculate_performance_score r = Ok scored) sales_data ->
  exists scored, scored_reps sales_data = Ok scored
                 /\ Forall2 (fun r s => calculate_performance_score r = Ok s) sales_data scored.
Proof.
  induction 1 as [|r l [s Hs] _ (ss & IH & HF)].
  - exists []. split; [reflexivity | constructor].
  - exists (s :: ss). cbn [scored_reps]. rewrite Hs, IH. split; [reflexivity | now constructor].
Qed.

End ScoringOutcome.

(* ================================================================= *)
(** ** The order of floats, and sorting *)

Section FloatOrder.
Import Behaviour.

Lemma valid_finite_code s m e :
  valid_binary (S754_finite s m e) = true ->
  -1074 <= e <= 971 /\ 0 < Zpos m < 2 ^ 53.
Proof.
  intros H. apply valid_finite in H as (Hd & He & _).
  pose proof (digits2_pos_bounds m) as Hm.
  assert (2 ^ Zpos (digits2_pos m) <= 2 ^ 53) by (apply Z.pow_le_mono_r; lia).
  lia.
Qed.

Lemma SFcompare_code x y :
  valid_binary x = true -> valid_binary y = true ->
  x <> S754_nan -> y <> S754_nan ->
  SFcompare x y = Some (code x ?= code y).
Proof.
  intros Vx Vy Nx Ny.
  destruct x as [sx | sx | | sx mx ex], y as [sy | sy | | sy my ey];
    try congruence; cbn [SFcompare code];
    try (apply valid_finite_code in Vx as [Hex Hmx]);
    try (apply valid_finite_code in Vy as [Hey Hmy]);
    change (2 ^ 53) with 9007199254740992 in *;
    change (Pos.compare_cont Eq) with Pos.compare;
    f_equal; symmetry;
    try (destruct sx); try (destruct sy); cbn [cond_Zopp];
    try reflexivity;
    try (apply Z.compare_lt_iff; lia);
    try (apply Z.compare_gt_iff; lia).
  - destruct (Z.compare_spec ey ex) as [E | E | E].
    + subst ey. rewrite Z.compare_refl. rewrite <- Pos.compare_antisym.
      change (my ?= mx)%positive with (Zpos my ?= Zpos mx).
      destruct (Z.compare_spec (Zpos my) (Zpos mx)) as [E' | E' | E'].
      * apply Z.compare_eq_iff. lia.
      * apply Z.compare_lt_iff. lia.
      * apply Z.compare_gt_iff. lia.
    + rewrite (proj2 (Z.compare_gt_iff ex ey)) by lia. apply Z.compare_lt_iff. lia.
    + rewrite (proj2 (Z.compare_lt_iff ex ey)) by lia. apply Z.compare_gt_iff. lia.
  - destruct (Z.compare_spec ex ey) as [E | E | E].
    + subst ey.
      change (mx ?= my)%positive with (Zpos mx ?= Zpos my).
      destruct (Z.compare_spec (Zpos mx) (Zpos my)) as [E' | E' | E'].
      * apply Z.compare_eq_iff. lia.
      * apply Z.compare_lt_iff. lia.
      * apply Z.compare_gt_iff. lia.
    + apply Z.compare_lt_iff. lia.
    + apply Z.compare_gt_iff. lia.
Qed.

Lemma is_nan_Prim2SF f : is_nan f = false -> Prim2SF f <> S754_nan.
Proof.
  unfold is_nan. rewrite FloatAxioms.eqb_spec. intros H E. rewrite E in H. discriminate.
Qed.

(** Two floats, neither a NaN, compare as their codes do. *)
Lemma num_compare_code f g :
  is_nan f = false -> is_nan g = false ->
  num_compare (Flt f) (Flt g) = Some (float_code f ?= float_code g).
Proof.
  intros Hf Hg. cbn [num_compare]. rewrite float_compare_spec.
  apply SFcompare_code; auto using Prim2SF_valid, is_nan_Prim2SF.
Qed.

End FloatOrder.

Section SortFacts.
Import Behaviour.
Context {A : Type} (key : A -> num).

Lemma ordered_compare a b :
  ordered key a -> ordered key b -> num_compare (key a) (key b) = Some (key_code key a ?= key_code key b).
Proof.
  intros (f & Ef & Hf) (g & Eg & Hg). unfold key_code. rewrite Ef, Eg.
  now apply num_compare_code.
Qed.

Lemma ordered_ltb a b :
  ordered key a -> ordered key b -> num_ltb (key a) (key b) = (key_code key a <? key_code key b).
Proof.
  intros Ha Hb. unfold num_ltb, Z.ltb. rewrite (ordered_compare a b Ha Hb).
  now destruct (key_code key a ?= key_code key b).
Qed.

Lemma ordered_geb a b :
  ordered key a -> ordered key b -> num_geb (key a) (key b) = (key_code key b <=? key_code key a).
Proof.
  intros Ha Hb. unfold num_geb, Z.leb. rewrite (ordered_compare a b Ha Hb).
  rewrite (Z.compare_antisym (key_code key a) (key_code key b)).
  now destruct (key_code key a ?= key_code key b).
Qed.

Lemma ordered_gtb a b :
  ordered key a -> ordered key b -> num_gtb (key a) (key b) = (key_code key b <? key_code key a).
Proof.
  intros Ha Hb. unfold num_gtb, Z.ltb. rewrite (ordered_compare a b Ha Hb).
  rewrite (Z.compare_antisym (key_code key a) (key_code key b)).
  now destruct (key_code key a ?= key_code key b).
Qed.

Lemma ordered_eqb a b :
  ordered key a -> ordered key b -> num_eqb (key a) (key b) = (key_code key a =? key_code key b).
Proof.
  intros Ha Hb. unfold num_eqb. rewrite (ordered_compare a b Ha Hb), Z.eqb_compare.
  now destruct (key_code key a ?= key_code key b).
Qed.

Lemma insert_sorted_perm x ys : Permutation (x :: ys) (insert_sorted key x ys).
Proof.
  induction ys as [|y ys IH]; [reflexivity|]. cbn [insert_sorted].
  destruct (num_ltb (key y) (key x)); [|reflexivity].
  rewrite perm_swap. apply perm_skip, IH.
Qed.

Lemma sort_stable_perm l : Permutation l (sort_stable key l).
Proof.
  induction l as [|x l IH]; [reflexivity|]. cbn [sort_stable].
  rewrite <- insert_sorted_perm. apply perm_skip, IH.
Qed.

Lemma sorted_reverse_perm l : Permutation l (sorted_reverse key l).
Proof.
  unfold sorted_reverse.
  rewrite <- Permutation_rev, <- sort_stable_perm. apply Permutation_rev.
Qed.

Lemma insert_sorted_ascending x ys :
  ordered key x -> Forall (ordered key) ys ->
  StronglySorted (fun a b => key_code key a <= key_code key b) ys ->
  StronglySorted (fun a b => key_code key a <= key_code key b) (insert_sorted key x ys).
Proof.
  intros Hx Hys Hs. induction Hs as [|y ys Hs IH Hy].
  - repeat constructor.
  - apply Forall_cons_1 in Hys as [Hoy Hoys]. cbn [insert_sorted].
    rewrite (ordered_ltb y x Hoy Hx). destruct (Z.ltb_spec (key_code key y) (key_code key x)).
    + constructor; [now apply IH|].
      rewrite <- insert_sorted_perm. constructor; [lia | exact Hy].
    + constructor; [now constructor|]. constructor; [exact H|].
      eapply List.Forall_impl; [|exact Hy]. cbn. intros b Hb. lia.
Qed.

Lemma sort_stable_ascending l :
  Forall (ordered key) l ->
  StronglySorted (fun a b => key_code key a <= key_code key b) (sort_stable key l).
Proof.
  induction 1 as [|x l Hx Hl IH]; [constructor|]. cbn [sort_stable].
  apply insert_sorted_ascending; [exact Hx | now rewrite <- sort_stable_perm | exact IH].
Qed.

Lemma StronglySorted_snoc (R : A -> A -> Prop) l x :
  StronglySorted R l -> Forall (fun a => R a x) l -> StronglySorted R (l ++ [x]).
Proof.
  induction 1 as [|y l Hs IH Hy]; intros Hx; cbn [app].
  - repeat constructor.
  - apply Forall_cons_1 in Hx as [Hyx Hx]. constructor; [now apply IH|].
    apply Forall_app. split; [exact Hy | now constructor].
Qed.

Lemma StronglySorted_rev (R : A -> A -> Prop) l :
  StronglySorted R l -> StronglySorted (fun a b => R b a) (rev l).
Proof.
  induction 1 as [|x l Hs IH Hx]; [constructor|]. cbn [rev].
  apply StronglySorted_snoc; [exact IH|]. now rewrite <- Permutation_rev.
Qed.

(** Sorting in reverse puts the keys in descending order. *)
Lemma sorted_reverse_descending l :
  Forall (ordered key) l ->
  StronglySorted (fun a b => num_geb (key a) (key b) = true) (sorted_reverse key l).
Proof.
  intros Hl. unfold sorted_reverse.
  assert (Ho : Forall (ordered key) (sort_stable key (rev l))).
  { now rewrite <- sort_stable_perm, <- Permutation_rev. }
  assert (Hs : StronglySorted (fun a b => key_code key b <= key_code key a)
                 (rev (sort_stable key (rev l)))).
  { apply (StronglySorted_rev (fun a b => key_code key a <= key_code key b)).
    apply sort_stable_ascending. now rewrite <- Permutation_rev. }
  rewrite (Permutation_rev (sort_stable key (rev l))) in Ho.
  induction Hs as [|x r Hs IH Hx]; [constructor|].
  apply Forall_cons_1 in Ho as [Hox Hor]. constructor; [now apply IH|].
  apply List.Forall_forall. intros b Hb.
  rewrite List.Forall_forall in Hx, Hor.
  rewrite (ordered_geb x b Hox (Hor b Hb)). apply Z.leb_le. now apply Hx.
Qed.

Lemma insert_sorted_filter (p : A -> bool) x ys :
  ordered key x -> Forall (ordered key) ys ->
  (forall a b, p a = true -> p b = true -> key_code key a = key_code key b) ->
  List.filter p (insert_sorted key x ys) = List.filter p (x :: ys).
Proof.
  intros Hx Hys Hp. induction ys as [|y ys IH]; [reflexivity|].
  apply Forall_cons_1 in Hys as [Hoy Hoys]. cbn [insert_sorted].
  rewrite (ordered_ltb y x Hoy Hx). destruct (Z.ltb_spec (key_code key y) (key_code key x)); [|reflexivity].
  cbn [List.filter] in *. rewrite (IH Hoys).
  destruct (p y) eqn:Ey, (p x) eqn:Ex; try reflexivity.
  specialize (Hp _ _ Ey Ex). lia.
Qed.

Lemma sort_stable_filter (p : A -> bool) l :
  Forall (ordered key) l ->
  (forall a b, p a = true -> p b = true -> key_code key a = key_code key b) ->
  List.filter p (sort_stable key l) = List.filter p l.
Proof.
  intros Hl Hp. induction Hl as [|x l Hx Hl IH]; [reflexivity|]. cbn [sort_stable].
  rewrite insert_sorted_filter; [|exact Hx | now rewrite <- sort_stable_perm | exact Hp].
  cbn [List.filter]. now rewrite IH.
Qed.

(** Sorting in reverse keeps items with equal keys in their order. *)
Lemma sorted_reverse_stable l x :
  Forall (ordered key) l -> ordered key x ->
  List.filter (fun a => num_eqb (key a) (key x)) (sorted_reverse key l)
  = List.filter (fun a => num_eqb (key a) (key x)) l.
Proof.
  intros Hl Hx.
  assert (Hfilter : forall l', Forall (ordered key) l' ->
            List.filter (fun a => num_eqb (key a) (key x)) l'
            = List.filter (fun a => key_code key a =? key_code key x) l').
  { intros l' Hl'. apply List.filter_ext_in. intros a Ha.
    rewrite List.Forall_forall in Hl'. now apply ordered_eqb; [apply Hl'|]. }
  rewrite !Hfilter; [|exact Hl | now rewrite <- sorted_reverse_perm].
  unfold sorted_reverse. rewrite List.filter_rev, sort_stable_filter.
  - now rewrite List.filter_rev, rev_involutive.
  - now rewrite <- Permutation_rev.
  - intros a b Ha Hb. apply Z.eqb_eq in Ha, Hb. congruence.
Qed.

End SortFacts.

Section SortMore.
Import Behaviour.
Context {A : Type} (key : A -> num).

Lemma insert_sorted_filter_commute (q : A -> bool) x ys :
  ordered key x -> Forall (ordered key) ys ->
  StronglySorted (fun a b => key_code key a <= key_code key b) ys ->
  List.filter q (insert_sorted key x ys)
  = if q x then insert_sorted key x (List.filter q ys) else List.filter q ys.
Proof.
  intros Hx Hys Hs. induction Hs as [|y ys Hs IH Hy]; [cbn; now destruct (q x)|].
  apply Forall_cons_1 in Hys as [Hoy Hoys]. cbn [insert_sorted].
  rewrite (ordered_ltb key y x Hoy Hx).
  destruct (Z.ltb_spec (key_code key y) (key_code key x)) as [Hlt | Hge].
  - cbn [List.filter]. rewrite (IH Hoys).
    destruct (q y) eqn:Ey, (q x) eqn:Ex; try reflexivity.
    cbn [insert_sorted]. rewrite (ordered_ltb key y x Hoy Hx).
    now rewrite (proj2 (Z.ltb_lt _ _) Hlt).
  - cbn [List.filter]. destruct (q x) eqn:Ex; [|reflexivity].
    destruct (q y) eqn:Ey.
    + cbn [insert_sorted]. rewrite (ordered_ltb key y x Hoy Hx).
      now rewrite (proj2 (Z.ltb_ge _ _) Hge).
    + destruct (List.filter q ys) as [|z zs] eqn:Ez; [reflexivity|].
      cbn [insert_sorted].
      assert (Hz : In z ys).
      { apply (proj1 (List.filter_In q z ys)). rewrite Ez. now left. }
      rewrite List.Forall_forall in Hy, Hoys.
      rewrite (ordered_ltb key z x (Hoys z Hz) Hx).
      specialize (Hy z Hz). cbn in Hy.
      now rewrite (proj2 (Z.ltb_ge _ _)) by lia.
Qed.

Lemma sort_stable_filter_commute (q : A -> bool) l :
  Forall (ordered key) l ->
  List.filter q (sort_stable key l) = sort_stable key (List.filter q l).
Proof.
  intros Hl. induction Hl as [|x l Hx Hl IH]; [reflexivity|]. cbn [sort_stable List.filter].
  rewrite insert_sorted_filter_commute;
    [|exact Hx | now rewrite <- sort_stable_perm | now apply sort_stable_ascending].
  rewrite IH. now destruct (q x).
Qed.

(** Filtering a ranking is ranking the filtered items. *)
Lemma sorted_reverse_filter_commute (q : A -> bool) l :
  Forall (ordered key) l ->
  List.filter q (sorted_reverse key l) = sorted_reverse key (List.filter q l).
Proof.
  intros Hl. unfold sorted_reverse.
  rewrite List.filter_rev, sort_stable_filter_commute by now rewrite <- Permutation_rev.
  now rewrite List.filter_rev.
Qed.

(** The fold of [max]: its result is the first of the best. *)
Lemma first_max_invariant others :
  forall (best : A) (before after : list A),
    Forall (ordered key) (before ++ best :: after ++ others) ->
    Forall (fun x => key_code key x < key_code key best) before ->
    Forall (fun x => key_code key x <= key_code key best) after ->
    exists before' after',
      (before ++ best :: after ++ others)%list
      = (before' ++ first_max key best others :: after')%list
      /\ Forall (fun x => key_code key x < key_code key (first_max key best others)) before'
      /\ Forall (fun x => key_code key x <= key_code key (first_max key best others)) after'.
Proof.
  induction others as [|item others IH]; intros best before after Ho Hb Ha.
  - exists before, after. rewrite app_nil_r in *. auto.
  - unfold first_max. cbn [fold_left]. fold (first_max key
      (if num_gtb (key item) (key best) then item else best) others).
    assert (Hbest : ordered key best).
    { rewrite List.Forall_forall in Ho. apply Ho, in_or_app. right. now left. }
    assert (Hitem : ordered key item).
    { rewrite List.Forall_forall in Ho. apply Ho, in_or_app. right. right.
      apply in_or_app. right. now left. }
    rewrite (ordered_gtb key item best Hitem Hbest).
    destruct (Z.ltb_spec (key_code key best) (key_code key item)) as [Hlt | Hge].
    + destruct (IH item (before ++ best :: after)%list []) as (before' & after' & E & H1 & H2).
      * replace ((before ++ best :: after) ++ item :: [] ++ others)%list
          with (before ++ best :: after ++ item :: others)%list; [exact Ho|].
        now rewrite <- app_assoc.
      * apply Forall_app. split.
        -- eapply List.Forall_impl; [|exact Hb]. cbn. intros x Hx. lia.
        -- constructor; [exact Hlt|].
           eapply List.Forall_impl; [|exact Ha]. cbn. intros x Hx. lia.
      * constructor.
      * exists before', after'. split; [|auto]. rewrite <- E. now rewrite <- app_assoc.
    + destruct (IH best before (after ++ [item])%list) as (before' & after' & E & H1 & H2).
      * now rewrite <- app_assoc.
      * exact Hb.
      * apply Forall_app. split; [exact Ha | repeat constructor; lia].
      * exists before', after'. split; [|auto]. rewrite <- E. now rewrite <- app_assoc.
Qed.

Lemma first_max_first_of_the_best first others :
  Forall (ordered key) (first :: others) ->
  exists before after,
    (first :: others) = (before ++ first_max key first others :: after)%list
    /\ Forall (fun x => key_code key x < key_code key (first_max key first others)) before
    /\ Forall (fun x => key_code key x <= key_code key (first_max key first others)) after.
Proof.
  intros Ho.
  destruct (first_max_invariant others first [] []) as (before & after & E & H);
    [exact Ho | constructor | constructor |].
  exists before, after. split; [exact E | exact H].
Qed.

(** There is one first of the best. *)
Lemma first_of_the_best_unique (l b1 a1 b2 a2 : list A) m1 m2 :
  l = (b1 ++ m1 :: a1)%list -> l = (b2 ++ m2 :: a2)%list ->
  Forall (fun x => key_code key x < key_code key m1) b1 ->
  Forall (fun x => key_code key x <= key_code key m1) a1 ->
  Forall (fun x => key_code key x < key_code key m2) b2 ->
  Forall (fun x => key_code key x <= key_code key m2) a2 ->
  m1 = m2.
Proof.
  intros E1 E2 Hb1 Ha1 Hb2 Ha2.
  assert (H1 : l !! length b1 = Some m1) by (rewrite E1; apply list_lookup_middle; reflexivity).
  assert (H2 : l !! length b2 = Some m2) by (rewrite E2; apply list_lookup_middle; reflexivity).
  destruct (Nat.lt_trichotomy (length b1) (length b2)) as [Hlt | [Heq | Hgt]].
  - exfalso.
    assert (In m1 b2).
    { rewrite E2 in H1. rewrite lookup_app_l in H1 by exact Hlt.
      eapply list_elem_of_In, list_elem_of_lookup_2, H1. }
    assert (In m2 a1).
    { rewrite E1 in H2. rewrite lookup_app_r in H2 by lia.
      destruct (length b2 - length b1)%nat as [|n] eqn:En; [lia|]. cbn in H2.
      eapply list_elem_of_In, list_elem_of_lookup_2, H2. }
    rewrite List.Forall_forall in Hb2, Ha1.
    specialize (Hb2 m1 ltac:(assumption)). specialize (Ha1 m2 ltac:(assumption)).
    cbn in *. lia.
  - rewrite Heq in H1. congruence.
  - exfalso.
    assert (In m2 b1).
    { rewrite E1 in H2. rewrite lookup_app_l in H2 by exact Hgt.
      eapply list_elem_of_In, list_elem_of_lookup_2, H2. }
    assert (In m1 a2).
    { rewrite E2 in H1. rewrite lookup_app_r in H1 by lia.
      destruct (length b1 - length b2)%nat as [|n] eqn:En; [lia|]. cbn in H1.
      eapply list_elem_of_In, list_elem_of_lookup_2, H1. }
    rewrite List.Forall_forall in Hb1, Ha2.
    specialize (Hb1 m2 ltac:(assumption)). specialize (Ha2 m1 ltac:(assumption)).
    cbn in *. lia.
Qed.

Lemma filter_head_split (p : A -> bool) (l : list A) x rest :
  List.filter p l = x :: rest ->
  exists before after, l = (before ++ x :: after)%list /\ Forall (fun y => p y = false) before.
Proof.
  induction l as [|y l IH]; [discriminate|]. cbn [List.filter].
  destruct (p y) eqn:Ey.
  - intros [= -> <-]. exists [], l. split; [reflexivity | constructor].
  - intros H. destruct (IH H) as (before & after & -> & Hb).
    exists (y :: before), after. split; [reflexivity | now constructor].
Qed.

(** The head of a ranking is the first of the best of the items ranked. *)
Lemma sorted_reverse_head first others :
  Forall (ordered key) (first :: others) ->
  hd_error (sorted_reverse key (first :: others)) = Some (first_max key first others).
Proof.
  intros Ho. set (l := first :: others) in *.
  pose proof (sorted_reverse_perm key l) as Hperm.
  pose proof (sorted_reverse_descending key l Ho) as Hs.
  destruct (sorted_reverse key l) as [|t ranked] eqn:Et.
  { apply Permutation_length in Hperm. discriminate. }
  cbn [hd_error]. f_equal.
  assert (Hot : Forall (ordered key) (t :: ranked)) by now rewrite <- Hperm.
  assert (Ht : ordered key t) by now apply Forall_cons_1 in Hot as [? _].
  (* every item is at most [t] *)
  assert (Hmax : forall x, In x l -> key_code key x <= key_code key t).
  { intros x Hx. apply (Permutation_in _ Hperm) in Hx.
    apply StronglySorted_inv in Hs as [_ Hs]. destruct Hx as [<- | Hx]; [lia|].
    rewrite List.Forall_forall in Hs, Hot. specialize (Hs x Hx).
    rewrite (ordered_geb key t x Ht) in Hs by (apply Hot; now right).
    now apply Z.leb_le. }
  (* [t] is the first item of [l] with its code *)
  pose proof (sorted_reverse_stable key l t Ho Ht) as Hst. rewrite Et in Hst.
  cbn [List.filter] in Hst. rewrite (ordered_eqb key t t Ht Ht), Z.eqb_refl in Hst.
  symmetry in Hst. apply filter_head_split in Hst as (before & after & El & Hb).
  destruct (first_max_first_of_the_best first others Ho) as (b2 & a2 & E2 & Hb2 & Ha2).
  fold l in E2.
  assert (Hol : forall x, In x l -> ordered key x) by now apply List.Forall_forall.
  apply (first_of_the_best_unique l before after b2 a2 t (first_max key first others) El E2);
    [| |exact Hb2 | exact Ha2].
  - apply List.Forall_forall. intros x Hx.
    assert (Hin : In x l) by (rewrite El; apply in_or_app; now left).
    rewrite List.Forall_forall in Hb. specialize (Hb x Hx). cbn in Hb.
    rewrite (ordered_eqb key x t (Hol x Hin) Ht) in Hb. apply Z.eqb_neq in Hb.
    specialize (Hmax x Hin). lia.
  - apply List.Forall_forall. intros x Hx. apply Hmax. rewrite El.
    apply in_or_app. right. now right.
Qed.

End SortMore.

(* ================================================================= *)
(** ** The dashboard: the page *)

Section Ranking.
Import Converter Dashboard Behaviour.

Lemma scored_reps_outcome (sales_data : list RepRecord) :
  match scored_reps sales_data with
  | Ok scored => Forall2 (fun r s => calculate_performance_score r = Ok s) sales_data scored
  | Raise e => exists rep, In rep sales_data /\ calculate_performance_score rep = Raise e
  end.
Proof.
  induction sales_data as [|r l IH]; [constructor|]. cbn [scored_reps].
  destruct (calculate_performance_score r) as [s|e] eqn:E; cbn [bind].
  - destruct (scored_reps l) as [ss|e]; cbn [bind].
    + now constructor.
    + destruct IH as (rep & Hin & Hrep). exists rep. split; [now right | exact Hrep].
  - exists r. split; [now left | exact E].
Qed.

Lemma scored_ordered (sales_data : list RepRecord) (scored : list ScoredRep) :
  Forall2 (fun r s => calculate_performance_score r = Ok s) sales_data scored ->
  Forall (fun s => is_NaN (score s) = false) scored ->
  Forall (ordered score) scored.
Proof.
  intros HF. induction HF as [|r s l ss Hs _ IH]; intros Hn; [constructor|].
  apply Forall_cons_1 in Hn as [Hn1 Hn2]. constructor; [|now apply IH].
  apply calculate_performance_score_returns in Hs as [[f Hf] _].
  exists f. split; [exact Hf|]. now rewrite Hf in Hn1.
Qed.

Lemma StronglySorted_lookup {A} (R : A -> A -> Prop) (l : list A) i j a b :
  StronglySorted R l -> (i < j)%nat -> l !! i = Some a -> l !! j = Some b -> R a b.
Proof.
  intros Hs. revert i j. induction Hs as [|x l Hs IH Hx]; intros i j Hij Ha Hb; [discriminate|].
  destruct j as [|j]; [lia|]. cbn in Hb. destruct i as [|i].
  - cbn in Ha. injection Ha as <-. rewrite List.Forall_forall in Hx. apply Hx.
    eapply list_elem_of_In, list_elem_of_lookup_2, Hb.
  - cbn in Ha. apply (IH i j); [lia | exact Ha | exact Hb].
Qed.

(** X14 (the ranking holds every rep once).  When [ranked_reps] is computed it
    is a rearrangement of the scored records of the reps, one per rep; it
    fails exactly when scoring one of the reps fails, with that rep's error. *)
Theorem ranking_is_a_rearrangement (sales_data : list RepRecord) :
  match ranked_reps sales_data with
  | Ok ranked =>
      exists scored,
        Forall2 (fun r s => calculate_performance_score r = Ok s) sales_data scored
        /\ Permutation scored ranked
        /\ length ranked = length sales_data
  | Raise e =>
      exists rep, In rep sales_data /\ calculate_performance_score rep = Raise e
  end.
Proof.
  unfold ranked_reps. pose proof (scored_reps_outcome sales_data) as H.
  destruct (scored_reps sales_data) as [scored|e]; cbn [bind]; [|exact H].
  exists scored. split; [exact H|]. split; [apply sorted_reverse_perm|].
  rewrite <- (Permutation_length (sorted_reverse_perm score scored)).
  symmetry. eapply Forall2_length, H.
Qed.

(** X15 (the ranking is in descending order of score).  When no score is a NaN,
    a rep placed higher in [ranked_reps] never has a smaller score than one
    placed lower; so the top performer's score is the highest of all. *)
Theorem ranking_is_descending (sales_data : list RepRecord) (ranked : list ScoredRep) :
  ranked_reps sales_data = Ok ranked ->
  Forall (fun s => is_NaN (score s) = false) ranked ->
  (forall i j a b, (i < j)%nat -> ranked !! i = Some a -> ranked !! j = Some b ->
     num_geb (score a) (score b) = true)
  /\ (forall s, In s ranked -> num_geb (snd (top_performer ranked)) (score s) = true).
Proof.
  unfold ranked_reps. pose proof (scored_reps_outcome sales_data) as H.
  destruct (scored_reps sales_data) as [scored|e]; cbn [bind]; [|discriminate].
  intros [= <-] Hn.
  assert (Ho : Forall (ordered score) scored).
  { apply (scored_ordered sales_data); [exact H|]. now rewrite (sorted_reverse_perm score scored). }
  pose proof (sorted_reverse_descending score scored Ho) as Hs.
  rewrite (sorted_reverse_perm score scored) in Ho.
  generalize dependent (sorted_reverse score scored). clear. intros ranked _ Ho Hs.
  split.
  - intros i j a b Hij Ha Hb.
    apply (StronglySorted_lookup _ _ i j a b Hs Hij Ha Hb).
  - intros s Hin. destruct Hs as [|top rest Hs Htop]; [destruct Hin|].
    cbn [top_performer snd]. destruct Hin as [<- | Hin].
    + apply Forall_cons_1 in Ho as [Ho _].
      rewrite (ordered_geb score top top Ho Ho). apply Z.leb_refl.
    + rewrite List.Forall_forall in Htop. now apply Htop.
Qed.

(** X16 (ties keep the data order).  When no score is a NaN, the reps that share
    a score appear in [ranked_reps] in the order they have in the data. *)
Theorem ranking_ties_keep_the_data_order (sales_data : list RepRecord)
    (scored ranked : list ScoredRep) :
  scored_reps sales_data = Ok scored ->
  ranked_reps sales_data = Ok ranked ->
  Forall (fun s => is_NaN (score s) = false) scored ->
  forall s0, In s0 scored ->
    List.filter (fun s => num_eqb (score s) (score s0)) ranked
    = List.filter (fun s => num_eqb (score s) (score s0)) scored.
Proof.
  unfold ranked_reps. intros Hs. pose proof (scored_reps_outcome sales_data) as H.
  rewrite Hs in *. cbn [bind]. intros [= <-] Hn s0 Hin.
  assert (Ho : Forall (ordered score) scored) by now apply (scored_ordered sales_data).
  apply sorted_reverse_stable; [exact Ho|].
  rewrite List.Forall_forall in Ho. now apply Ho.
Qed.

End Ranking.

Section Page.
Import Converter Dashboard Behaviour.

Lemma filterM_total {A} (p : A -> result bool) (l : list A) :
  (forall x, In x l -> exists b, p x = Ok b) -> exists r, filterM p l = Ok r.
Proof.
  induction l as [|x l IH]; intros H; [now eexists|]. cbn [filterM].
  destruct (H x (or_introl eq_refl)) as [b ->]. cbn [bind].
  destruct IH as [r ->]; [intros y Hy; apply H; now right|]. cbn [bind]. now eexists.
Qed.

(** X17 (every converted rep is ranked).  Whatever [convert_excel_to_sales_data]
    returns can be scored and ranked: [ranked_reps] has one entry per row of
    the sheet, and filtering it by a minimum number of appointments never
    fails. *)
Theorem every_converted_rep_is_ranked (py : builtins) (df : DataFrame) (rs : list RepRecord) :
  convert_excel_to_sales_data py df = Ok rs ->
  exists ranked,
    ranked_reps rs = Ok ranked
    /\ length ranked = length (rows df)
    /\ forall min_appointments, exists kept, filtered_reps ranked min_appointments = Ok kept.
Proof.
  intros H. apply convert_excel_to_sales_data_returns in H as [Hlen Hshape].
  destruct (scored_reps_returns rs) as (scored & Hs & HF).
  { eapply List.Forall_impl; [|exact Hshape]. apply dashboard_shape_scored. }
  unfold ranked_reps. rewrite Hs. cbn [bind]. eexists. split; [reflexivity|].
  split.
  - rewrite <- (Permutation_length (sorted_reverse_perm score scored)), <- Hlen.
    symmetry. eapply Forall2_length, HF.
  - intros m. apply filterM_total. intros s Hin.
    apply (Permutation_in _ (Permutation_sym (sorted_reverse_perm score scored))) in Hin.
    assert (exists r, In r rs /\ calculate_performance_score r = Ok s) as (r & Hr & Hrs).
    { clear -HF Hin. induction HF as [|r s' l ss Hrs _ IH]; [destruct Hin|].
      destruct Hin as [-> | Hin]; [exists r; split; [now left | exact Hrs]|].
      destruct (IH Hin) as (r' & Hr' & Hrs'). exists r'. split; [now right | exact Hrs']. }
    apply calculate_performance_score_returns in Hrs as (_ & _ & _ & Ht & _).
    rewrite List.Forall_forall in Hshape. destruct (Hshape r Hr) as ([z Hz] & _).
    rewrite Ht, Hz. now eexists.
Qed.

(** X18 (the quick stats need data).  On an empty data set -- what the
    conversion returns for a sheet without rows -- the two averages raise
    [ZeroDivisionError]; on any other data set the conversion returns, both
    are computed, as floats. *)
Theorem quick_stats_need_data :
  avg_close [] = Raise ZeroDivisionError
  /\ avg_capture [] = Raise ZeroDivisionError
  /\ (forall py df, rows df = [] -> convert_excel_to_sales_data py df = Ok [])
  /\ (forall py df rs,
        convert_excel_to_sales_data py df = Ok rs -> rs <> [] ->
        exists c p, avg_close rs = Ok (Flt c) /\ avg_capture rs = Ok (Flt p)).
Proof.
  split; [reflexivity|]. split; [reflexivity|]. split.
  - intros py df H. unfold convert_excel_to_sales_data. now rewrite H.
  - intros py df rs H Hne. apply convert_excel_to_sales_data_returns in H as [_ Hshape].
    assert (Hlen : num_eqb (Int (Z.of_nat (length rs))) (Int 0) = false).
    { destruct rs; [congruence | reflexivity]. }
    unfold avg_close, avg_capture, py_truediv.
    rewrite !sum_from_numbers, Hlen.
    + cbn [bind]. now eexists _, _.
    + apply List.Forall_forall. intros x Hx. apply in_map_iff in Hx as (r & <- & Hr).
      rewrite List.Forall_forall in Hshape. destruct (Hshape r Hr) as (_ & _ & [n ->] & _).
      now eexists.
    + apply List.Forall_forall. intros x Hx. apply in_map_iff in Hx as (r & <- & Hr).
      rewrite List.Forall_forall in Hshape. destruct (Hshape r Hr) as (_ & [f ->] & _).
      now eexists.
Qed.

Lemma rstrip_empty s : no_leading_space s = true -> rstrip s = "" -> s = "".
Proof.
  destruct s as [|c s]; [reflexivity|]. cbn [no_leading_space]. rewrite rstrip_cons.
  intros Hc. apply negb_true_iff in Hc. rewrite Hc. now destruct (rstrip s).
Qed.

Lemma first_word_None s : first_word s = None <-> strip s = "".
Proof.
  unfold first_word, strip. split.
  - destruct (lstrip s); [reflexivity | discriminate].
  - intros H. apply rstrip_empty in H; [now rewrite H | apply lstrip_no_leading_space].
Qed.

Lemma word_no_space s : Spec.no_space (word s) = true.
Proof.
  induction s as [|c s IH]; [reflexivity|]. cbn [word].
  destruct (is_space c) eqn:E; [reflexivity|]. cbn [Spec.no_space]. now rewrite E, IH.
Qed.

(** X19 (the top-performer card).  With no rep it shows [N/A].  Otherwise it
    shows the first word of the top-ranked rep's name, which has no white
    space in it; it cannot be drawn -- [split()[0]] raises [IndexError] --
    exactly when that name is blank. *)
Theorem top_performer_card_needs_a_name (ranked : list ScoredRep) :
  top_performer_card [] = Some "N/A"
  /\ (top_performer_card ranked = None
      <-> exists top rest, ranked = top :: rest /\ strip (scored_name top) = "")
  /\ (forall w, top_performer_card ranked = Some w -> w <> "" /\ Spec.no_space w = true).
Proof.
  split; [reflexivity|]. unfold top_performer_card. split.
  - rewrite first_word_None. destruct ranked as [|top rest]; cbn [top_performer fst].
    + split; [discriminate | now intros (? & ? & ? & _)].
    + split; [intros H; now exists top, rest | now intros (? & ? & [= <- <-] & H)].
  - intros w. unfold first_word.
    pose proof (lstrip_no_leading_space (fst (top_performer ranked))) as Hl.
    destruct (lstrip _) as [|c s]; [discriminate|]. intros [= <-].
    cbn [no_leading_space] in Hl. apply negb_true_iff in Hl.
    split; [cbn [word]; rewrite Hl; discriminate | apply (word_no_space (String c s))].
Qed.

End Page.

Section LeaderTies.
Import Converter Dashboard Behaviour.

Lemma candidates_ordered cat reps :
  Forall (fun x => is_NaN (snd x) = false) (Spec.candidates cat reps) ->
  Forall (ordered (snd : RepRecord * num -> num)) (Spec.candidates cat reps).
Proof.
  intros H. apply List.Forall_forall. intros x Hx.
  destruct (candidates_float cat reps x Hx) as [f Hf].
  rewrite List.Forall_forall in H. specialize (H x Hx). rewrite Hf in H.
  now exists f.
Qed.

(** X20 (ties between candidates).  When no bucket score is a NaN, the leader of
    a bucket is the first, in data order, of the qualifying reps with the
    highest score: every qualifying rep before it scores strictly less, and
    none after it scores more. *)
Theorem leader_is_the_first_of_the_best (reps : list RepRecord) (cat : string)
    (leaders : gmap string RepRecord) (leader : RepRecord) :
  Forall Spec.well_formed reps -> In cat unit_categories ->
  Forall (fun x => is_NaN (snd x) = false) (Spec.candidates cat reps) ->
  category_leaders reps = Ok leaders -> leaders !! cat = Some leader ->
  exists before s after,
    Spec.candidates cat reps = (before ++ (leader, s) :: after)%list
    /\ Forall (fun x => num_gtb s (snd x) = true) before
    /\ Forall (fun x => num_gtb (snd x) s = false) after.
Proof.
  intros Hw Hcat Hn Hl Hlead.
  destruct (category_leaders_lookup reps Hw) as (leaders' & Hl' & Hk).
  rewrite Hl in Hl'. injection Hl' as <-. rewrite (Hk cat Hcat) in Hlead.
  pose proof (candidates_ordered cat reps Hn) as Ho.
  destruct (Spec.candidates cat reps) as [|first others]; [discriminate|].
  cbn [Spec.elected] in Hlead. injection Hlead as <-.
  destruct (first_max_first_of_the_best snd first others Ho) as (before & after & E & H1 & H2).
  change (first_max snd first others) with (max_by_score first others) in E, H1, H2.
  rewrite E in Ho |- *.
  set (best := max_by_score first others) in *.
  exists before, (snd best), after. split; [now destruct best|].
  assert (Hbest : ordered snd best).
  { rewrite List.Forall_forall in Ho. apply Ho, in_or_app. right. now left. }
  split; apply List.Forall_forall; intros x Hx.
  - rewrite List.Forall_forall in H1, Ho.
    rewrite (ordered_gtb snd best x Hbest); [apply Z.ltb_lt; now apply H1|].
    apply Ho, in_or_app. now left.
  - rewrite List.Forall_forall in H2, Ho.
    rewrite (ordered_gtb snd x best); [apply Z.ltb_ge; now apply H2| |exact Hbest].
    apply Ho, in_or_app. right. now right.
Qed.

End LeaderTies.

Section Thresholds.

(** A number that is at least 3 is at least 2, be it an integer or a
    float. *)
Lemma num_geb_3_2 a : num_geb a (Int 3) = true -> num_geb a (Int 2) = true.
Proof.
  unfold num_geb. destruct a as [z | f]; cbn [num_compare].
  - destruct (Z.compare_spec z 3), (Z.compare_spec z 2); try reflexivity; try discriminate; lia.
  - destruct (Prim2SF f) as [s | s | | s m e]; cbn [Z_compare_SF fmap option_fmap option_map];
      try (cbn; discriminate); try (destruct s; cbn; congruence).
    destruct (0 <=? e) eqn:E.
    + assert (0 < 2 ^ e) by (apply Z.pow_pos_nonneg; [lia | now apply Z.leb_le]).
      destruct (Z.compare_spec 3 (cond_Zopp s (Z.pos m) * 2 ^ e)),
               (Z.compare_spec 2 (cond_Zopp s (Z.pos m) * 2 ^ e));
        cbn; try reflexivity; try discriminate; lia.
    + assert (0 < 2 ^ (- e)) by (apply Z.pow_pos_nonneg; [lia | apply Z.leb_gt in E; lia]).
      destruct (Z.compare_spec (3 * 2 ^ (- e)) (cond_Zopp s (Z.pos m))),
               (Z.compare_spec (2 * 2 ^ (- e)) (cond_Zopp s (Z.pos m)));
        cbn; try reflexivity; try discriminate; lia.
Qed.

End Thresholds.

Section Tables.
Import Converter Dashboard Behaviour.

Lemma category_score_float c p : exists f, category_score c p = Flt f.
Proof. apply (bucket_score_float c p). Qed.

(** What the loop of a table appends for a rep whose bucket has a number of
    appointments. *)
Lemma table_row_cases rep cat_data rank a :
  appointments cat_data = Some a ->
  table_row rep cat_data rank =
  match closeRate cat_data with
  | Some c =>
      if num_geb a (Int 2) && num_gtb c (Int 0) then
        match captureRate cat_data with
        | Some p =>
            Ok (Some {| Rank := rank; Sales_Rep := name rep; Close_Rate := c;
                        Capture_Rate := p; Appointments := a;
                        Score := category_score c (Some p) |})
        | None => Raise TypeError
        end
      else Ok None
  | None => Ok None
  end.
Proof.
  intros Ha. unfold table_row, py_ge, py_cmp. rewrite Ha. cbn [bind].
  destruct (num_geb a (Int 2)); cbn [andb]; [|now destruct (closeRate cat_data)].
  destruct (closeRate cat_data) as [c|]; [|reflexivity].
  destruct (num_gtb c (Int 0)); [|reflexivity].
  now destruct (captureRate cat_data).
Qed.

Lemma table_rows_returns cat reps acc res :
  Forall Spec.well_formed reps -> In cat unit_categories ->
  table_rows cat reps acc = Ok res ->
  exists new,
    res = (acc ++ new)%list
    /\ Forall (fun r => exists f, Score r = Flt f) new
    /\ map row_says (List.filter leads new) = map candidate_says (Spec.candidates cat reps).
Proof.
  intros Hw Hcat. revert acc. induction Hw as [|rep reps Hrep Hw IH]; intros acc.
  - cbn. intros [= <-]. exists []. rewrite app_nil_r. repeat split; constructor.
  - cbn [table_rows]. destruct Hrep as [_ Hb].
    destruct (Hb cat Hcat) as (cat_data & a & Hl & Ha).
    unfold dict_get. rewrite Hl. cbn [bind].
    rewrite (table_row_cases rep cat_data _ a Ha).
    unfold Spec.candidates. cbn [omap list_omap]. fold (Spec.candidates cat reps).
    unfold Spec.leader_candidate at 1. rewrite Hl. cbn [mbind option_bind]. rewrite Ha.
    destruct (closeRate cat_data) as [c|].
    2:{ cbn [bind fmap option_fmap option_map]. intros H. now apply IH in H. }
    destruct (num_geb a (Int 2)) eqn:E2; cbn [andb].
    2:{ assert (num_geb a (Int 3) = false) as ->.
        { destruct (num_geb a (Int 3)) eqn:E3; [|reflexivity].
          apply num_geb_3_2 in E3. congruence. }
        cbn [andb bind fmap option_fmap option_map]. intros H. now apply IH in H. }
    destruct (num_gtb c (Int 0)) eqn:Ec.
    2:{ rewrite andb_false_r. cbn [bind fmap option_fmap option_map].
        intros H. now apply IH in H. }
    destruct (captureRate cat_data) as [p|]; cbn [bind]; [|discriminate].
    intros H. apply IH in H as (new & -> & Hf & Hm).
    eexists (_ :: new). rewrite <- app_assoc. split; [reflexivity|]. split.
    + constructor; [apply category_score_float | exact Hf].
    + cbn [List.filter]. unfold leads at 1. cbn [Appointments]. rewrite andb_true_r.
      destruct (num_geb a (Int 3)); cbn [fmap option_fmap option_map map]; [|exact Hm].
      rewrite Hm. reflexivity.
Qed.

Lemma table_row_score rep cat_data rank r :
  table_row rep cat_data rank = Ok (Some r) -> exists f, Score r = Flt f.
Proof.
  unfold table_row. destruct (py_ge (appointments cat_data) (Int 2)) as [[]|]; cbn [bind];
    try discriminate.
  destruct (appointments cat_data); [|discriminate].
  destruct (closeRate cat_data) as [c|]; [|discriminate].
  destruct (num_gtb c (Int 0)); [|discriminate].
  destruct (shown (captureRate cat_data)); cbn [bind]; [|discriminate].
  intros [= <-]. apply category_score_float.
Qed.

Lemma table_rows_scores cat reps acc res :
  table_rows cat reps acc = Ok res ->
  Forall (fun r => exists f, Score r = Flt f) acc ->
  Forall (fun r => exists f, Score r = Flt f) res.
Proof.
  revert acc. induction reps as [|rep reps IH]; intros acc; cbn [table_rows].
  - now intros [= <-].
  - destruct (dict_get (categories rep) cat) as [cat_data|]; cbn [bind]; [|discriminate].
    destruct (table_row rep cat_data _) as [[r|]|] eqn:E; cbn [bind]; [| |discriminate].
    + intros H Hacc. apply (IH _ H). apply Forall_app. split; [exact Hacc|].
      constructor; [|constructor]. eapply table_row_score, E.
    + apply IH.
Qed.

Lemma table_rows_ordered cat reps res :
  table_rows cat reps [] = Ok res ->
  Forall (fun r => is_NaN (Score r) = false) res -> Forall (ordered Score) res.
Proof.
  intros H Hn. apply table_rows_scores in H; [|constructor].
  apply List.Forall_forall. intros r Hr. rewrite List.Forall_forall in H, Hn.
  destruct (H r Hr) as [f Hf]. specialize (Hn r Hr). rewrite Hf in Hn. now exists f.
Qed.

Lemma find_take {A} (p : A -> bool) n (l : list A) r :
  List.find p (take n l) = Some r -> List.find p l = Some r.
Proof.
  revert l. induction n as [|n IH]; intros l; [now rewrite take_0|].
  destruct l as [|x l]; [discriminate|]. cbn [take List.find].
  destruct (p x); [auto | apply IH].
Qed.

Lemma renumbered_lookup rows i r :
  renumbered rows !! i = Some r ->
  Rank r = Z.of_nat i + 1 /\ exists e, rows !! i = Some e /\ same_but_rank r e.
Proof.
  unfold renumbered. rewrite list_lookup_imap.
  destruct (rows !! i) as [e|]; cbn; [|discriminate].
  intros [= <-]. split; [reflexivity|]. exists e. split; [reflexivity|]. repeat split.
Qed.

Lemma renumbered_length rows : length (renumbered rows) = length rows.
Proof. unfold renumbered. apply length_imap. Qed.

Lemma StronglySorted_app_inv {A} (R : A -> A -> Prop) (l1 l2 : list A) :
  StronglySorted R (l1 ++ l2) ->
  StronglySorted R l1 /\ forall a b, In a l1 -> In b l2 -> R a b.
Proof.
  induction l1 as [|x l1 IH]; cbn [app].
  - intros _. split; [constructor | intros a b []].
  - intros H. apply StronglySorted_inv in H as [Hs Hx].
    apply IH in Hs as [Hs Hab]. apply Forall_app in Hx as [Hx1 Hx2]. split.
    + now constructor.
    + intros a b [<- | Ha] Hb; [|now apply Hab].
      rewrite List.Forall_forall in Hx2. now apply Hx2.
Qed.

(** X23 (the category tables).  When the rows of a bucket's table can be
    built and no score is a NaN, the table shows the ten best of them, or all
    of them when there are fewer: its rows are numbered 1, 2, ... from the
    top and are otherwise rows that were built, each placed higher never
    scores less than one placed lower, and no row left out scores more than a
    row of the table. *)
Theorem category_table_is_the_top_ten (cat : string) (sales_data : list RepRecord)
    (category_reps : list TableRow) :
  table_rows cat sales_data [] = Ok category_reps ->
  Forall (fun r => is_NaN (Score r) = false) category_reps ->
  exists rows left_out,
    category_table cat sales_data = Ok rows
    /\ length rows = Nat.min 10 (length category_reps)
    /\ (forall i r, rows !! i = Some r ->
          Rank r = Z.of_nat i + 1
          /\ exists e, top_ten category_reps !! i = Some e /\ same_but_rank r e)
    /\ (forall i j a b, (i < j)%nat -> rows !! i = Some a -> rows !! j = Some b ->
          num_geb (Score a) (Score b) = true)
    /\ Permutation category_reps (top_ten category_reps ++ left_out)
    /\ (forall a b, In a (top_ten category_reps) -> In b left_out ->
          num_geb (Score a) (Score b) = true).
Proof.
  intros Hrows Hn. pose proof (table_rows_ordered _ _ _ Hrows Hn) as Ho.
  unfold category_table. rewrite Hrows. cbn [bind].
  exists (renumbered (top_ten category_reps)),
         (drop 10 (sorted_reverse Score category_reps)).
  pose proof (sorted_reverse_descending Score category_reps Ho) as Hs.
  rewrite <- (take_drop 10 (sorted_reverse Score category_reps)) in Hs.
  apply StronglySorted_app_inv in Hs as [Hs Hout]. fold (top_ten category_reps) in Hs, Hout.
  split; [reflexivity|]. split.
  { rewrite renumbered_length. unfold top_ten. rewrite length_take.
    now rewrite <- (Permutation_length (sorted_reverse_perm Score category_reps)). }
  split; [intros i r; apply renumbered_lookup|]. split.
  - intros i j a b Hij Ha Hb.
    apply renumbered_lookup in Ha as (_ & ea & Hea & Hsa).
    apply renumbered_lookup in Hb as (_ & eb & Heb & Hsb).
    destruct Hsa as (_ & _ & _ & _ & ->). destruct Hsb as (_ & _ & _ & _ & ->).
    apply (StronglySorted_lookup _ _ i j ea eb Hs Hij Hea Heb).
  - split; [|exact Hout]. unfold top_ten. rewrite take_drop. apply sorted_reverse_perm.
Qed.

Lemma max_by_score_says (first : RepRecord * num) others (r : TableRow) rows :
  map row_says (r :: rows) = map candidate_says (first :: others) ->
  row_says (first_max Score r rows) = candidate_says (max_by_score first others).
Proof.
  unfold max_by_score, first_max. revert r first rows.
  induction others as [|item others IH]; intros r first rows H.
  - destruct rows; [|discriminate]. cbn [map fold_left] in *. congruence.
  - destruct rows as [|r' rows]; [discriminate|]. cbn [fold_left].
    cbn [map] in H.
    assert (H1 : row_says r = candidate_says first) by congruence.
    assert (H2 : row_says r' = candidate_says item) by congruence.
    assert (H3 : map row_says rows = map candidate_says others) by congruence.
    clear H.
    assert (Hk : num_gtb (Score r') (Score r) = num_gtb (snd item) (snd first)).
    { unfold row_says, candidate_says in H1, H2. congruence. }
    rewrite Hk. apply IH. cbn [map].
    destruct (num_gtb (snd item) (snd first)); congruence.
Qed.

(** The first row of the full ranking that has at least 3 appointments
    names the leader. *)
Lemma leader_heads_the_ranking (reps : list RepRecord) (cat : string)
    (leaders : gmap string RepRecord) (category_reps : list TableRow) :
  Forall Spec.well_formed reps -> In cat unit_categories ->
  category_leaders reps = Ok leaders ->
  table_rows cat reps [] = Ok category_reps ->
  Forall (fun r => is_NaN (Score r) = false) category_reps ->
  match List.find leads (sorted_reverse Score category_reps) with
  | Some r =>
      exists leader s,
        leaders !! cat = Some leader
        /\ In (leader, s) (Spec.candidates cat reps)
        /\ Sales_Rep r = name leader /\ Score r = s
  | None => leaders !! cat = None
  end.
Proof.
  intros Hw Hcat Hl Hrows Hn. pose proof (table_rows_ordered _ _ _ Hrows Hn) as Ho.
  destruct (category_leaders_lookup reps Hw) as (leaders' & Hl' & Hk).
  rewrite Hl in Hl'. injection Hl' as <-. rewrite (Hk cat Hcat).
  apply table_rows_returns in Hrows as (new & E & _ & Hm); [|exact Hw | exact Hcat].
  cbn [app] in E. subst new.
  assert (Hfind : List.find leads (sorted_reverse Score category_reps)
                  = hd_error (sorted_reverse Score (List.filter leads category_reps))).
  { rewrite <- (sorted_reverse_filter_commute Score leads category_reps Ho).
    generalize (sorted_reverse Score category_reps). intros l.
    induction l as [|x l IH]; [reflexivity|]. cbn [List.find List.filter].
    destruct (leads x); [reflexivity | exact IH]. }
  rewrite Hfind.
  destruct (List.filter leads category_reps) as [|r rows] eqn:Ef.
  - destruct (Spec.candidates cat reps); [reflexivity | discriminate].
  - destruct (Spec.candidates cat reps) as [|first others] eqn:Ec; [discriminate|].
    rewrite sorted_reverse_head.
    2:{ rewrite <- Ef. apply List.Forall_forall. intros x Hx.
        apply List.filter_In in Hx as [Hx _]. rewrite List.Forall_forall in Ho. now apply Ho. }
    pose proof (max_by_score_says first others r rows Hm) as Hsays.
    cbn [Spec.elected].
    destruct (max_by_score_spec first others) as [Hin _].
    { intros x Hx. apply (candidates_float cat reps). now rewrite Ec. }
    exists (fst (max_by_score first others)), (snd (max_by_score first others)).
    split; [reflexivity|]. split; [now destruct (max_by_score first others)|].
    unfold row_says, candidate_says in Hsays. now injection Hsays.
Qed.

(** X24 (leader cards and tables agree).  For well-formed reps, when the
    rows of a bucket's table can be built and no score is a NaN: the first of
    the ten rows shown that has at least 3 appointments, if there is one,
    names the bucket's leader and carries the leader's score; and when the
    bucket has no leader, no row of the ranking, shown or not, has 3
    appointments. *)
Theorem leader_heads_its_table (reps : list RepRecord) (cat : string)
    (leaders : gmap string RepRecord) (category_reps : list TableRow) :
  Forall Spec.well_formed reps -> In cat unit_categories ->
  category_leaders reps = Ok leaders ->
  table_rows cat reps [] = Ok category_reps ->
  Forall (fun r => is_NaN (Score r) = false) category_reps ->
  (forall r, List.find leads (top_ten category_reps) = Some r ->
     exists leader s,
       leaders !! cat = Some leader
       /\ In (leader, s) (Spec.candidates cat reps)
       /\ Sales_Rep r = name leader /\ Score r = s)
  /\ (leaders !! cat = None -> Forall (fun r => leads r = false) category_reps).
Proof.
  intros Hw Hcat Hl Hrows Hn.
  pose proof (leader_heads_the_ranking reps cat leaders category_reps Hw Hcat Hl Hrows Hn) as H.
  split.
  - intros r Hr. apply find_take in Hr. now rewrite Hr in H.
  - intros Hnone.
    destruct (List.find leads (sorted_reverse Score category_reps)) as [r|] eqn:E.
    + destruct H as (leader & _ & H & _). congruence.
    + apply List.Forall_forall. intros r Hr.
      apply (Permutation_in _ (sorted_reverse_perm Score category_reps)) in Hr.
      destruct (leads r) eqn:Er; [|reflexivity].
      now rewrite (List.find_none _ _ E r Hr) in Er.
Qed.

End Tables.

Section Display.
Import Converter Dashboard Behaviour.

Lemma candidates_In cat reps x :
  In x (Spec.candidates cat reps) ->
  In (fst x) reps /\ Spec.leader_candidate cat (fst x) = Some (snd x).
Proof.
  unfold Spec.candidates. induction reps as [|rep reps IH]; [intros []|].
  cbn [omap list_omap].
  destruct (Spec.leader_candidate cat rep) as [s|] eqn:E; cbn [fmap option_fmap option_map].
  - intros [<- | Hx]; [split; [now left | exact E]|].
    destruct (IH Hx). split; [now right | assumption].
  - intros Hx. destruct (IH Hx). split; [now right | assumption].
Qed.

Lemma leader_candidate_close cat rep s :
  Spec.leader_candidate cat rep = Some s ->
  exists cat_data c, dict_lookup (categories rep) cat = Some cat_data
                     /\ closeRate cat_data = Some c.
Proof.
  unfold Spec.leader_candidate.
  destruct (dict_lookup (categories rep) cat) as [cat_data|]; cbn [mbind option_bind];
    [|discriminate].
  destruct (appointments cat_data); [|discriminate].
  destruct (closeRate cat_data) as [c|] eqn:Ec; [|discriminate]. intros _.
  now exists cat_data, c.
Qed.

(** The leader of a bucket is one of the reps, with a close rate there. *)
Lemma leader_is_a_rep reps cat leaders leader :
  Forall Spec.well_formed reps -> In cat unit_categories ->
  category_leaders reps = Ok leaders -> leaders !! cat = Some leader ->
  In leader reps
  /\ exists cat_data c, dict_lookup (categories leader) cat = Some cat_data
                        /\ closeRate cat_data = Some c.
Proof.
  intros Hw Hcat Hl Hlead.
  destruct (category_leaders_lookup reps Hw) as (leaders' & Hl' & Hk).
  rewrite Hl in Hl'. injection Hl' as <-. rewrite (Hk cat Hcat) in Hlead.
  destruct (Spec.candidates cat reps) as [|first others] eqn:Ec; [discriminate|].
  cbn [Spec.elected] in Hlead. injection Hlead as <-.
  destruct (max_by_score_spec first others) as [Hin _].
  { intros x Hx. apply (candidates_float cat reps). now rewrite Ec. }
  rewrite <- Ec in Hin. apply candidates_In in Hin as [Hin Hc]. split; [exact Hin|].
  eapply leader_candidate_close, Hc.
Qed.

(** The card of a leader. *)
Lemma leader_card_of reps cat leaders leader :
  Forall Spec.well_formed reps -> In cat unit_categories ->
  category_leaders reps = Ok leaders -> leaders !! cat = Some leader ->
  exists cat_data c,
    dict_lookup (categories leader) cat = Some cat_data
    /\ closeRate cat_data = Some c
    /\ leader_card leaders cat =
       match captureRate cat_data with
       | Some p => Ok (Some (name leader, c, p, appointments cat_data))
       | None => Raise TypeError
       end.
Proof.
  intros Hw Hcat Hl Hlead.
  destruct (leader_is_a_rep reps cat leaders leader Hw Hcat Hl Hlead)
    as (_ & cat_data & c & Hd & Hc).
  exists cat_data, c. split; [exact Hd|]. split; [exact Hc|].
  unfold leader_card, dict_get. rewrite Hlead, Hd. cbn [bind]. rewrite Hc. cbn [shown bind].
  now destruct (captureRate cat_data).
Qed.

Lemma table_rows_outcome cat reps acc :
  Forall Spec.well_formed reps -> In cat unit_categories ->
  match table_rows cat reps acc with
  | Ok _ => existsb (listed_without_capture cat) reps = false
  | Raise e => existsb (listed_without_capture cat) reps = true /\ e = TypeError
  end.
Proof.
  intros Hw Hcat. revert acc. induction Hw as [|rep reps Hrep Hw IH]; intros acc; [reflexivity|].
  cbn [table_rows existsb]. destruct Hrep as [_ Hb].
  destruct (Hb cat Hcat) as (cat_data & a & Hd & Ha).
  unfold dict_get, listed_without_capture at 1 3. rewrite Hd, Ha. cbn [bind].
  rewrite (table_row_cases rep cat_data _ a Ha).
  destruct (closeRate cat_data) as [c|]; cbn [bind orb]; [|apply IH].
  destruct (num_geb a (Int 2) && num_gtb c (Int 0)).
  - destruct (captureRate cat_data); cbn [bind orb]; [apply IH | now split].
  - destruct (captureRate cat_data); cbn [bind orb]; apply IH.
Qed.

(** X25 (what is shown needs a capture rate).  For well-formed reps: the
    rows of a bucket's table can be built exactly when no rep that enters the
    table lacks a capture rate in the bucket, and building them raises
    [TypeError] otherwise; and the card of a bucket's leader, who always has a
    close rate, raises [TypeError] exactly when the leader has no capture rate
    there -- although the leader's score counts a missing capture rate as
    0. *)
Theorem what_is_shown_needs_a_capture_rate (reps : list RepRecord) (cat : string) :
  Forall Spec.well_formed reps -> In cat unit_categories ->
  (if existsb (listed_without_capture cat) reps
   then category_table cat reps = Raise TypeError
   else exists rows, category_table cat reps = Ok rows)
  /\ forall leaders leader,
       category_leaders reps = Ok leaders -> leaders !! cat = Some leader ->
       exists cat_data c,
         dict_lookup (categories leader) cat = Some cat_data
         /\ closeRate cat_data = Some c
         /\ leader_card leaders cat =
            match captureRate cat_data with
            | Some p => Ok (Some (name leader, c, p, appointments cat_data))
            | None => Raise TypeError
            end.
Proof.
  intros Hw Hcat. split.
  - unfold category_table. pose proof (table_rows_outcome cat reps [] Hw Hcat) as H.
    destruct (table_rows cat reps []) as [rows|e]; cbn [bind].
    + rewrite H. now eexists.
    + destruct H as [-> ->]. reflexivity.
  - intros leaders leader Hl Hlead. now apply (leader_card_of reps).
Qed.

Lemma dashboard_shape_well_formed r : dashboard_shape r -> Spec.well_formed r.
Proof.
  intros ([z Hz] & _ & _ & Hb). split; [eexists; exact Hz|].
  intros cat Hcat. destruct (Hb cat Hcat) as (cat_data & Hd & [a Ha] & _).
  now exists cat_data, (Int a).
Qed.

Lemma dashboard_shape_listed cat r :
  In cat unit_categories -> dashboard_shape r -> listed_without_capture cat r = false.
Proof.
  intros Hcat (_ & _ & _ & Hb). destruct (Hb cat Hcat) as (cat_data & Hd & _ & _ & [p Hp]).
  unfold listed_without_capture. rewrite Hd, Hp.
  now destruct (appointments cat_data), (closeRate cat_data).
Qed.

Lemma matrix_cells_returns rep cats :
  dashboard_shape (rawData rep) -> (forall cat, In cat cats -> In cat unit_categories) ->
  exists cells, matrix_cells rep cats = Ok cells.
Proof.
  intros (_ & _ & _ & Hb). induction cats as [|cat cats IH]; intros Hc; [now eexists|].
  cbn [matrix_cells].
  destruct (Hb cat (Hc cat (or_introl eq_refl))) as (cat_data & Hd & [a Ha] & _ & [p Hp]).
  unfold dict_get. rewrite Hd. cbn [bind]. unfold matrix_cell, py_ge, py_cmp.
  rewrite Ha, Hp. cbn [bind].
  destruct IH as [cells ->]; [intros c Hin; apply Hc; now right|].
  destruct (num_geb (Int a) (Int 2)), (closeRate cat_data); cbn [shown bind]; now eexists.
Qed.

Lemma matrix_returns ranked :
  Forall (fun s => dashboard_shape (rawData s)) ranked ->
  exists m, matrix ranked = Ok m /\ length m = length ranked.
Proof.
  induction 1 as [|s ranked Hs _ (m & IH & Hlen)]; [now exists []|].
  cbn [matrix]. destruct (matrix_cells_returns s unit_categories Hs) as [cells ->]; [auto|].
  rewrite IH. cbn [bind]. eexists. split; [reflexivity|]. cbn [length]. now rewrite Hlen.
Qed.

(** X26 (the page is drawn for converted data).  For whatever
    [convert_excel_to_sales_data] returns, the three tabs have their data:
    the ranking and the leaders are computed, every leader card and every
    category table is built, and the matrix has one row per row of the
    sheet. *)
Theorem page_is_drawn_for_converted_data (py : builtins) (df : DataFrame)
    (rs : list RepRecord) :
  convert_excel_to_sales_data py df = Ok rs ->
  exists leaders ranked shown_matrix,
    category_leaders rs = Ok leaders
    /\ ranked_reps rs = Ok ranked
    /\ (forall cat, In cat unit_categories ->
          (exists card, leader_card leaders cat = Ok card)
          /\ (exists rows, category_table cat rs = Ok rows))
    /\ matrix ranked = Ok shown_matrix
    /\ length shown_matrix = length (rows df).
Proof.
  intros H. apply convert_excel_to_sales_data_returns in H as [Hlen Hshape].
  assert (Hw : Forall Spec.well_formed rs).
  { eapply List.Forall_impl; [|exact Hshape]. apply dashboard_shape_well_formed. }
  destruct (category_leaders_lookup rs Hw) as (leaders & Hl & Hk).
  destruct (scored_reps_returns rs) as (scored & Hs & HF).
  { eapply List.Forall_impl; [|exact Hshape]. apply dashboard_shape_scored. }
  destruct (matrix_returns (sorted_reverse score scored)) as (m & Hm & Hmlen).
  { rewrite <- (sorted_reverse_perm score scored).
    clear -HF Hshape. induction HF as [|r s l ss Hrs _ IH]; [constructor|].
    apply Forall_cons_1 in Hshape as [Hr Hl]. constructor; [|now apply IH].
    apply calculate_performance_score_returns in Hrs as (_ & _ & _ & _ & ->). exact Hr. }
  exists leaders, (sorted_reverse score scored), m.
  split; [exact Hl|]. split; [unfold ranked_reps; now rewrite Hs|]. split.
  - intros cat Hcat. split.
    + destruct (leaders !! cat) as [leader|] eqn:Hlead.
      * destruct (leader_card_of rs cat leaders leader Hw Hcat Hl Hlead)
          as (cat_data & c & Hd & Hc & ->).
        destruct (leader_is_a_rep rs cat leaders leader Hw Hcat Hl Hlead) as [Hin _].
        rewrite List.Forall_forall in Hshape. destruct (Hshape leader Hin) as (_ & _ & _ & Hb).
        destruct (Hb cat Hcat) as (cat_data' & Hd' & _ & _ & [p Hp]).
        rewrite Hd in Hd'. injection Hd' as <-. rewrite Hp. now eexists.
      * unfold leader_card. rewrite Hlead. now eexists.
    + unfold category_table. pose proof (table_rows_outcome cat rs [] Hw Hcat) as Ht.
      destruct (table_rows cat rs []) as [rows|e]; cbn [bind]; [now eexists|].
      destruct Ht as [Ht _]. apply existsb_exists in Ht as (r & Hr & Hbad).
      rewrite List.Forall_forall in Hshape.
      rewrite (dashboard_shape_listed cat r Hcat (Hshape r Hr)) in Hbad. discriminate.
  - split; [exact Hm|]. rewrite Hmlen, <- Hlen.
    rewrite <- (Permutation_length (sorted_reverse_perm score scored)).
    symmetry. eapply Forall2_length, HF.
Qed.

End Display.

Section SheetId.
Import Dashboard Behaviour.

Lemma split_on_nonempty sep s : split_on sep s <> [].
Proof.
  destruct s as [|c s]; [discriminate|]. cbn [split_on].
  destruct (Ascii.eqb c sep); [discriminate|]. now destruct (split_on sep s).
Qed.

Lemma split_on_length sep s : length (split_on sep s) = S (count_char sep s).
Proof.
  induction s as [|c s IH]; [reflexivity|]. cbn [split_on count_char].
  destruct (Ascii.eqb c sep); cbn [length Nat.add]; [now rewrite IH|].
  destruct (split_on sep s); [discriminate IH | exact IH].
Qed.

(** A piece without the separator, then the separator, then more text. *)
Lemma split_on_piece sep piece s :
  count_char sep piece = 0%nat ->
  split_on sep (piece ++ String sep s) = piece :: split_on sep s.
Proof.
  induction piece as [|c piece IH].
  - intros _. change (split_on sep (String sep s) = "" :: split_on sep s).
    cbn [split_on]. now rewrite Ascii.eqb_refl.
  - change (String c piece ++ String sep s) with (String c (piece ++ String sep s)).
    cbn [count_char split_on].
    destruct (Ascii.eqb c sep); [discriminate|]. intros H. now rewrite (IH H).
Qed.

Lemma split_on_last sep piece :
  count_char sep piece = 0%nat -> split_on sep piece = [piece].
Proof.
  induction piece as [|c piece IH]; cbn [count_char split_on]; [reflexivity|].
  destruct (Ascii.eqb c sep); [discriminate|]. intros H. now rewrite (IH H).
Qed.

(** [split] undoes [join]. *)
Lemma split_on_concat sep pieces :
  pieces <> [] -> Forall (fun piece => count_char sep piece = 0%nat) pieces ->
  split_on sep (String.concat (String sep EmptyString) pieces) = pieces.
Proof.
  intros Hne H. induction H as [|piece pieces Hp Hps IH]; [congruence|].
  destruct pieces as [|piece' pieces].
  - cbn [String.concat]. now apply split_on_last.
  - change (String.concat (String sep "") (piece :: piece' :: pieces))
      with (piece ++ String sep (String.concat (String sep "") (piece' :: pieces))).
    rewrite split_on_piece by exact Hp. now rewrite IH.
Qed.

(** X21 (the sheet id).  It is the sixth of the pieces the address falls into at
    its slashes; an address with fewer than five slashes has none, which the
    caller reports as a connection error. *)
Theorem sheet_id_is_the_sixth_piece :
  (forall pieces,
     pieces <> [] -> Forall (fun piece => count_char "/" piece = 0%nat) pieces ->
     sheet_id (String.concat "/" pieces) = pieces !! 5%nat)
  /\ (forall sheet_url, sheet_id sheet_url = None <-> (count_char "/" sheet_url < 5)%nat).
Proof.
  unfold sheet_id. split.
  - intros pieces Hne H. now rewrite split_on_concat.
  - intros sheet_url. rewrite lookup_ge_None, split_on_length. lia.
Qed.

End SheetId.

(* ================================================================= *)
(** ** The converter: the sample file *)

Section Sample.
Import Converter Behaviour.

(** Columns of different lengths do not make a frame. *)
Lemma DataFrame_of_columns_ragged (data : list (string * list value)) a b :
  In a data -> In b data -> length (snd a) <> length (snd b) ->
  DataFrame_of_columns data = Raise ValueError.
Proof.
  intros Ha Hb Hne. unfold DataFrame_of_columns.
  destruct data as [|[k first] data']; [destruct Ha|].
  destruct (forallb _ _) eqn:E; [|reflexivity]. exfalso.
  rewrite forallb_forall in E.
  apply E in Ha, Hb. apply Nat.eqb_eq in Ha, Hb. congruence.
Qed.

(** X22 (the sample file is never written).  [sample_data] pairs three reps with
    five values per bucket column, so building the frame raises [ValueError]
    and [create_sample_excel] raises it for every file name. *)
Theorem sample_file_is_never_written (filename : string) :
  (exists rep_column bucket_column,
     dict_lookup sample_data "Sales Rep" = Some rep_column /\ length rep_column = 3%nat
     /\ dict_lookup sample_data (appts_col "0-4") = Some bucket_column
     /\ length bucket_column = 5%nat)
  /\ create_sample_excel filename = Raise ValueError.
Proof.
  split.
  - eexists _, _. split; [vm_compute; reflexivity|]. split; [reflexivity|].
    split; [vm_compute; reflexivity | reflexivity].
  - unfold create_sample_excel.
    rewrite (DataFrame_of_columns_ragged sample_data
               ("Sales Rep", texts ["John Doe"; "Jane Smith"; "Bob Johnson"])
               (appts_col "0-4", ints [8; 6; 4; 4; 3])).
    + reflexivity.
    + vm_compute. tauto.
    + vm_compute. tauto.
    + cbn. discriminate.
Qed.

End Sample.

(* ================================================================= *)
(** ** The further properties at sample inputs *)

Section FurtherWitnesses.
Import Converter Dashboard Behaviour.


(** Ann's relabelled row holds her total under [Issued Appts]. *)
Lemma relabelled_row_cells_witness :
  relabelled (Examples.table [Examples.ann]) (0, Examples.ann) !! "Issued Appts"
  = Some (row_get Examples.ann
            (mapped (column_mapping_of (columns (Examples.table [Examples.ann])))
                    "Issued Appts")
            (VNum (Int 0))).
Proof.
  exact (proj1 (proj2 (relabelled_row_cells (Examples.table [Examples.ann]) (0, Examples.ann)))
           "Issued Appts" (or_introl eq_refl)).
Defined.

(** The statistics of a one-rep set. *)
Lemma statistics_are_bounded_witness :
  validate_data [Examples.synthetic] = Ok (Spec.stats [Examples.synthetic])
  /\ total_reps (Spec.stats [Examples.synthetic]) = 1
  /\ 0 <= reps_with_appointments (Spec.stats [Examples.synthetic])
     <= total_reps (Spec.stats [Examples.synthetic]).
Proof.
  assert (H : validate_data [Examples.synthetic] = Ok (Spec.stats [Examples.synthetic]))
    by (vm_compute; reflexivity).
  split; [exact H|].
  destruct (statistics_are_bounded [Examples.synthetic] (Spec.stats [Examples.synthetic]) H)
    as (H1 & _ & H3 & _).
  split; [exact H1 | exact H3].
Defined.

(** A one-rep set of a uniform record is accepted. *)
Lemma validator_accepts_witness :
  [Examples.synthetic] <> [] /\ Forall Spec.well_formed [Examples.synthetic]
  /\ exists st, validate_data [Examples.synthetic] = Ok st.
Proof.
  assert (H : [Examples.synthetic] <> [] /\ Forall Spec.well_formed [Examples.synthetic])
    by (split; [discriminate | constructor; [apply uniform_well_formed | constructor]]).
  split; [apply H|]. split; [apply H|].
  exact (proj2 (validator_accepts_exactly_well_formed_sets [Examples.synthetic]) H).
Defined.

(** Ann's row is readable and converts; Bob's is not, and the table with
    both does not convert. *)
Lemma dashboard_conversion_witness :
  (exists rs, convert_excel_to_sales_data Examples.no_text_numbers
                (Examples.table [Examples.ann]) = Ok rs
              /\ length rs = 1%nat)
  /\ convert_excel_to_sales_data Examples.no_text_numbers
       (Examples.table [Examples.ann; Examples.bob]) = Raise TypeError.
Proof.
  split.
  - exact (proj1 (dashboard_conversion_needs_every_overall_close Examples.no_text_numbers
                    (Examples.table [Examples.ann])) eq_refl).
  - exact (proj1 (proj2 (dashboard_conversion_needs_every_overall_close
                           Examples.no_text_numbers
                           (Examples.table [Examples.ann; Examples.bob]))) eq_refl).
Defined.

Lemma ann_converts :
  convert_excel_to_sales_data Examples.no_text_numbers (Examples.table [Examples.ann])
  = Ok (Examples.converted (Examples.table [Examples.ann])).
Proof. vm_compute. reflexivity. Qed.

(** Ann's record has the shape of the dashboard's records. *)
Lemma dashboard_records_have_a_shape_witness :
  convert_excel_to_sales_data Examples.no_text_numbers (Examples.table [Examples.ann])
  = Ok (Examples.converted (Examples.table [Examples.ann]))
  /\ Forall dashboard_shape (Examples.converted (Examples.table [Examples.ann])).
Proof.
  split; [exact ann_converts|].
  exact (dashboard_records_have_a_shape Examples.no_text_numbers
           (Examples.table [Examples.ann]) _ ann_converts).
Defined.

(** The synthetic rep can be scored. *)
Lemma scoring_precondition_witness :
  counted_buckets Examples.synthetic /\ overallClose Examples.synthetic <> None
  /\ exists scored, calculate_performance_score Examples.synthetic = Ok scored.
Proof.
  assert (H : counted_buckets Examples.synthetic /\ overallClose Examples.synthetic <> None).
  { split; [|discriminate]. intros cat Hcat.
    destruct (uniform_well_formed "Synthetic" (Int 40) (Int 10) (Int 40) (Int 100))
      as [_ Hb]. apply (Hb cat Hcat). }
  split; [apply H|]. split; [apply H|].
  exact (proj2 (proj1 (scoring_precondition Examples.synthetic)) H).
Defined.

Lemma three_reps_ranked :
  ranked_reps [Examples.rep70; Examples.rep85; Examples.rep60]
  = Ok (ranking [Examples.rep70; Examples.rep85; Examples.rep60]).
Proof. vm_compute. reflexivity. Qed.

Lemma three_reps_scored :
  scored_reps [Examples.rep70; Examples.rep85; Examples.rep60]
  = Ok (scores [Examples.rep70; Examples.rep85; Examples.rep60]).
Proof. vm_compute. reflexivity. Qed.

(** Three reps, ranked: the first entry has the highest score. *)
Lemma ranking_is_descending_witness :
  ranked_reps [Examples.rep70; Examples.rep85; Examples.rep60]
  = Ok (ranking [Examples.rep70; Examples.rep85; Examples.rep60])
  /\ Forall (fun s => is_NaN (score s) = false)
            (ranking [Examples.rep70; Examples.rep85; Examples.rep60])
  /\ forall s, In s (ranking [Examples.rep70; Examples.rep85; Examples.rep60]) ->
       num_geb (snd (top_performer (ranking [Examples.rep70; Examples.rep85; Examples.rep60])))
               (score s) = true.
Proof.
  assert (H : Forall (fun s => is_NaN (score s) = false)
                (ranking [Examples.rep70; Examples.rep85; Examples.rep60]))
    by (repeat constructor).
  split; [exact three_reps_ranked|]. split; [exact H|].
  exact (proj2 (ranking_is_descending _ _ three_reps_ranked H)).
Defined.

(** Three reps, ranked: those that share a score keep their order. *)
Lemma ranking_ties_witness :
  Forall (fun s => is_NaN (score s) = false)
         (scores [Examples.rep70; Examples.rep85; Examples.rep60])
  /\ forall s0, In s0 (scores [Examples.rep70; Examples.rep85; Examples.rep60]) ->
       List.filter (fun s => num_eqb (score s) (score s0))
                   (ranking [Examples.rep70; Examples.rep85; Examples.rep60])
       = List.filter (fun s => num_eqb (score s) (score s0))
                     (scores [Examples.rep70; Examples.rep85; Examples.rep60]).
Proof.
  assert (H : Forall (fun s => is_NaN (score s) = false)
                (scores [Examples.rep70; Examples.rep85; Examples.rep60]))
    by (repeat constructor).
  split; [exact H|].
  exact (ranking_ties_keep_the_data_order _ _ _ three_reps_scored three_reps_ranked H).
Defined.

(** Ann's one-row sheet gives a ranking of one. *)
Lemma every_converted_rep_is_ranked_witness :
  exists ranked,
    ranked_reps (Examples.converted (Examples.table [Examples.ann])) = Ok ranked
    /\ length ranked = 1%nat.
Proof.
  destruct (every_converted_rep_is_ranked Examples.no_text_numbers
              (Examples.table [Examples.ann]) _ ann_converts) as (ranked & H1 & H2 & _).
  exists ranked. split; [exact H1 | exact H2].
Defined.

(** The averages of Ann's one-row sheet are computed. *)
Lemma quick_stats_need_data_witness :
  Examples.converted (Examples.table [Examples.ann]) <> []
  /\ exists c p,
       avg_close (Examples.converted (Examples.table [Examples.ann])) = Ok (Flt c)
       /\ avg_capture (Examples.converted (Examples.table [Examples.ann])) = Ok (Flt p).
Proof.
  assert (H : Examples.converted (Examples.table [Examples.ann]) <> [])
    by (vm_compute; discriminate).
  split; [exact H|].
  exact (proj2 (proj2 (proj2 quick_stats_need_data)) Examples.no_text_numbers
           (Examples.table [Examples.ann]) _ ann_converts H).
Defined.

(** The card of the three ranked reps shows the name of the best. *)
Lemma top_performer_card_witness :
  top_performer_card (ranking [Examples.rep70; Examples.rep85; Examples.rep60]) = Some "B"
  /\ "B" <> "" /\ Spec.no_space "B" = true.
Proof.
  assert (H : top_performer_card (ranking [Examples.rep70; Examples.rep85; Examples.rep60])
              = Some "B") by (vm_compute; reflexivity).
  split; [exact H|].
  exact (proj2 (proj2 (top_performer_card_needs_a_name _)) "B" H).
Defined.

(** Of the reps scoring 70, 85 and 60 the second leads, ahead of one
    candidate and followed by one. *)
Lemma leader_is_the_first_of_the_best_witness :
  exists leaders before s after,
    category_leaders [Examples.rep70; Examples.rep85; Examples.rep60] = Ok leaders
    /\ leaders !! "0-4" = Some Examples.rep85
    /\ Spec.candidates "0-4" [Examples.rep70; Examples.rep85; Examples.rep60]
       = (before ++ (Examples.rep85, s) :: after)%list
    /\ Forall (fun x => num_gtb s (snd x) = true) before
    /\ Forall (fun x => num_gtb (snd x) s = false) after.
Proof.
  assert (Hw : Forall Spec.well_formed [Examples.rep70; Examples.rep85; Examples.rep60])
    by (repeat constructor; apply uniform_well_formed).
  assert (Hn : Forall (fun x => is_NaN (snd x) = false)
                 (Spec.candidates "0-4" [Examples.rep70; Examples.rep85; Examples.rep60]))
    by (repeat constructor).
  destruct (category_leaders_lookup _ Hw) as (leaders & Hl & Hk).
  assert (Hlead : leaders !! "0-4" = Some Examples.rep85)
    by (rewrite Hk by (now left); vm_compute; reflexivity).
  destruct (leader_is_the_first_of_the_best _ "0-4" leaders Examples.rep85
              Hw (or_introl eq_refl) Hn Hl Hlead) as (before & s & after & H).
  exists leaders, before, s, after. split; [exact Hl|]. split; [exact Hlead | exact H].
Defined.

(** The id of a sheet address. *)
Lemma sheet_id_witness :
  sheet_id "https://docs.google.com/spreadsheets/d/1AbC/edit" = Some "1AbC".
Proof.
  exact (proj1 sheet_id_is_the_sixth_piece
           ["https:"; ""; "docs.google.com"; "spreadsheets"; "d"; "1AbC"; "edit"]
           ltac:(discriminate) ltac:(repeat constructor)).
Defined.

Lemma three_reps_table :
  table_rows "0-4" [Examples.rep70; Examples.rep85; Examples.rep60] []
  = Ok (table_of "0-4" [Examples.rep70; Examples.rep85; Examples.rep60]).
Proof. vm_compute. reflexivity. Qed.

(** The table of three reps has three rows, numbered from 1. *)
Lemma category_table_witness :
  Forall (fun r => is_NaN (Score r) = false)
         (table_of "0-4" [Examples.rep70; Examples.rep85; Examples.rep60])
  /\ exists rows,
       category_table "0-4" [Examples.rep70; Examples.rep85; Examples.rep60] = Ok rows
       /\ length rows = 3%nat.
Proof.
  assert (H : Forall (fun r => is_NaN (Score r) = false)
                (table_of "0-4" [Examples.rep70; Examples.rep85; Examples.rep60]))
    by (repeat constructor).
  split; [exact H|].
  destruct (category_table_is_the_top_ten "0-4" _ _ three_reps_table H)
    as (rows & _ & H1 & H2 & _).
  exists rows. split; [exact H1 | exact H2].
Defined.

(** The first row of the table of three reps names the leader. *)
Lemma leader_heads_its_table_witness :
  exists leaders r leader s,
    category_leaders [Examples.rep70; Examples.rep85; Examples.rep60] = Ok leaders
    /\ List.find leads (top_ten (table_of "0-4" [Examples.rep70; Examples.rep85; Examples.rep60]))
       = Some r
    /\ leaders !! "0-4" = Some leader
    /\ Sales_Rep r = name leader /\ Score r = s.
Proof.
  assert (Hw : Forall Spec.well_formed [Examples.rep70; Examples.rep85; Examples.rep60])
    by (repeat constructor; apply uniform_well_formed).
  assert (Hn : Forall (fun r => is_NaN (Score r) = false)
                 (table_of "0-4" [Examples.rep70; Examples.rep85; Examples.rep60]))
    by (repeat constructor).
  destruct (category_leaders_lookup _ Hw) as (leaders & Hl & _).
  destruct (List.find leads
              (top_ten (table_of "0-4" [Examples.rep70; Examples.rep85; Examples.rep60])))
    as [r|] eqn:Hr; [|vm_compute in Hr; discriminate Hr].
  destruct (proj1 (leader_heads_its_table _ "0-4" leaders _ Hw (or_introl eq_refl) Hl
                     three_reps_table Hn) r Hr) as (leader & s & H1 & _ & H2 & H3).
  exists leaders, r, leader, s. repeat split; assumption.
Defined.

Lemma without_capture_well_formed : Forall Spec.well_formed [without_capture].
Proof.
  constructor; [|constructor]. split; [now eexists|]. intros cat Hc.
  exists {| appointments := Some (Int 10); closeRate := Some (Int 50); captureRate := None |},
         (Int 10).
  split; [|reflexivity].
  apply (dict_lookup_map
           (fun _ => {| appointments := Some (Int 10); closeRate := Some (Int 50);
                        captureRate := None |}) unit_categories cat Hc).
Qed.

(** A rep without capture rates leads every bucket, and neither its card
    nor its table can be shown. *)
Lemma what_is_shown_witness :
  category_table "0-4" [without_capture] = Raise TypeError
  /\ exists leaders,
       category_leaders [without_capture] = Ok leaders
       /\ leaders !! "0-4" = Some without_capture
       /\ leader_card leaders "0-4" = Raise TypeError.
Proof.
  pose proof (what_is_shown_needs_a_capture_rate [without_capture] "0-4"
                without_capture_well_formed (or_introl eq_refl)) as [H1 H2].
  split; [exact H1|].
  destruct (category_leaders_lookup _ without_capture_well_formed) as (leaders & Hl & Hk).
  assert (Hlead : leaders !! "0-4" = Some without_capture)
    by (rewrite Hk by (now left); vm_compute; reflexivity).
  exists leaders. split; [exact Hl|]. split; [exact Hlead|].
  destruct (H2 leaders without_capture Hl Hlead) as (cat_data & c & Hd & _ & H).
  rewrite H. injection Hd as <-. reflexivity.
Defined.

(** The page of Ann's one-row sheet has its data. *)
Lemma page_is_drawn_witness :
  exists leaders ranked shown_matrix,
    category_leaders (Examples.converted (Examples.table [Examples.ann])) = Ok leaders
    /\ ranked_reps (Examples.converted (Examples.table [Examples.ann])) = Ok ranked
    /\ matrix ranked = Ok shown_matrix
    /\ length shown_matrix = 1%nat.
Proof.
  destruct (page_is_drawn_for_converted_data Examples.no_text_numbers
              (Examples.table [Examples.ann]) _ ann_converts)
    as (leaders & ranked & m & H1 & H2 & _ & H3 & H4).
  exists leaders, ranked, m. repeat split; assumption.
Defined.

End FurtherWitnesses.
